(** * Membership-payment handlers: a shallow embedding and its properties

    The development models the Cloud Functions of the repository:

    - [Http]   : [src/index.ts] (and its v2 copies, which carry the same
                 webhook transaction and the same monthly rollover):
                 [createPayPalOrder], [paypalWebhookHandler],
                 [resetMonthlyEarnings];
    - [PubSub] : [src/index.js]: the simplified [createPayPalOrder], the
                 Pub/Sub [paypalWebhookHandler], [getMonthlySalesReport]
                 and [getYearlySalesReport];
    - [V2]     : the [createPayPalOrder] of the v2 copy of [src/index.ts],
                 which throws plain errors;
    - [Listing]: [getSalespersonData] of [src/index.ts].

    JavaScript numbers are IEEE-754 binary64 values ([spec_float] at
    precision 53), documents are finite maps from field names to values,
    and the document store is a finite map from document paths to
    documents.  The store is the contract the handlers are written
    against: a read returns the document or its absence, [update] needs
    an existing document, [set] creates or replaces one, and the writes of
    a transaction (or of a batch) are buffered and applied together at
    commit, or not at all.  Two checks of the SDK are part of the
    contract: a write is refused when one of its fields is undefined or
    is an increment by NaN, and a transaction refuses a read once it has
    queued a write. *)

From Stdlib Require Import ZArith String Ascii List Bool Lia.
From Stdlib.Floats Require Import SpecFloat.
From stdpp Require Import gmap strings list fin_maps sorting.

Local Open Scope Z_scope.
Local Open Scope string_scope.
Local Open Scope list_scope.

(** ** JavaScript numbers *)

Module Num.

Definition number : Type := spec_float.

Definition prec : Z := 53.
Definition emax : Z := 1024.

Definition of_Z (z : Z) : number := binary_normalize prec emax z 0 false.
Definition zero : number := S754_zero false.
Definition one : number := of_Z 1.
Definition nan : number := S754_nan.

Definition add (x y : number) : number := SFadd prec emax x y.
Definition mul (x y : number) : number := SFmul prec emax x y.
Definition div (x y : number) : number := SFdiv prec emax x y.

(** [x < y] and [x > y] of the language; false as soon as one side is NaN. *)
Definition ltb (x y : number) : bool := SFltb x y.
Definition gtb (x y : number) : bool := SFltb y x.

Definition is_nan (x : number) : bool :=
  match x with S754_nan => true | _ => false end.

Definition is_zero (x : number) : bool :=
  match x with S754_zero _ => true | _ => false end.

(** ToBoolean on a number: [+0], [-0] and [NaN] are falsy. *)
Definition truthy (x : number) : bool := negb (is_zero x || is_nan x).

(** The value of a decimal literal [m * 10^e10], correctly rounded. *)
Definition of_decimal (neg : bool) (m : Z) (e10 : Z) : number :=
  match m with
  | Zpos p =>
      if (0 <=? e10)%Z
      then binary_normalize prec emax
             (if neg then - (m * 10 ^ e10) else m * 10 ^ e10) 0 neg
      else match 10 ^ (- e10) with
           | Zpos q => div (S754_finite neg p 0) (S754_finite false q 0)
           | _ => nan
           end
  | _ => S754_zero neg
  end.

(** The literals [0.20] and [0.10] of the two webhook handlers. *)
Definition lit_0_20 : number := of_decimal false 20 (-2).
Definition lit_0_10 : number := of_decimal false 10 (-2).

End Num.

Abbreviation number := Num.number.

(** ** Strings: the pieces of the String and global objects in use *)

Module Str.

Definition eqb (a b : string) : bool := String.eqb a b.

(** ToBoolean on a string: only the empty string is falsy. *)
Definition truthy (s : string) : bool :=
  match s with EmptyString => false | _ => true end.

(** [s.split(sep)] for a one-character separator. *)
Fixpoint split_go (sep : ascii) (cur : string) (s : string) : list string :=
  match s with
  | EmptyString => [String.rev cur]
  | String c r =>
      if Ascii.eqb c sep
      then String.rev cur :: split_go sep EmptyString r
      else split_go sep (String c cur) r
  end.

Definition split (sep : ascii) (s : string) : list string :=
  split_go sep EmptyString s.

Definition digit_of (c : ascii) : option Z :=
  let n := Z.of_N (N_of_ascii c) in
  if ((48 <=? n) && (n <=? 57))%Z then Some (n - 48) else None.

Definition is_white (c : ascii) : bool :=
  let n := Z.of_N (N_of_ascii c) in
  (((9 <=? n) && (n <=? 13)) || (n =? 32))%Z.

Fixpoint trim_start (s : string) : string :=
  match s with
  | String c r => if is_white c then trim_start r else s
  | EmptyString => s
  end.

(** Reads a run of decimal digits: the accumulated value, how many digits
    were read, and what follows them. *)
Fixpoint digits (s : string) (acc : Z) (cnt : Z) : Z * Z * string :=
  match s with
  | String c r =>
      match digit_of c with
      | Some d => digits r (10 * acc + d) (cnt + 1)
      | None => (acc, cnt, s)
      end
  | EmptyString => (acc, cnt, s)
  end.

Definition sign_of (s : string) : bool * string :=
  match s with
  | String "-" r => (true, r)
  | String "+" r => (false, r)
  | _ => (false, s)
  end.

(** The exponent part [e[+-]ddd]; it only counts when digits follow. *)
Definition exponent (s : string) : Z * string :=
  match s with
  | String c r =>
      if Ascii.eqb c "e" || Ascii.eqb c "E"
      then let '(neg, r') := sign_of r in
           let '(v, cnt, rest) := digits r' 0 0 in
           if (cnt =? 0)%Z then (0, s) else ((if neg then - v else v), rest)
      else (0, s)
  | EmptyString => (0, s)
  end.

(** The longest prefix of [s] that is a decimal literal, as a number, and
    the rest of the string; [None] when no prefix is one. *)
Definition decimal_prefix (s : string) : option (number * string) :=
  let '(neg, r0) := sign_of s in
  if String.prefix "Infinity" r0
  then Some (S754_infinity neg, String.substring 8 (String.length r0 - 8) r0)
  else
    let '(ip, ni, r1) := digits r0 0 0 in
    let '(m, nf, r2) :=
      match r1 with
      | String "." r => digits r ip 0
      | _ => (ip, 0, r1)
      end in
    if (ni + nf =? 0)%Z then None
    else let '(ex, r3) := exponent r2 in
         Some (Num.of_decimal neg m (ex - nf), r3).

(** The global [parseFloat]: leading white space is skipped, the longest
    decimal prefix is read, anything else gives NaN. *)
Definition parseFloat (s : string) : number :=
  match decimal_prefix (trim_start s) with
  | Some (n, _) => n
  | None => Num.nan
  end.

(** [Number(s)] on a string, for decimal literals: the whole trimmed
    string has to be the literal, and the empty string is [0]. *)
Definition to_number (s : string) : number :=
  match trim_start s with
  | EmptyString => Num.zero
  | t => match decimal_prefix t with
         | Some (n, rest) =>
             match trim_start rest with
             | EmptyString => n
             | _ => Num.nan
             end
         | None => Num.nan
         end
  end.

End Str.

(** ** Values, documents and the document store *)

#[warnings="-register-all"]
Inductive value : Type :=
| VUndefined
| VNull
| VBool (b : bool)
| VNum (n : number)
| VStr (s : string)
| VTime (ms : Z)
| VMap (m : gmap string value)
| VBuiltin (name : string)
| VText (left : value) (right : number).

Abbreviation doc := (gmap string value).
Abbreviation path := (list string).
Abbreviation store := (gmap (list string) (gmap string value)).

Module Js.

(** ToBoolean. *)
Definition truthy (v : value) : bool :=
  match v with
  | VUndefined | VNull => false
  | VBool b => b
  | VNum n => Num.truthy n
  | VStr s => Str.truthy s
  | VTime _ | VMap _ | VBuiltin _ | VText _ _ => true
  end.

(** [a || b]. *)
Definition or_else (a b : value) : value := if truthy a then a else b.

(** ToNumber, as the relational operators apply it. *)
Definition to_number (v : value) : number :=
  match v with
  | VUndefined => Num.nan
  | VNull => Num.zero
  | VBool b => if b then Num.one else Num.zero
  | VNum n => n
  | VStr s => Str.to_number s
  | VTime _ | VMap _ | VBuiltin _ | VText _ _ => Num.nan
  end.

(** [a && b]. *)
Definition and_then (a b : value) : value := if truthy a then b else a.

(** [v + n] for a number [n]: numeric addition, unless [v] is a string or
    an object, where the result is the text of [v] followed by the text of
    [n], kept as [VText]. *)
Definition plus (v : value) (n : number) : value :=
  match v with
  | VUndefined | VNull | VBool _ | VNum _ => VNum (Num.add (to_number v) n)
  | VStr _ | VTime _ | VMap _ | VBuiltin _ | VText _ _ => VText v n
  end.

(** [v > 0]. *)
Definition gt_zero (v : value) : bool := Num.gtb (to_number v) Num.zero.

(** [v?.k] for a field name [k] of the data model. *)
Definition field (v : value) (k : string) : value :=
  match v with
  | VMap m => default VUndefined (m !! k)
  | _ => VUndefined
  end.

(** The properties every plain object inherits from [Object.prototype]. *)
Definition object_prototype : list string :=
  ["constructor"; "__proto__"; "hasOwnProperty"; "isPrototypeOf";
   "propertyIsEnumerable"; "toLocaleString"; "toString"; "valueOf";
   "__defineGetter__"; "__defineSetter__"; "__lookupGetter__";
   "__lookupSetter__"].

Definition inherited (k : string) : bool :=
  existsb (Str.eqb k) object_prototype.

(** [o[k]] on a plain object for a key computed at run time: an own
    property first, then the prototype. *)
Definition index (o : gmap string value) (k : string) : value :=
  match o !! k with
  | Some v => v
  | None => if inherited k then VBuiltin k else VUndefined
  end.

(** [v[k]] where [v] was read from a document. *)
Definition index_value (v : value) (k : string) : value :=
  match v with
  | VMap m => index m k
  | _ => VUndefined
  end.

Definition of_string (o : option string) : value :=
  match o with Some s => VStr s | None => VUndefined end.

(** [a || b] on possibly missing strings. *)
Definition or_string (a b : option string) : option string :=
  match a with
  | Some s => if Str.truthy s then a else b
  | None => b
  end.

Definition truthy_string (a : option string) : bool :=
  match a with Some s => Str.truthy s | None => false end.

(** [a || d] where [d] is a string literal. *)
Definition or_default (a : option string) (d : string) : string :=
  match a with
  | Some s => if Str.truthy s then s else d
  | None => d
  end.

(** Template-literal interpolation of a possibly missing string. *)
Definition show (a : option string) : string :=
  match a with Some s => s | None => "undefined" end.

(** [table[k]] on an object literal written in the source: the own
    property, else what [Object.prototype] provides under that name. *)
Inductive property (A : Type) : Type :=
| Own (a : A)
| Inherited (name : string)
| Missing.

Arguments Own {A} a.
Arguments Inherited {A} name.
Arguments Missing {A}.

Fixpoint own {A} (table : list (string * A)) (k : string) : option A :=
  match table with
  | [] => None
  | (k', a) :: rest => if Str.eqb k k' then Some a else own rest k
  end.

Definition lookup {A} (table : list (string * A)) (k : string) : property A :=
  match own table k with
  | Some a => Own a
  | None => if inherited k then Inherited k else Missing
  end.

Definition defined {A} (p : property A) : bool :=
  match p with Missing => false | _ => true end.

(** [p.f] for a field [f] of the table's entries; the inherited builtins
    have no such field. *)
Definition prop {A B} (f : A -> B) (p : property A) : option B :=
  match p with Own a => Some (f a) | _ => None end.

End Js.

(** What one invocation reads from its surroundings: the clock, the id
    generator, and whether the store answers. *)
Record env : Type := Env {
  date_now : Z;
  server_time : Z;
  iso_month : string;
  local_year : string;
  local_month : string;
  auto_id : string;
  store_ok : list string -> bool;
  commit_ok : bool
}.

Inductive level : Type := Info | Warn | Error.

Record log_entry : Type := Log {
  log_level : level;
  log_message : string;
  log_args : list value
}.

Module Firestore.

Inductive field_value : Type :=
| Plain (v : value)
| Increment (d : number)
| ServerTimestamp.

Inductive write : Type :=
| Update (p : path) (fields : list (list string * field_value))
| SetDoc (p : path) (fields : list (string * field_value))
| SetMerge (p : path) (fields : list (string * field_value)).

Definition target (w : write) : path :=
  match w with
  | Update p _ | SetDoc p _ | SetMerge p _ => p
  end.

Definition resolve (e : env) (old : option value) (fv : field_value) : value :=
  match fv with
  | Plain v => v
  | Increment d =>
      match old with
      | Some (VNum x) => VNum (Num.add x d)
      | _ => VNum d
      end
  | ServerTimestamp => VTime (server_time e)
  end.

(** Writes one field, addressed by a dotted field path. *)
Fixpoint update_at (ks : list string) (f : option value -> value)
    (d : gmap string value) : gmap string value :=
  match ks with
  | [] => d
  | k :: ks' =>
      match ks' with
      | [] => <[k := f (d !! k)]> d
      | _ :: _ =>
          let sub := match d !! k with Some (VMap m) => m | _ => ∅ end in
          <[k := VMap (update_at ks' f sub)]> d
      end
  end.

Definition apply_update (e : env) (fields : list (list string * field_value))
    (d : gmap string value) : gmap string value :=
  fold_left (fun acc kf => update_at (fst kf) (fun old => resolve e old (snd kf)) acc)
    fields d.

Definition apply_fields (e : env) (fields : list (string * field_value))
    (d : gmap string value) : gmap string value :=
  fold_left (fun acc kf => <[fst kf := resolve e (acc !! fst kf) (snd kf)]> acc)
    fields d.

(** What the SDK accepts as a field of a write: [undefined] is no value
    of the store, and [FieldValue.increment] wants a number.  (The maps
    the handlers write hold numbers only, so the check stops at the
    fields.) *)
Definition valid_field (fv : field_value) : bool :=
  match fv with
  | Plain VUndefined => false
  | Plain _ => true
  | Increment d => negb (Num.is_nan d)
  | ServerTimestamp => true
  end.

Definition fields_of (w : write) : list field_value :=
  match w with
  | Update _ fields => snd <$> fields
  | SetDoc _ fields | SetMerge _ fields => snd <$> fields
  end.

Definition valid_write (w : write) : bool := forallb valid_field (fields_of w).

(** One write against the store; it is refused when a field is not valid,
    and [update] fails on a missing document. *)
Definition apply_write (e : env) (w : write) (s : store) : option store :=
  if valid_write w then
    match w with
    | Update p fields =>
        match s !! p with
        | Some d => Some (<[p := apply_update e fields d]> s)
        | None => None
        end
    | SetDoc p fields => Some (<[p := apply_fields e fields ∅]> s)
    | SetMerge p fields =>
        Some (<[p := apply_fields e fields (default ∅ (s !! p))]> s)
    end
  else None.

(** The writes of a transaction or batch, in order; all or none. *)
Fixpoint commit (e : env) (ws : list write) (s : store) : option store :=
  match ws with
  | [] => Some s
  | w :: ws' =>
      match apply_write e w s with
      | Some s' => commit e ws' s'
      | None => None
      end
  end.

(** The documents of the collection at [c], with their ids. *)
Fixpoint strip (c p : list string) : option (list string) :=
  match c, p with
  | [], _ => Some p
  | x :: c', y :: p' => if Str.eqb x y then strip c' p' else None
  | _ :: _, [] => None
  end.

Definition member_of (c : list string) (pd : list string * gmap string value)
    : option (string * gmap string value) :=
  match strip c (fst pd) with
  | Some [id] => Some (id, snd pd)
  | _ => None
  end.

Definition collection (c : list string) (s : store)
    : list (string * gmap string value) :=
  omap (member_of c) (map_to_list s).

End Firestore.

(** ** Transactions

    The body of a transaction reads from the store as it stands, queues
    its writes and may throw; it has to read before it writes.
    [runTransaction] commits the queue when the body returns and drops it
    when the body (or the commit) fails.  Log lines are not part of the
    transaction: they stay. *)

Module Tx.

Record state : Type := State {
  writes : list Firestore.write;
  logged : list log_entry
}.

Inductive outcome (A : Type) : Type :=
| Done (a : A) (st : state)
| Thrown (st : state).

Arguments Done {A} a st.
Arguments Thrown {A} st.

Definition t (A : Type) : Type := state -> outcome A.

Definition ret {A} (a : A) : t A := fun st => Done a st.

Definition bind {A B} (m : t A) (k : A -> t B) : t B :=
  fun st =>
    match m st with
    | Done a st' => k a st'
    | Thrown st' => Thrown st'
    end.

Definition throw {A} : t A := fun st => Thrown st.

(** [transaction.get]: all reads of a transaction come before its writes;
    a read after a queued write throws. *)
Definition get (e : env) (s : store) (p : path) : t (option (gmap string value)) :=
  fun st =>
    match writes st with
    | [] => if store_ok e p then Done (s !! p) st else Thrown st
    | _ :: _ => Thrown st
    end.

(** [transaction.update] and [transaction.set]: the write is checked when
    it is queued. *)
Definition queue (w : Firestore.write) : t unit :=
  fun st =>
    if Firestore.valid_write w
    then Done tt (State (writes st ++ [w]) (logged st))
    else Thrown st.

(** The state a transaction body ends in, returned or thrown. *)
Definition state_of {A} (o : outcome A) : state :=
  match o with Done _ st | Thrown st => st end.

Definition log (l : level) (m : string) (a : list value) : t unit :=
  fun st => Done tt (State (writes st) (logged st ++ [Log l m a])).

Record committed : Type := Committed {
  ok : bool;
  after : store;
  output : list log_entry
}.

Definition runTransaction (e : env) (body : store -> t unit) (s : store)
    : committed :=
  match body s (State [] []) with
  | Thrown st => Committed false s (logged st)
  | Done _ st =>
      if commit_ok e
      then match Firestore.commit e (writes st) s with
           | Some s' => Committed true s' (logged st)
           | None => Committed false s (logged st)
           end
      else Committed false s (logged st)
  end.

End Tx.

#[global] Instance tx_ret : MRet Tx.t := @Tx.ret.
#[global] Instance tx_bind : MBind Tx.t := fun A B k m => Tx.bind m k.

(** ** The notification envelope of the payment processor *)

Record Amount : Type := mkAmount {
  value_ : option string;
  currency_code : option string
}.

Record PurchaseUnit : Type := mkPurchaseUnit {
  reference_id : option string;
  custom_id : option string;
  amount : option Amount;
  description : option string
}.

Record Payer : Type := mkPayer { email_address : option string }.

Record Resource : Type := mkResource {
  resource_id : option string;
  purchase_units : option (list PurchaseUnit);
  payer : option Payer;
  status : option string
}.

Record Notification : Type := mkNotification {
  event_type : option string;
  summary : option string;
  resource : option Resource
}.

(** [resource.purchase_units?.[0]] *)
Definition first_unit (r : Resource) : option PurchaseUnit :=
  match purchase_units r with
  | Some (u :: _) => Some u
  | _ => None
  end.

(** [resource.purchase_units?.[0]?.amount] *)
Definition first_amount (r : Resource) : option Amount :=
  match first_unit r with Some u => amount u | None => None end.

(** [resource.purchase_units?.[0]?.amount?.value] *)
Definition amount_value (r : Resource) : option string :=
  match first_amount r with Some a => value_ a | None => None end.

(** [resource.purchase_units?.[0]?.amount?.currency_code] *)
Definition amount_currency (r : Resource) : option string :=
  match first_amount r with Some a => currency_code a | None => None end.

(** [resource.purchase_units?.[0]?.reference_id] and [custom_id] *)
Definition unit_reference (r : Resource) : option string :=
  match first_unit r with Some u => reference_id u | None => None end.

Definition unit_custom (r : Resource) : option string :=
  match first_unit r with Some u => custom_id u | None => None end.

(** [resource.payer?.email_address] *)
Definition payer_email (r : Resource) : option string :=
  match payer r with Some p => email_address p | None => None end.

Definition userRef (uid : string) : path := ["users"; uid].
Definition salespersonRef (sp : string) : path := ["salespersons"; sp].

Definition two_weeks_ms : Z := 14 * 24 * 60 * 60 * 1000.

(** ** Order intake: what both [createPayPalOrder] functions exchange *)

(** The body handed to [OrdersCreateRequest]. *)
Record OrderRequest : Type := mkOrderRequest {
  intent : string;
  unit_reference_id : option string;
  unit_currency_code : option string;
  unit_value : option string;
  unit_description : option string;
  soft_descriptor : string;
  return_url : string;
  cancel_url : string;
  brand_name : string;
  shipping_preference : string;
  user_action : string
}.

(** What the processor answers: the order id and its links (rel, href). *)
Record Order : Type := mkOrder {
  order_id : string;
  links : list (string * string)
}.

Inductive error_code : Type := unauthenticated | invalid_argument | internal.

Inductive reply : Type :=
| Redirect (redirectUrl orderId : string)
| HttpsError (code : error_code) (message : string).

Record Called : Type := mkCalled {
  returned : reply;
  calls : list OrderRequest;
  call_logs : list log_entry
}.

(** ** [src/index.ts]: the HTTPS functions and the monthly job *)

Module Http.

(** *** [createPayPalOrder] *)

Record Tier : Type := mkTier {
  tier_currency_code : string;
  tier_value : string;
  tier_description : string
}.

Definition paymentTiers : list (string * Tier) :=
  [ ("local", mkTier "USD" "50.00" "Local (Botswana Citizens) Membership");
    ("sadc", mkTier "USD" "100.00" "SADC Citizens Membership");
    ("global", mkTier "USD" "380.00" "Access for international users") ].

Record Auth : Type := mkAuth { uid : option string }.

Record PayPalOrderData : Type := mkData {
  selectedTierId : option string;
  userId : option string
}.

Record CallableRequest : Type := mkCall {
  auth : option Auth;
  data : PayPalOrderData
}.

Definition authenticated (r : CallableRequest) : bool :=
  match auth r with
  | Some a => Js.truthy_string (uid a)
  | None => false
  end.

Definition caller (r : CallableRequest) : value :=
  match auth r with Some a => Js.of_string (uid a) | None => VUndefined end.

Definition orderRequest (userId : option string) (selectedTierId : string)
    (selectedTier : Js.property Tier) : OrderRequest :=
  {| intent := "CAPTURE";
     unit_reference_id := userId;
     unit_currency_code := Js.prop tier_currency_code selectedTier;
     unit_value := Js.prop tier_value selectedTier;
     unit_description := Js.prop tier_description selectedTier;
     soft_descriptor := "Membership:" ++ selectedTierId;
     return_url := "https://guided-botswana.web.app/payment-success?userId="
                   ++ Js.show userId ++ "&tier=" ++ selectedTierId;
     cancel_url := "https://guided-botswana.web.app/payment-cancel?userId="
                   ++ Js.show userId;
     brand_name := "Explore Botswana";
     shipping_preference := "NO_SHIPPING";
     user_action := "PAY_NOW" |}.

(** [client] is the processor: it answers an order or throws ([None]). *)
Definition createPayPalOrder (client : OrderRequest -> option Order)
    (request : CallableRequest) : Called :=
  let started := Log Info "createPayPalOrder: Function started." [caller request] in
  if negb (authenticated request)
  then mkCalled
         (HttpsError unauthenticated "User must be authenticated to create an order.")
         [] [started; Log Error "Unauthenticated call to createPayPalOrder." []]
  else
    match selectedTierId (data request) with
    | Some tierId =>
        if Str.truthy tierId then
          let selectedTier := Js.lookup paymentTiers tierId in
          if negb (Js.defined selectedTier)
          then mkCalled
                 (HttpsError invalid_argument "Invalid payment tier selected.")
                 [] [started; Log Error "Invalid payment tier selected."
                                [VStr tierId; caller request]]
          else
            let creating := Log Info "Creating PayPal order"
                              [Js.of_string (userId (data request)); VStr tierId;
                               Js.of_string (Js.prop tier_value selectedTier);
                               Js.of_string (Js.prop tier_currency_code selectedTier)] in
            let payPalRequest := orderRequest (userId (data request)) tierId selectedTier in
            let failure :=
              mkCalled (HttpsError internal "Failed to create PayPal order.")
                [payPalRequest]
                [started; creating; Log Error "Error creating PayPal order:" []] in
            match client payPalRequest with
            | Some order =>
                match Js.own (links order) "approve" with
                | Some href =>
                    mkCalled (Redirect href (order_id order)) [payPalRequest]
                      [started; creating;
                       Log Info "PayPal Order created successfully, redirecting."
                         [VStr (order_id order); VStr href]]
                | None => failure
                end
            | None => failure
            end
        else mkCalled (HttpsError invalid_argument "Payment tier is required.")
               [] [started; Log Error "Invalid argument: selectedTierId is missing."
                              [caller request]]
    | None => mkCalled (HttpsError invalid_argument "Payment tier is required.")
                [] [started; Log Error "Invalid argument: selectedTierId is missing."
                               [caller request]]
    end.

(** *** [paypalWebhookHandler] *)

Record Request : Type := mkRequest {
  method : string;
  body : Notification
}.

Record Response : Type := mkResponse {
  status_code : Z;
  sent : string
}.

Record Handled : Type := mkHandled {
  response : Response;
  final : store;
  logs : list log_entry
}.

Definition commissionRate : number := Num.lit_0_20.

Definition individualSaleRef (sp month saleId : string) : path :=
  salespersonRef sp ++ ["monthlyPayouts"; month; "individualSales"; saleId].

(** [salespersonFullName.split(' ')[i] || null] *)
Definition name_part (fullName : string) (i : nat) : value :=
  match Str.split " " fullName !! i with
  | Some s => if Str.truthy s then VStr s else VNull
  | None => VNull
  end.

Definition userUpdate (e : env) (orderId payerEmail currencyCode : option string)
    (grossAmount : number) : list (list string * Firestore.field_value) :=
  [ (["paymentStatus"], Firestore.Plain (VStr "paid"));
    (["membershipExpiry"], Firestore.Plain (VTime (date_now e + two_weeks_ms)));
    (["lastPaymentDate"], Firestore.ServerTimestamp);
    (["paypalOrderId"], Firestore.Plain (Js.of_string orderId));
    (["paypalPayerEmail"], Firestore.Plain (Js.of_string payerEmail));
    (["paypalGrossAmount"], Firestore.Plain (VNum grossAmount));
    (["paypalCurrencyCode"], Firestore.Plain (Js.of_string currencyCode)) ].

Definition salespersonUpdate (commissionEarned : number)
    : list (list string * Firestore.field_value) :=
  [ (["currentMonthEarnings"], Firestore.Increment commissionEarned);
    (["totalSales"], Firestore.Increment Num.one);
    (["lastUpdated"], Firestore.ServerTimestamp) ].

Definition salespersonCreate (fullName : string) (commissionEarned : number)
    : list (string * Firestore.field_value) :=
  [ ("firstName", Firestore.Plain (name_part fullName 0));
    ("lastName", Firestore.Plain (name_part fullName 1));
    ("fullName", Firestore.Plain (VStr fullName));
    ("currentMonthEarnings", Firestore.Plain (VNum commissionEarned));
    ("totalSales", Firestore.Plain (VNum Num.one));
    ("lastUpdated", Firestore.ServerTimestamp) ].

Definition individualSale (userId : string) (orderId : option string)
    (grossAmount commissionEarned : number)
    : list (string * Firestore.field_value) :=
  [ ("userId", Firestore.Plain (VStr userId));
    ("orderId", Firestore.Plain (Js.of_string orderId));
    ("amount", Firestore.Plain (VNum grossAmount));
    ("commission", Firestore.Plain (VNum commissionEarned));
    ("timestamp", Firestore.ServerTimestamp) ].

(** The function passed to [db.runTransaction].  The user update is queued
    before the salesperson record is read, as in the source.  A
    salesperson reference that is truthy but not a string cannot name a
    document: [doc] throws. *)
Definition reconcile (e : env) (userId : string)
    (orderId payerEmail currencyCode : option string) (grossAmount : number)
    (s : store) : Tx.t unit :=
  userDoc ← Tx.get e s (userRef userId);
  match userDoc with
  | None => Tx.log Warn "User document not found for webhook customId" [VStr userId]
  | Some userData =>
      let salespersonFullName :=
        Js.field (Js.field (VMap userData) "salesperson") "fullName" in
      Tx.queue (Firestore.Update (userRef userId)
                  (userUpdate e orderId payerEmail currencyCode grossAmount));;
      if Js.truthy salespersonFullName then
        match salespersonFullName with
        | VStr fullName =>
            let commissionEarned := Num.mul grossAmount commissionRate in
            spDoc ← Tx.get e s (salespersonRef fullName);
            match spDoc with
            | Some _ =>
                Tx.queue (Firestore.Update (salespersonRef fullName)
                            (salespersonUpdate commissionEarned));;
                Tx.log Info "Salesperson earnings updated"
                  [VStr fullName; VNum commissionEarned]
            | None =>
                Tx.log Warn "Salesperson document missing. Creating new record."
                  [VStr fullName];;
                Tx.queue (Firestore.SetDoc (salespersonRef fullName)
                            (salespersonCreate fullName commissionEarned))
            end;;
            Tx.queue (Firestore.SetDoc
                        (individualSaleRef fullName (iso_month e) (auto_id e))
                        (individualSale userId orderId grossAmount commissionEarned))
        | _ => Tx.throw
        end
      else Tx.log Info "User has no associated salesperson." [VStr userId]
  end.

Definition is_payment_event (eventType : option string) : bool :=
  match eventType with
  | Some t => Str.eqb t "CHECKOUT.ORDER.COMPLETED"
              || Str.eqb t "CHECKOUT.ORDER.APPROVED"
              || Str.eqb t "PAYMENT.CAPTURE.COMPLETED"
  | None => false
  end.

Definition is_denied_event (eventType : option string) : bool :=
  match eventType with
  | Some t => Str.eqb t "PAYMENT.CAPTURE.DENIED"
  | None => false
  end.

Definition is_subscription_event (eventType : option string) : bool :=
  match eventType with
  | Some t => Str.eqb t "BILLING.SUBSCRIPTION.CANCELLED"
              || Str.eqb t "BILLING.SUBSCRIPTION.EXPIRED"
  | None => false
  end.

Definition is_paid_status (paymentStatus : option string) : bool :=
  match paymentStatus with
  | Some st => Str.eqb st "COMPLETED" || Str.eqb st "APPROVED"
  | None => false
  end.

(** [parseFloat(resource.purchase_units?.[0]?.amount?.value || '0')] *)
Definition grossAmount_of (r : Resource) : number :=
  Str.parseFloat (Js.or_default (amount_value r) "0").

(** [reference_id || custom_id] of the first purchase unit. *)
Definition userId_of (r : Resource) : option string :=
  Js.or_string (unit_reference r) (unit_custom r).

Definition processed (s : store) (l : list log_entry) : Handled :=
  mkHandled (mkResponse 200 "Webhook processed.") s l.

Definition failed (s : store) (l : list log_entry) : Handled :=
  mkHandled (mkResponse 500 "Internal Server Error processing webhook.") s
    (l ++ [Log Error "Error processing PayPal webhook:" []]).

Definition paypalWebhookHandler (e : env) (req : Request) (s : store) : Handled :=
  let received := Log Info "paypalWebhookHandler: Webhook received."
                    [Js.of_string (event_type (body req)); VStr (method req)] in
  if negb (Str.eqb (method req) "POST")
  then mkHandled (mkResponse 405 "Method Not Allowed") s [received]
  else
    let eventType := event_type (body req) in
    if is_payment_event eventType then
      match resource (body req) with
      | None => failed s [received]
      | Some r =>
          let orderId := resource_id r in
          let userId := userId_of r in
          let payerEmail := payer_email r in
          let grossAmount := grossAmount_of r in
          let currencyCode := amount_currency r in
          let paymentStatus := status r in
          let payment := Log Info "Payment via webhook"
                           [Js.of_string paymentStatus; Js.of_string orderId;
                            Js.of_string userId; VNum grossAmount;
                            Js.of_string currencyCode; Js.of_string payerEmail] in
          match userId with
          | Some uid =>
              if Str.truthy uid && is_paid_status paymentStatus then
                let c := Tx.runTransaction e
                           (reconcile e uid orderId payerEmail currencyCode grossAmount)
                           s in
                if Tx.ok c
                then processed (Tx.after c) ([received; payment] ++ Tx.output c)
                else failed s ([received; payment] ++ Tx.output c)
              else processed s [received; payment]
          | None => processed s [received; payment]
          end
      end
    else if is_denied_event eventType then
      match resource (body req) with
      | None => failed s [received]
      | Some r =>
          processed s [received;
                       Log Warn "Payment Capture Denied:"
                         [Js.of_string (resource_id r);
                          Js.of_string (unit_reference r)]]
      end
    else if is_subscription_event eventType then
      match resource (body req) with
      | None => failed s [received]
      | Some r =>
          processed s [received;
                       Log Info "Subscription event"
                         [Js.of_string (resource_id r); Js.of_string eventType]]
      end
    else processed s [received;
                      Log Info "Unhandled webhook event type" [Js.of_string eventType]].

(** *** [resetMonthlyEarnings] *)

Definition historicalRef (sp month : string) : path :=
  salespersonRef sp ++ ["historicalPayouts"; month].

(** [salespersonData?.f || 0] *)
Definition counter (salespersonData : gmap string value) (f : string) : value :=
  Js.or_else (Js.field (VMap salespersonData) f) (VNum Num.zero).

Definition has_activity (salespersonData : gmap string value) : bool :=
  Js.gt_zero (counter salespersonData "currentMonthEarnings")
  || Js.gt_zero (counter salespersonData "totalSales").

Definition archive (currentMonth : string) (salespersonData : gmap string value)
    : list (string * Firestore.field_value) :=
  [ ("month", Firestore.Plain (VStr currentMonth));
    ("earnings", Firestore.Plain (counter salespersonData "currentMonthEarnings"));
    ("totalCustomers", Firestore.Plain (counter salespersonData "totalSales"));
    ("archivedAt", Firestore.ServerTimestamp) ].

Definition reset : list (list string * Firestore.field_value) :=
  [ (["currentMonthEarnings"], Firestore.Plain (VNum Num.zero));
    (["totalSales"], Firestore.Plain (VNum Num.zero)) ].

(** The body of [snapshot.forEach]: what one salesperson adds to the batch. *)
Definition rollover (currentMonth : string) (entry : string * gmap string value)
    : list Firestore.write :=
  (if has_activity (snd entry)
   then [Firestore.SetMerge (historicalRef (fst entry) currentMonth)
           (archive currentMonth (snd entry))]
   else [])
  ++ [Firestore.Update (salespersonRef (fst entry)) reset].

Definition rollover_logs (currentMonth : string) (entry : string * gmap string value)
    : list log_entry :=
  (if has_activity (snd entry)
   then [Log Info "Archived earnings" [VStr (fst entry); VStr currentMonth]]
   else [])
  ++ [Log Info "Resetting currentMonthEarnings" [VStr (fst entry)]].

Record Ran : Type := mkRan {
  completed : bool;
  stored : store;
  job_logs : list log_entry
}.

Definition resetMonthlyEarnings (e : env) (s : store) : Ran :=
  let running := Log Info "Running monthly earnings reset for salespersons." [] in
  if store_ok e ["salespersons"] then
    let snapshot := Firestore.collection ["salespersons"] s in
    let currentMonth := iso_month e in
    let batch := flat_map (rollover currentMonth) snapshot in
    let lines := running :: flat_map (rollover_logs currentMonth) snapshot in
    if commit_ok e then
      match Firestore.commit e batch s with
      | Some s' => mkRan true s' (lines ++ [Log Info "Monthly earnings reset complete." []])
      | None => mkRan false s lines
      end
    else mkRan false s lines
  else mkRan false s [running].

End Http.

(** ** [src/index.js]: the simplified order intake, the Pub/Sub webhook
       handler and the sales reports *)

Module PubSub.

Record Tier : Type := mkTier {
  price : number;
  currency : string;
  tier_description : string
}.

Definition paymentTiers : list (string * Tier) :=
  [ ("local", mkTier (Num.of_Z 50) "BWP" "Local (Botswana Citizens) Access");
    ("sadc", mkTier (Num.of_Z 100) "BWP" "SADC Citizens Access");
    ("global", mkTier (Num.of_Z 380) "USD" "Global Citizens Access") ].

(** [context.auth] of a callable: present or not. *)
Record Context : Type := mkContext { auth : option string }.

Record OrderData : Type := mkOrderData {
  userId : option string;
  selectedTierId : option string
}.

(** *** [createPayPalOrder], simplified for diagnosis: the processor is not
        called, a simulated answer is returned. *)
Definition createPayPalOrder (e : env) (data : OrderData) (context : Context)
    (s : store) : Called :=
  let invoked := Log Info "createPayPalOrder: Callable function invoked (SIMPLIFIED FOR TEST)." [] in
  match auth context with
  | None =>
      mkCalled (HttpsError unauthenticated "User must be authenticated to create an order.")
        [] [invoked; Log Error "createPayPalOrder: Unauthenticated request." []]
  | Some _ =>
      if negb (Js.truthy_string (userId data))
         || negb (Js.truthy_string (selectedTierId data))
      then mkCalled (HttpsError invalid_argument "Missing user ID or selected tier ID.")
             [] [invoked; Log Error "createPayPalOrder: Missing userId or selectedTierId in request data." []]
      else
        let tierInfo := Js.lookup paymentTiers (Js.show (selectedTierId data)) in
        if negb (Js.defined tierInfo)
        then mkCalled (HttpsError invalid_argument "Invalid payment tier selected.")
               [] [invoked; Log Error "createPayPalOrder: Invalid selectedTierId"
                              [Js.of_string (selectedTierId data)]]
        else
          let uid := Js.show (userId data) in
          let lookedUp :=
            if store_ok e (userRef uid) then
              match s !! userRef uid with
              | Some userData =>
                  if Js.truthy (Js.field (VMap userData) "salespersonId")
                  then Log Info "createPayPalOrder: Found salespersonId"
                         [Js.field (VMap userData) "salespersonId"; VStr uid]
                  else Log Warn "createPayPalOrder: Salesperson ID not found. Using default."
                         [VStr uid]
              | None => Log Warn "createPayPalOrder: Salesperson ID not found. Using default."
                          [VStr uid]
              end
            else Log Error "createPayPalOrder: Error fetching salespersonId" [VStr uid] in
          mkCalled
            (Redirect "https://example.com/simulated-paypal-redirect" "SIMULATED_ORDER_ID")
            []
            [invoked; lookedUp;
             Log Info "SIMULATED: Would create order"
               [VStr uid; Js.of_string (selectedTierId data);
                Js.of_string (Js.prop currency tierInfo)]]
  end.

(** *** [paypalWebhookHandler] on the topic [paypal-webhooks] *)

(** The message after base64 and JSON decoding, when that succeeds. *)
Inductive Message : Type :=
| Unparseable
| Parsed (payload : Notification).

Record Delivered : Type := mkDelivered {
  thrown : bool;
  final : store;
  logs : list log_entry
}.

Definition commissionRate : number := Num.lit_0_10.

Definition subscription (e : env) (orderId amountValue currencyCode : option string)
    (selectedTierId : string) : list (list string * Firestore.field_value) :=
  [ (["paymentStatus"], Firestore.Plain (VStr "paid"));
    (["membershipExpiry"], Firestore.Plain (VTime (date_now e + two_weeks_ms)));
    (["lastPaymentAmount"], Firestore.Plain (Js.of_string amountValue));
    (["lastPaymentCurrency"], Firestore.Plain (Js.of_string currencyCode));
    (["lastPaymentDate"], Firestore.ServerTimestamp);
    (["paypalOrderId"], Firestore.Plain (Js.of_string orderId));
    (["selectedTier"], Firestore.Plain (VStr selectedTierId)) ].

(** [parseFloat(amountValue)]; a missing value reads as NaN. *)
Definition paid (amountValue : option string) : number :=
  match amountValue with
  | Some v => Str.parseFloat v
  | None => Num.nan
  end.

(** [(data.f && data.f[k]) || 0] *)
Definition bucket (data : gmap string value) (f k : string) : value :=
  Js.or_else
    (Js.and_then (Js.field (VMap data) f)
                 (Js.index_value (Js.field (VMap data) f) k))
    (VNum Num.zero).

(** The function passed to [db.runTransaction]. *)
Definition accrue (e : env) (salespersonId year yearMonth : string)
    (commissionAmount : number) (s : store) : Tx.t unit :=
  salespersonDoc ← Tx.get e s (salespersonRef salespersonId);
  match salespersonDoc with
  | None =>
      Tx.queue (Firestore.SetDoc (salespersonRef salespersonId)
        [ ("name", Firestore.Plain (VStr salespersonId));
          ("totalCommission", Firestore.Plain (VNum commissionAmount));
          ("monthlyCommission",
             Firestore.Plain (VMap {[ yearMonth := VNum commissionAmount ]}));
          ("yearlyCommission",
             Firestore.Plain (VMap {[ year := VNum commissionAmount ]}));
          ("lastSaleDate", Firestore.ServerTimestamp) ]);;
      Tx.log Info "paypalWebhookHandler: Created new salesperson document"
        [VStr salespersonId]
  | Some data =>
      let currentTotal :=
        Js.or_else (Js.field (VMap data) "totalCommission") (VNum Num.zero) in
      let currentMonthly := bucket data "monthlyCommission" yearMonth in
      let currentYearly := bucket data "yearlyCommission" year in
      Tx.queue (Firestore.Update (salespersonRef salespersonId)
        [ (["totalCommission"],
             Firestore.Plain (Js.plus currentTotal commissionAmount));
          ("monthlyCommission" :: Str.split "." yearMonth,
             Firestore.Plain (Js.plus currentMonthly commissionAmount));
          ("yearlyCommission" :: Str.split "." year,
             Firestore.Plain (Js.plus currentYearly commissionAmount));
          (["lastSaleDate"], Firestore.ServerTimestamp) ]);;
      Tx.log Info "paypalWebhookHandler: Updated salesperson commissions."
        [VStr salespersonId]
  end.

Definition retry (s : store) (l : list log_entry) : Delivered :=
  mkDelivered true s
    (l ++ [Log Error "paypalWebhookHandler: Error processing Pub/Sub message:" []]).

Definition finished (s : store) (l : list log_entry) : Delivered :=
  mkDelivered false s
    (l ++ [Log Info "paypalWebhookHandler: Finished processing Pub/Sub message." []]).

(** An early [return]: nothing thrown, the closing line is not logged. *)
Definition returned_early (s : store) (l : list log_entry) : Delivered :=
  mkDelivered false s l.

Definition is_event (t : option string) (name : string) : bool :=
  match t with Some x => Str.eqb x name | None => false end.

(** [paymentTiers[selectedTierId]?.price], as the test [!tierPrice] sees it. *)
Definition has_price (selectedTierId : string) : bool :=
  match Js.lookup paymentTiers selectedTierId with
  | Js.Own t => Num.truthy (price t)
  | _ => false
  end.

Definition paypalWebhookHandler (e : env) (m : Message) (s : store) : Delivered :=
  let received := Log Info "paypalWebhookHandler: Pub/Sub message received (2nd Gen)." [] in
  match m with
  | Unparseable => retry s [received]
  | Parsed webhookPayload =>
      let parsed :=
        [ received;
          Log Info "paypalWebhookHandler: Successfully parsed webhook payload." [];
          Log Info "paypalWebhookHandler: Parsed webhook payload (summary):"
            [Js.of_string (summary webhookPayload)];
          Log Info "paypalWebhookHandler: Parsed webhook payload (event_type):"
            [Js.of_string (event_type webhookPayload)];
          Log Info "paypalWebhookHandler: Parsed webhook payload (resource ID):"
            [match resource webhookPayload with
             | Some r => Js.of_string (resource_id r)
             | None => VStr "N/A"
             end] ] in
      if is_event (event_type webhookPayload) "CHECKOUT.ORDER.APPROVED" then
        let handling := parsed ++
          [Log Info "paypalWebhookHandler: Handling CHECKOUT.ORDER.APPROVED event." []] in
        match resource webhookPayload with
        | None => retry s handling
        | Some r =>
            let orderId := resource_id r in
            match first_amount r, payer r, first_unit r with
            | Some a, Some p, Some unit =>
                let amountValue := value_ a in
                let currencyCode := currency_code a in
                let payerEmail := email_address p in
                let customId := custom_id unit in
                let selectedTierId := description unit in
                match customId, selectedTierId with
                | Some cid, Some tier =>
                    if Str.truthy cid && Str.truthy tier then
                      match Str.split "_" cid !! 0%nat, Str.split "_" cid !! 1%nat with
                      | Some userId, Some salespersonId =>
                          if Str.truthy userId && Str.truthy salespersonId then
                            let extracted := handling ++
                              [Log Info "paypalWebhookHandler: Extracted ids"
                                 [VStr userId; VStr tier; VStr salespersonId]] in
                            let updated :=
                              if store_ok e (userRef userId)
                              then Firestore.apply_write e
                                     (Firestore.Update (userRef userId)
                                        (subscription e orderId amountValue currencyCode tier))
                                     s
                              else None in
                            match updated with
                            | None => retry s extracted
                            | Some s1 =>
                                let subscribed := extracted ++
                                  [Log Info "paypalWebhookHandler: User subscription updated."
                                     [VStr userId; VTime (date_now e + two_weeks_ms)]] in
                                if negb (has_price tier)
                                then returned_early s1 (subscribed ++
                                       [Log Warn "paypalWebhookHandler: Tier price not found. Cannot calculate commission."
                                          [VStr tier]])
                                else
                                  let commissionAmount :=
                                    Num.mul (paid amountValue) commissionRate in
                                  let year := local_year e in
                                  let yearMonth := (year ++ "-" ++ local_month e)%string in
                                  let calculating := subscribed ++
                                    [Log Info "paypalWebhookHandler: Calculating commission"
                                       [VStr salespersonId; VNum commissionAmount;
                                        Js.of_string currencyCode]] in
                                  let c := Tx.runTransaction e
                                             (accrue e salespersonId year yearMonth commissionAmount)
                                             s1 in
                                  if Tx.ok c
                                  then finished (Tx.after c)
                                         (calculating ++ Tx.output c ++
                                          [Log Info "paypalWebhookHandler: Successfully processed CHECKOUT.ORDER.APPROVED"
                                             [Js.of_string orderId]])
                                  else retry s1 (calculating ++ Tx.output c)
                            end
                          else returned_early s (handling ++
                                 [Log Warn "paypalWebhookHandler: Malformed custom_id."
                                    [VStr cid; Js.of_string orderId]])
                      | _, _ => returned_early s (handling ++
                                  [Log Warn "paypalWebhookHandler: Malformed custom_id."
                                     [VStr cid; Js.of_string orderId]])
                      end
                    else returned_early s (handling ++
                           [Log Warn "paypalWebhookHandler: Missing custom_id or description in webhook payload."
                              [Js.of_string orderId]])
                | _, _ => returned_early s (handling ++
                            [Log Warn "paypalWebhookHandler: Missing custom_id or description in webhook payload."
                               [Js.of_string orderId]])
                end
            | _, _, _ => retry s handling
            end
        end
      else if is_event (event_type webhookPayload) "PAYMENT.CAPTURE.COMPLETED" then
        finished s (parsed ++
          [Log Info "paypalWebhookHandler: Handling PAYMENT.CAPTURE.COMPLETED event. (No action taken as APPROVED handles subscription)." []])
      else finished s (parsed ++
             [Log Warn "paypalWebhookHandler: Unhandled webhook event type"
                [Js.of_string (event_type webhookPayload)]])
  end.

(** *** [getMonthlySalesReport] and [getYearlySalesReport] *)

Record ReportData : Type := mkReportData {
  salespersonId : option string;
  period : option string
}.

Record Report : Type := mkReport {
  totalCommission : value;
  sales : list (gmap string value);
  message : option string
}.

Inductive report_reply : Type :=
| Reported (r : Report)
| ReportError (code : error_code) (text : string).

Definition salesRef (sp : string) : path := salespersonRef sp ++ ["sales"].

(** [.collection('sales').where(f, '==', k).get()] then [docs.map(doc => doc.data())] *)
Definition sales_where (f k : string) (sp : string) (s : store)
    : list (gmap string value) :=
  snd <$> List.filter
            (fun entry => match snd entry !! f with
                          | Some (VStr x) => Str.eqb x k
                          | _ => false
                          end)
            (Firestore.collection (salesRef sp) s).

(** The two reports differ in the field they read ([monthlyCommission] or
    [yearlyCommission]), the field they filter the sales on ([saleMonth] or
    [saleYear]) and their messages. *)
Definition salesReport (totals saleField required failure : string)
    (e : env) (data : ReportData) (context : Context) (s : store) : report_reply :=
  match auth context with
  | None => ReportError unauthenticated "Authentication required."
  | Some _ =>
      match salespersonId data, period data with
      | Some sp, Some k =>
          if Str.truthy sp && Str.truthy k then
            if store_ok e (salespersonRef sp) then
              match s !! salespersonRef sp with
              | None =>
                  Reported (mkReport (VNum Num.zero) []
                              (Some "Salesperson not found or no sales data."))
              | Some salespersonData =>
                  let commission :=
                    Js.or_else
                      (Js.index_value (Js.field (VMap salespersonData) totals) k)
                      (VNum Num.zero) in
                  if store_ok e (salesRef sp)
                  then Reported (mkReport commission (sales_where saleField k sp s) None)
                  else ReportError internal failure
              end
            else ReportError internal failure
          else ReportError invalid_argument required
      | _, _ => ReportError invalid_argument required
      end
  end.

Definition getMonthlySalesReport : env -> ReportData -> Context -> store -> report_reply :=
  salesReport "monthlyCommission" "saleMonth"
    "Salesperson ID and year/month are required."
    "Failed to retrieve monthly sales report.".

Definition getYearlySalesReport : env -> ReportData -> Context -> store -> report_reply :=
  salesReport "yearlyCommission" "saleYear"
    "Salesperson ID and year are required."
    "Failed to retrieve yearly sales report.".

End PubSub.

(** ** The v2 copy of the order intake (the second [index.ts] and its
       compiled form): the same function, with plain errors *)

Module V2.

Definition paymentTiers : list (string * Http.Tier) :=
  [ ("local", Http.mkTier "USD" "50.00" "Local (Botswana Citizens) Membership");
    ("sadc", Http.mkTier "USD" "100.00" "SADC Citizens Membership");
    ("global", Http.mkTier "USD" "380.00" "Access for international users") ].

(** What the callable gives back: the redirect, or a thrown [Error]. *)
Inductive outcome : Type :=
| Returned (redirectUrl orderId : string)
| Thrown (message : string).

Record Called : Type := mkCalled {
  result : outcome;
  requests : list OrderRequest;
  console : list log_entry
}.

Definition createPayPalOrder (client : OrderRequest -> option Order)
    (request : Http.CallableRequest) : Called :=
  let started := Log Info "createPayPalOrder: Function started." [Http.caller request] in
  if negb (Http.authenticated request)
  then mkCalled (Thrown "User must be authenticated to create an order.")
         [] [started; Log Error "Unauthenticated call to createPayPalOrder." []]
  else
    match Http.selectedTierId (Http.data request) with
    | Some tierId =>
        if Str.truthy tierId then
          let selectedTier := Js.lookup paymentTiers tierId in
          if negb (Js.defined selectedTier)
          then mkCalled (Thrown "Invalid payment tier selected.")
                 [] [started; Log Error "Invalid payment tier selected."
                                [VStr tierId; Http.caller request]]
          else
            let creating := Log Info "Creating PayPal order"
                              [Js.of_string (Http.userId (Http.data request)); VStr tierId;
                               Js.of_string (Js.prop Http.tier_value selectedTier);
                               Js.of_string (Js.prop Http.tier_currency_code selectedTier)] in
            let payPalRequest :=
              Http.orderRequest (Http.userId (Http.data request)) tierId selectedTier in
            let failure :=
              mkCalled (Thrown "Failed to create PayPal order.") [payPalRequest]
                [started; creating; Log Error "Error creating PayPal order:" []] in
            match client payPalRequest with
            | Some order =>
                match Js.own (links order) "approve" with
                | Some href =>
                    mkCalled (Returned href (order_id order)) [payPalRequest]
                      [started; creating;
                       Log Info "PayPal Order created successfully, redirecting."
                         [VStr (order_id order); VStr href]]
                | None => failure
                end
            | None => failure
            end
        else mkCalled (Thrown "Payment tier is required.")
               [] [started; Log Error "Invalid argument: selectedTierId is missing."
                              [Http.caller request]]
    | None => mkCalled (Thrown "Payment tier is required.")
                [] [started; Log Error "Invalid argument: selectedTierId is missing."
                               [Http.caller request]]
    end.

End V2.

(** ** [getSalespersonData] of [src/index.ts] *)

Module Listing.

Inductive reply : Type :=
| Listed (salespersons : list (gmap string value))
| Failed (code : error_code) (message : string).

Definition monthlyPayoutsRef (sp : string) : path :=
  salespersonRef sp ++ ["monthlyPayouts"].

(** [orderBy('month', ...)] only sees the documents that have the field. *)
Definition has_month (entry : string * gmap string value) : bool :=
  match snd entry !! "month" with Some _ => true | None => false end.

(** [snapshot.docs]: the documents of a collection in the order of their ids. *)
Definition docs (c : list string) (s : store) : list (string * gmap string value) :=
  merge_sort (fun a b => String.le (fst a) (fst b)) (Firestore.collection c s).

(** [monthlyPayoutsSnapshot.empty ? null : monthlyPayoutsSnapshot.docs[0].data()]
    for the query [orderBy('month', 'desc').limit(1)].  Which document comes
    first under the store's order on field values is [first]'s to say: it
    is given one candidate and the others. *)
Definition currentMonthPayout
    (first : string * gmap string value -> list (string * gmap string value)
             -> string * gmap string value)
    (sp : string) (s : store) : value :=
  match List.filter has_month (Firestore.collection (monthlyPayoutsRef sp) s) with
  | [] => VNull
  | c :: cs => VMap (snd (first c cs))
  end.

(** [{ id: doc.id, ...spData, currentMonthPayout: currentMonthPayout }] *)
Definition entry
    (first : string * gmap string value -> list (string * gmap string value)
             -> string * gmap string value)
    (s : store) (d : string * gmap string value) : gmap string value :=
  <["currentMonthPayout" := currentMonthPayout first (fst d) s]>
    (snd d ∪ {[ "id" := VStr (fst d) ]}).

Definition getSalespersonData
    (first : string * gmap string value -> list (string * gmap string value)
             -> string * gmap string value)
    (e : env) (request : Http.CallableRequest) (s : store) : reply :=
  match Http.auth request with
  | None => Failed unauthenticated "Authentication required."
  | Some _ =>
      if store_ok e ["salespersons"] then
        let snapshot := docs ["salespersons"] s in
        if forallb (fun d => store_ok e (monthlyPayoutsRef (fst d))) snapshot
        then Listed (entry first s <$> snapshot)
        else Failed internal "Failed to retrieve salesperson data."
      else Failed internal "Failed to retrieve salesperson data."
  end.

End Listing.

(** ** The vocabulary of the properties *)

(** The store answers every read and every commit of this invocation. *)
Definition reliable (e : env) : Prop :=
  (forall p, store_ok e p = true) /\ commit_ok e = true.

(** [req] is a POST of a completed or approved payment whose resource [r]
    names the user [uid] and carries a paid status. *)
Definition completed_payment (req : Http.Request) (r : Resource) (uid : string)
    : Prop :=
  Http.method req = "POST"
  /\ Http.is_payment_event (event_type (Http.body req)) = true
  /\ resource (Http.body req) = Some r
  /\ Http.userId_of r = Some uid
  /\ Str.truthy uid = true
  /\ Http.is_paid_status (status r) = true.

(** The salesperson reference carried by a user record. *)
Definition salesperson_of (userData : gmap string value) : value :=
  Js.field (Js.field (VMap userData) "salesperson") "fullName".

(** A field of a stored document. *)
Definition stored_field (s : store) (p : path) (k : string) : option value :=
  match s !! p with
  | Some d => d !! k
  | None => None
  end.

(** The user update the webhook transaction queues. *)
Definition userWrite (e : env) (uid : string) (r : Resource) : Firestore.write :=
  Firestore.Update (userRef uid)
    (Http.userUpdate e (resource_id r) (payer_email r) (amount_currency r)
       (Http.grossAmount_of r)).

Definition saleRef (e : env) (fullName : string) : path :=
  Http.individualSaleRef fullName (iso_month e) (auto_id e).

(** The transaction body of the webhook for the resource [r]. *)
Definition reconcile_of (e : env) (uid : string) (r : Resource) (s : store)
    : Tx.t unit :=
  Http.reconcile e uid (resource_id r) (payer_email r) (amount_currency r)
    (Http.grossAmount_of r) s.

(** [m] is a parsed CHECKOUT.ORDER.APPROVED message whose first purchase
    unit [unit] has an amount [a], a description [tier] and the custom id
    [cid] = [uid_sp], and whose resource [r] has a payer [p]. *)
Definition approved_payment (m : PubSub.Message) (r : Resource)
    (unit : PurchaseUnit) (a : Amount) (p : Payer) (cid tier uid sp : string)
    : Prop :=
  (exists n, m = PubSub.Parsed n
             /\ PubSub.is_event (event_type n) "CHECKOUT.ORDER.APPROVED" = true
             /\ resource n = Some r)
  /\ first_unit r = Some unit
  /\ amount unit = Some a
  /\ payer r = Some p
  /\ custom_id unit = Some cid
  /\ description unit = Some tier
  /\ Str.truthy cid = true
  /\ Str.truthy tier = true
  /\ Str.split "_" cid !! 0%nat = Some uid
  /\ Str.split "_" cid !! 1%nat = Some sp
  /\ Str.truthy uid = true
  /\ Str.truthy sp = true.

(** The user update of the Pub/Sub handler, written directly to the store. *)
Definition subscribe (e : env) (uid tier : string) (r : Resource) (a : Amount)
    (s : store) : option store :=
  if store_ok e (userRef uid)
  then Firestore.apply_write e
         (Firestore.Update (userRef uid)
            (PubSub.subscription e (resource_id r) (value_ a) (currency_code a) tier))
         s
  else None.

(** The transaction body of the Pub/Sub handler for the amount [a]. *)
Definition accrue_of (e : env) (sp : string) (a : Amount) (s : store) : Tx.t unit :=
  PubSub.accrue e sp (local_year e) (local_year e ++ "-" ++ local_month e)%string
    (Num.mul (PubSub.paid (value_ a)) PubSub.commissionRate) s.

(** The historical record of a salesperson after the monthly job, given
    the record [old] found before it. *)
Definition archived (e : env) (month : string) (salespersonData : gmap string value)
    (old : option (gmap string value)) : option (gmap string value) :=
  if Http.has_activity salespersonData
  then Some (Firestore.apply_fields e (Http.archive month salespersonData)
               (default ∅ old))
  else old.

(** ** Sample data

    A store with one member and one salesperson, an environment in which
    the store answers, and the notifications the two handlers receive for
    a payment of 100.00 USD by that member. *)

Definition sample_env : env :=
  Env 1717200000000 1717200000500 "2024-06" "2024" "06" "sale-0001"
    (fun _ => true) true.

(** The same clock a little later, with the next generated id. *)
Definition sample_env_again : env :=
  Env 1717200060000 1717200060500 "2024-06" "2024" "06" "sale-0002"
    (fun _ => true) true.

(** The store does not answer for the document at [p]. *)
Definition sample_env_without (p : path) : env :=
  Env 1717200000000 1717200000500 "2024-06" "2024" "06" "sale-0001"
    (fun q => negb (bool_decide (q = p))) true.

Definition sample_user : gmap string value :=
  {[ "paymentStatus" := VStr "unpaid";
     "membershipExpiry" := VTime 1800000000000;
     "salespersonId" := VStr "sp1";
     "salesperson" := VMap {[ "fullName" := VStr "Thabo Kgosi" ]} ]}.

Definition sample_salesperson : gmap string value :=
  {[ "fullName" := VStr "Thabo Kgosi";
     "currentMonthEarnings" := VNum (Num.of_Z 50);
     "totalSales" := VNum (Num.of_Z 3) ]}.

Definition sample_salesperson_js : gmap string value :=
  {[ "name" := VStr "sp1";
     "totalCommission" := VNum (Num.of_Z 50) ]}.

Definition sample_store : store :=
  {[ userRef "u1" := sample_user;
     salespersonRef "Thabo Kgosi" := sample_salesperson;
     salespersonRef "sp1" := sample_salesperson_js ]}.

(** A salesperson whose only sale of the month was a payment of amount 0:
    no earnings, one sale. *)
Definition sample_store_zero_sale : store :=
  {[ salespersonRef "Thabo Kgosi" :=
       {[ "fullName" := VStr "Thabo Kgosi";
          "currentMonthEarnings" := VNum Num.zero;
          "totalSales" := VNum Num.one ]} ]}.


Definition sample_resource (amountValue : option string) : Resource :=
  mkResource (Some "ORDER-1")
    (Some [mkPurchaseUnit (Some "u1") (Some "u1_sp1")
             (Some (mkAmount amountValue (Some "USD"))) (Some "sadc")])
    (Some (mkPayer (Some "member@example.com")))
    (Some "COMPLETED").

Definition sample_request (amountValue : option string) : Http.Request :=
  Http.mkRequest "POST"
    (mkNotification (Some "CHECKOUT.ORDER.COMPLETED")
       (Some "Checkout Order Completed")
       (Some (sample_resource amountValue))).

Definition sample_message : PubSub.Message :=
  PubSub.Parsed
    (mkNotification (Some "CHECKOUT.ORDER.APPROVED")
       (Some "An order has been approved by buyer")
       (Some (sample_resource (Some "100.00")))).

(** The resource carries an order id, a payer address and a currency. *)
Definition described (r : Resource) : Prop :=
  is_Some (resource_id r) /\ is_Some (payer_email r) /\ is_Some (amount_currency r).

(** A member who signed up without a salesperson, in the same store, and
    the notification for a payment of that member. *)
Definition sample_member : gmap string value :=
  {[ "paymentStatus" := VStr "unpaid";
     "membershipExpiry" := VTime 1800000000000;
     "displayName" := VStr "Neo" ]}.

Definition sample_store_direct : store := <[userRef "u2" := sample_member]> sample_store.

Definition sample_resource_direct (amountValue : option string) : Resource :=
  mkResource (Some "ORDER-2")
    (Some [mkPurchaseUnit (Some "u2") None
             (Some (mkAmount amountValue (Some "USD"))) (Some "local")])
    (Some (mkPayer (Some "neo@example.com")))
    (Some "COMPLETED").

Definition sample_request_direct (amountValue : option string) : Http.Request :=
  Http.mkRequest "POST"
    (mkNotification (Some "PAYMENT.CAPTURE.COMPLETED")
       (Some "Payment completed")
       (Some (sample_resource_direct amountValue))).

(** The documents a payment for [uid] may write, given the store before. *)
Definition written_by_payment (e : env) (uid : string) (s : store) (q : path) : Prop :=
  exists userData,
    s !! userRef uid = Some userData
    /\ (q = userRef uid
        \/ exists fullName,
             salesperson_of userData = VStr fullName
             /\ (q = salespersonRef fullName \/ q = saleRef e fullName)).

(** [x || 0] on a number: a zero or NaN reads as 0. *)
Definition settled (x : number) : number := if Num.truthy x then x else Num.zero.

(** The [YYYY-MM] key the Pub/Sub handler builds from the local clock. *)
Definition year_month (e : env) : string :=
  (local_year e ++ "-" ++ local_month e)%string.

(** The year and the month of the clock are written without a dot and are
    not names that every object inherits, as "2024" and "06" are. *)
Definition plain_clock (e : env) : Prop :=
  Str.split "." (local_year e) = [local_year e]
  /\ Str.split "." (year_month e) = [year_month e]
  /\ Js.inherited (local_year e) = false
  /\ Js.inherited (year_month e) = false.

(** The notification carries an order id, an amount text and a currency. *)
Definition priced (r : Resource) (a : Amount) (amountText : string) : Prop :=
  is_Some (resource_id r) /\ value_ a = Some amountText /\ is_Some (currency_code a).

(** The commission of the Pub/Sub handler for an amount text. *)
Definition commission_of (amountText : string) : number :=
  Num.mul (Str.parseFloat amountText) PubSub.commissionRate.

(** An entry of a map-valued field of a stored document. *)
Definition stored_bucket (s : store) (p : path) (f k : string) : option value :=
  match stored_field s p f with
  | Some (VMap B) => B !! k
  | _ => None
  end.

(** A salesperson of [src/index.js] with one earlier sale, in May 2024. *)
Definition sample_salesperson_buckets : gmap string value :=
  {[ "name" := VStr "sp1";
     "totalCommission" := VNum (Num.of_Z 50);
     "monthlyCommission" := VMap {[ "2024-05" := VNum (Num.of_Z 50) ]};
     "yearlyCommission" := VMap {[ "2024" := VNum (Num.of_Z 50) ]} ]}.

Definition sample_store_buckets : store :=
  {[ userRef "u1" := sample_user;
     salespersonRef "sp1" := sample_salesperson_buckets ]}.

(** The purchase unit, amount and payer of [sample_message]. *)
Definition sample_amount : Amount := mkAmount (Some "100.00") (Some "USD").

Definition sample_unit : PurchaseUnit :=
  mkPurchaseUnit (Some "u1") (Some "u1_sp1") (Some sample_amount) (Some "sadc").

Definition sample_payer : Payer := mkPayer (Some "member@example.com").

(** No document is stored directly in a [monthlyPayouts] collection. *)
Definition no_payout_documents (s : store) : Prop :=
  forall sp month, s !! (Listing.monthlyPayoutsRef sp ++ [month]) = None.

(** A processor that accepts every order. *)
Definition sample_client (_ : OrderRequest) : option Order :=
  Some (mkOrder "ORDER-1"
          [ ("self", "https://api.sandbox.paypal.com/v2/checkout/orders/ORDER-1");
            ("approve", "https://www.sandbox.paypal.com/checkoutnow?token=ORDER-1") ]).

(** ** Arithmetic of the handlers, on concrete amounts *)

Example parseFloat_amount : Str.parseFloat "100.00" = Num.of_Z 100.
Proof. vm_compute. reflexivity. Qed.

Example parseFloat_default : Str.parseFloat (Js.or_default None "0") = Num.zero.
Proof. reflexivity. Qed.

Example parseFloat_prefix : Str.parseFloat "12abc" = Num.of_Z 12.
Proof. vm_compute. reflexivity. Qed.

Example parseFloat_not_a_number : Str.parseFloat "abc" = Num.nan.
Proof. reflexivity. Qed.

(** The literal [0.20] is the binary64 number next to 1/5. *)
Example lit_0_20_bits : Num.lit_0_20 = S754_finite false 7205759403792794 (-55).
Proof. vm_compute. reflexivity. Qed.

(** 100.00 at the rate 0.20 earns 20, at the rate 0.10 it earns 10. *)
Example commission_of_100 :
  Num.mul (Str.parseFloat "100.00") Http.commissionRate = Num.of_Z 20
  /\ Num.mul (Str.parseFloat "100.00") PubSub.commissionRate = Num.of_Z 10.
Proof. split; vm_compute; reflexivity. Qed.

(** Sums are rounded as the language rounds them: 0.1 + 0.2 is not 0.3. *)
Example binary64_rounding :
  Num.add (Str.parseFloat "0.1") (Str.parseFloat "0.2") <> Str.parseFloat "0.3".
Proof. vm_compute. discriminate. Qed.

(** ** Paths *)

Lemma userRef_salespersonRef u sp : userRef u <> salespersonRef sp.
Proof. unfold userRef, salespersonRef. intros H. discriminate H. Qed.

Lemma salespersonRef_historicalRef sp' sp m : salespersonRef sp' <> Http.historicalRef sp m.
Proof. unfold Http.historicalRef, salespersonRef. cbn. intros H. discriminate H. Qed.

Lemma salespersonRef_inj a b : salespersonRef a = salespersonRef b -> a = b.
Proof. unfold salespersonRef. intros H. injection H. auto. Qed.

Lemma Str_eqb_refl a : Str.eqb a a = true.
Proof. apply String.eqb_refl. Qed.

Lemma Str_eqb_eq a b : Str.eqb a b = true <-> a = b.
Proof. apply String.eqb_eq. Qed.

(** ** Field-level effect of the writes *)

Ltac unfold_fields :=
  unfold Firestore.apply_update, Firestore.apply_fields;
  cbn [fold_left fst snd Firestore.update_at Firestore.resolve
       Http.salespersonUpdate Http.userUpdate Http.individualSale
       Http.salespersonCreate Http.archive Http.reset].

Ltac lookup_fields :=
  repeat first [ rewrite lookup_insert_eq
               | rewrite lookup_insert_ne by discriminate
               | rewrite lookup_empty ].

Lemma userUpdate_fields e o p c g (d : gmap string value) :
  let d' := Firestore.apply_update e (Http.userUpdate e o p c g) d in
  d' !! "paymentStatus" = Some (VStr "paid")
  /\ d' !! "membershipExpiry" = Some (VTime (date_now e + 1209600000))
  /\ d' !! "paypalGrossAmount" = Some (VNum g)
  /\ d' !! "paypalOrderId" = Some (Js.of_string o)
  /\ d' !! "salesperson" = d !! "salesperson".
Proof. cbv zeta. unfold_fields. lookup_fields. auto. Qed.

(** ** The webhook transaction of [src/index.ts] *)

Ltac run_body :=
  unfold reconcile_of, Http.reconcile, mbind, tx_bind, Tx.bind, Tx.get, Tx.queue,
         Tx.log, Tx.throw.

(** The user update is accepted exactly when the notification carries the
    order id, the payer address and the currency it stores. *)
Lemma userWrite_valid (e : env) (uid : string) (r : Resource) :
  Firestore.valid_write (userWrite e uid r) = true <-> described r.
Proof.
  unfold described, userWrite, Firestore.valid_write, Http.userUpdate.
  cbn [Firestore.fields_of fmap list_fmap snd forallb Firestore.valid_field].
  destruct (resource_id r), (payer_email r), (amount_currency r);
    cbn [Js.of_string andb]; (split; [intros H|intros (H1 & H2 & H3)]);
    try discriminate H; try (by destruct H1); try (by destruct H2);
    try (by destruct H3); try reflexivity.
  repeat split; by eexists.
Qed.


Lemma reconcile_no_salesperson (e : env) (uid : string) (r : Resource) (s : store)
    (userData : gmap string value) :
  store_ok e (userRef uid) = true ->
  s !! userRef uid = Some userData ->
  described r ->
  Js.truthy (salesperson_of userData) = false ->
  reconcile_of e uid r s (Tx.State [] []) =
    Tx.Done tt (Tx.State [userWrite e uid r]
      [Log Info "User has no associated salesperson." [VStr uid]]).
Proof.
  intros Hok Hu Hd Hsp. apply (userWrite_valid e uid) in Hd. unfold userWrite in Hd.
  run_body. cbn [Tx.writes]. rewrite Hok, Hu. cbv beta iota zeta.
  fold (salesperson_of userData). rewrite Hd, Hsp. reflexivity.
Qed.

(** The transaction body for a user whose record names a salesperson: the
    user update is queued, and the read of the salesperson record that
    follows it throws. *)
Lemma reconcile_salesperson (e : env) (uid : string) (r : Resource) (s : store)
    (userData : gmap string value) :
  store_ok e (userRef uid) = true ->
  s !! userRef uid = Some userData ->
  described r ->
  Js.truthy (salesperson_of userData) = true ->
  reconcile_of e uid r s (Tx.State [] []) = Tx.Thrown (Tx.State [userWrite e uid r] []).
Proof.
  intros Hok Hu Hd Hsp. apply (userWrite_valid e uid) in Hd. unfold userWrite in Hd.
  run_body. cbn [Tx.writes]. rewrite Hok, Hu. cbv beta iota zeta.
  fold (salesperson_of userData). rewrite Hd, Hsp.
  by destruct (salesperson_of userData).
Qed.

(** Whatever the store and the notification, that body does not return. *)
Lemma reconcile_throws (e : env) (uid : string) (r : Resource) (s : store)
    (userData : gmap string value) :
  s !! userRef uid = Some userData ->
  Js.truthy (salesperson_of userData) = true ->
  exists st, reconcile_of e uid r s (Tx.State [] []) = Tx.Thrown st.
Proof.
  intros Hu Hsp. run_body. cbn [Tx.writes].
  destruct (store_ok e (userRef uid)); [|by eexists]. rewrite Hu.
  cbv beta iota zeta. fold (salesperson_of userData). rewrite Hsp.
  destruct (Firestore.valid_write _); [|by eexists]. cbn [Tx.writes app].
  destruct (salesperson_of userData); by eexists.
Qed.

(** The handler on a completed payment: one transaction, whose outcome
    decides between the 200 and the 500 answer. *)
Lemma handler_completed_payment (e : env) (req : Http.Request) (r : Resource)
    (uid : string) (s : store) :
  completed_payment req r uid ->
  let c := Tx.runTransaction e (reconcile_of e uid r) s in
  exists l,
    Http.paypalWebhookHandler e req s =
      if Tx.ok c
      then Http.processed (Tx.after c) (l ++ Tx.output c)
      else Http.failed s (l ++ Tx.output c).
Proof.
  intros (Hm & Hev & Hr & Hu & Ht & Hst). cbv zeta.
  unfold Http.paypalWebhookHandler. rewrite Hm, Hev, Hr, Hu, Ht, Hst. cbn [negb andb Str.eqb String.eqb].
  eexists. unfold reconcile_of. reflexivity.
Qed.

Lemma completed_payment_succeeds (e : env) (req : Http.Request) (r : Resource)
    (uid : string) (s s' : store) (l : list log_entry) (ws : list Firestore.write) :
  commit_ok e = true ->
  completed_payment req r uid ->
  reconcile_of e uid r s (Tx.State [] []) = Tx.Done tt (Tx.State ws l) ->
  Firestore.commit e ws s = Some s' ->
  Http.status_code (Http.response (Http.paypalWebhookHandler e req s)) = 200
  /\ Http.final (Http.paypalWebhookHandler e req s) = s'.
Proof.
  intros Hc Hp Hbody Hcommit.
  destruct (handler_completed_payment e req r uid s Hp) as [l0 ->].
  unfold Tx.runTransaction. rewrite Hbody, Hc. cbn [Tx.writes Tx.logged].
  rewrite Hcommit. cbn. auto.
Qed.

(** The outcome of the handler on a completed payment follows the outcome
    of its transaction. *)
Lemma payment_outcome (e : env) (req : Http.Request)
    (r : Resource) (uid : string) (s : store) :
  completed_payment req r uid ->
  let out := Http.paypalWebhookHandler e req s in
  match reconcile_of e uid r s (Tx.State [] []) with
  | Tx.Thrown _ =>
      Http.status_code (Http.response out) = 500 /\ Http.final out = s
  | Tx.Done _ st =>
      (Http.status_code (Http.response out) = 200
       /\ Firestore.commit e (Tx.writes st) s = Some (Http.final out))
      \/ (Http.status_code (Http.response out) = 500 /\ Http.final out = s)
  end.
Proof.
  intros Hp. cbv zeta.
  destruct (handler_completed_payment e req r uid s Hp) as [l ->].
  unfold Tx.runTransaction.
  destruct (reconcile_of e uid r s (Tx.State [] [])) as [[] st|st]; cbn.
  - destruct (commit_ok e); cbn; [|by right].
    destruct (Firestore.commit e (Tx.writes st) s) as [s'|]; cbn; [by left|by right].
  - auto.
Qed.

(** The user update, committed alone. *)
Lemma commit_user (e : env) (uid : string) (r : Resource) (s : store)
    (userData : gmap string value) :
  s !! userRef uid = Some userData ->
  described r ->
  Firestore.commit e [userWrite e uid r] s
  = Some (<[userRef uid :=
              Firestore.apply_update e
                (Http.userUpdate e (resource_id r) (payer_email r) (amount_currency r)
                   (Http.grossAmount_of r)) userData]> s).
Proof.
  intros Hu Hd. apply (userWrite_valid e uid) in Hd.
  cbn [Firestore.commit]. unfold Firestore.apply_write. rewrite Hd.
  unfold userWrite. by rewrite Hu.
Qed.

(** A completed payment for a user whose record names a salesperson is
    answered 500, and nothing is written: the transaction body throws at
    the latest when it reads the salesperson record after it has queued
    the user update. *)
Lemma payment_refused (e : env) (req : Http.Request) (r : Resource)
    (uid : string) (s : store) (userData : gmap string value) :
  completed_payment req r uid ->
  s !! userRef uid = Some userData ->
  Js.truthy (salesperson_of userData) = true ->
  Http.status_code (Http.response (Http.paypalWebhookHandler e req s)) = 500
  /\ Http.final (Http.paypalWebhookHandler e req s) = s.
Proof.
  intros Hp Hu Hsp.
  pose proof (payment_outcome e req r uid s Hp) as H. cbv zeta in H.
  destruct (reconcile_throws e uid r s userData Hu Hsp) as [st Hst].
  by rewrite Hst in H.
Qed.

(** A completed payment for a user without salesperson, with every stored
    field present, on a store that answers: the answer is 200 and the user
    update is the one change. *)
Lemma payment_direct (e : env) (req : Http.Request) (r : Resource)
    (uid : string) (s : store) (userData : gmap string value) :
  reliable e ->
  completed_payment req r uid ->
  described r ->
  s !! userRef uid = Some userData ->
  Js.truthy (salesperson_of userData) = false ->
  Http.status_code (Http.response (Http.paypalWebhookHandler e req s)) = 200
  /\ Http.final (Http.paypalWebhookHandler e req s)
     = <[userRef uid :=
           Firestore.apply_update e
             (Http.userUpdate e (resource_id r) (payer_email r) (amount_currency r)
                (Http.grossAmount_of r)) userData]> s.
Proof.
  intros [Hreads Hcommit] Hp Hd Hu Hnone.
  exact (completed_payment_succeeds e req r uid s _ _ _ Hcommit Hp
           (reconcile_no_salesperson e uid r s userData (Hreads _) Hu Hd Hnone)
           (commit_user e uid r s userData Hu Hd)).
Qed.

(** C1 (the code, against the claim): a completed payment for an existing
    user whose record names a salesperson, where the salesperson record
    has earnings [C] and sale count [n], is answered 500 by the HTTPS
    handler and changes nothing: the earnings stay [C], the sale count
    stays [n] and no sale record is created.  The claim promises earnings
    [C + A * r], sale count [n + 1] and one new sale record; the code
    queues the user update before it reads the salesperson record, and a
    transaction refuses a read after a write. *)
Theorem C1_payment_with_salesperson_credits_nothing (e : env) (req : Http.Request)
    (r : Resource) (uid fullName : string) (s : store)
    (userData spData : gmap string value) (C n : number) :
  completed_payment req r uid ->
  s !! userRef uid = Some userData ->
  salesperson_of userData = VStr fullName ->
  Str.truthy fullName = true ->
  s !! salespersonRef fullName = Some spData ->
  spData !! "currentMonthEarnings" = Some (VNum C) ->
  spData !! "totalSales" = Some (VNum n) ->
  let out := Http.paypalWebhookHandler e req s in
  Http.status_code (Http.response out) = 500
  /\ Http.final out = s
  /\ stored_field (Http.final out) (salespersonRef fullName) "currentMonthEarnings"
     = Some (VNum C)
  /\ stored_field (Http.final out) (salespersonRef fullName) "totalSales"
     = Some (VNum n)
  /\ dom (Http.final out) = dom s.
Proof.
  intros Hp Hu Hname Ht Hsp HC Hn. cbv zeta.
  destruct (payment_refused e req r uid s userData Hp Hu) as [H500 ->].
  { rewrite Hname. exact Ht. }
  unfold stored_field. rewrite Hsp. auto.
Qed.

Lemma C1_payment_with_salesperson_credits_nothing_witness :
  let out := Http.paypalWebhookHandler sample_env (sample_request (Some "100.00"))
               sample_store in
  Http.status_code (Http.response out) = 500
  /\ Http.final out = sample_store
  /\ stored_field (Http.final out) (salespersonRef "Thabo Kgosi") "currentMonthEarnings"
     = Some (VNum (Num.of_Z 50))
  /\ stored_field (Http.final out) (salespersonRef "Thabo Kgosi") "totalSales"
     = Some (VNum (Num.of_Z 3))
  /\ dom (Http.final out) = dom sample_store.
Proof.
  apply (C1_payment_with_salesperson_credits_nothing sample_env
           (sample_request (Some "100.00")) (sample_resource (Some "100.00"))
           "u1" "Thabo Kgosi" sample_store sample_user sample_salesperson
           (Num.of_Z 50) (Num.of_Z 3)).
  - repeat split.
  - vm_compute; reflexivity.
  - vm_compute; reflexivity.
  - reflexivity.
  - vm_compute; reflexivity.
  - vm_compute; reflexivity.
  - vm_compute; reflexivity.
Defined.

(** The Pub/Sub handler of [src/index.js] reconciles the same payment (it
    adds 100.00 * 0.10 to the salesperson's cumulative commission) without
    creating any document, so no sale record exists afterwards, and the
    salesperson record has no sale count. *)
Lemma pubsub_keeps_no_sale_record :
  let out := PubSub.paypalWebhookHandler sample_env sample_message sample_store in
  PubSub.thrown out = false
  /\ stored_field (PubSub.final out) (salespersonRef "sp1") "totalCommission"
     = Some (VNum (Num.of_Z 60))
  /\ stored_field (PubSub.final out) (salespersonRef "sp1") "totalSales" = None
  /\ ~ (exists p, (p ∉ dom sample_store) /\ p ∈ dom (PubSub.final out)).
Proof.
  cbv zeta. split; [vm_compute; reflexivity|].
  split; [vm_compute; reflexivity|].
  split; [vm_compute; reflexivity|].
  intros (p & Hnew & Hin). apply Hnew.
  replace (dom sample_store)
    with (dom (PubSub.final (PubSub.paypalWebhookHandler sample_env sample_message
                               sample_store)))
    by (vm_compute; reflexivity).
  exact Hin.
Qed.

(** C2 (as amended, for the HTTPS handler): on a completed payment the
    mutations of the handler are queued in one transaction, the user
    update first, and the store changes only by the commit of that queue;
    when the transaction throws, also after the user update has been
    queued, or its commit fails, the answer is 500 and the store is as
    before. *)
Theorem C2_http_transaction_all_or_nothing (e : env) (req : Http.Request)
    (r : Resource) (uid : string) (s : store) :
  completed_payment req r uid ->
  let out := Http.paypalWebhookHandler e req s in
  let body := reconcile_of e uid r s (Tx.State [] []) in
  match body with
  | Tx.Thrown _ =>
      Http.status_code (Http.response out) = 500 /\ Http.final out = s
  | Tx.Done _ st =>
      (Http.status_code (Http.response out) = 200
       /\ Firestore.commit e (Tx.writes st) s = Some (Http.final out))
      \/ (Http.status_code (Http.response out) = 500 /\ Http.final out = s)
  end
  /\ (forall userData,
        store_ok e (userRef uid) = true ->
        s !! userRef uid = Some userData ->
        described r ->
        Tx.writes (Tx.state_of body) = [userWrite e uid r]
        /\ (Js.truthy (salesperson_of userData) = true ->
            body = Tx.Thrown (Tx.State [userWrite e uid r] [])
            /\ Http.status_code (Http.response out) = 500
            /\ Http.final out = s)).
Proof.
  intros Hp. cbv zeta. split.
  - destruct (handler_completed_payment e req r uid s Hp) as [l ->].
    unfold Tx.runTransaction.
    destruct (reconcile_of e uid r s (Tx.State [] [])) as [[] st|st]; cbn.
    + destruct (commit_ok e); cbn; [|by right].
      destruct (Firestore.commit e (Tx.writes st) s) as [s'|]; cbn; [by left|by right].
    + auto.
  - intros userData Hok Hu Hd.
    destruct (Js.truthy (salesperson_of userData)) eqn:Hsp.
    + rewrite (reconcile_salesperson e uid r s userData Hok Hu Hd Hsp).
      split; [reflexivity|]. intros _. split; [reflexivity|].
      pose proof (payment_outcome e req r uid s Hp) as H. cbv zeta in H.
      by rewrite (reconcile_salesperson e uid r s userData Hok Hu Hd Hsp) in H.
    + rewrite (reconcile_no_salesperson e uid r s userData Hok Hu Hd Hsp).
      split; [reflexivity|]. intros H. discriminate H.
Qed.

Lemma C2_http_transaction_all_or_nothing_witness :
  let paid := Http.paypalWebhookHandler sample_env (sample_request_direct (Some "50.00"))
                sample_store_direct in
  let refused := Http.paypalWebhookHandler sample_env (sample_request (Some "100.00"))
                   sample_store in
  (Http.status_code (Http.response paid) = 200
   /\ Firestore.commit sample_env
        [userWrite sample_env "u2" (sample_resource_direct (Some "50.00"))]
        sample_store_direct = Some (Http.final paid)
   /\ stored_field (Http.final paid) (userRef "u2") "paymentStatus" = Some (VStr "paid"))
  /\ (reconcile_of sample_env "u1" (sample_resource (Some "100.00")) sample_store
        (Tx.State [] [])
      = Tx.Thrown (Tx.State [userWrite sample_env "u1" (sample_resource (Some "100.00"))] [])
      /\ Http.status_code (Http.response refused) = 500
      /\ Http.final refused = sample_store).
Proof.
  cbv zeta. split.
  - destruct (C2_http_transaction_all_or_nothing sample_env
                (sample_request_direct (Some "50.00"))
                (sample_resource_direct (Some "50.00")) "u2" sample_store_direct)
      as [Hone _].
    + repeat split.
    + destruct Hone as [[H200 Hcommit]|[H500 _]].
      * split; [exact H200|]. split; [exact Hcommit|]. vm_compute; reflexivity.
      * vm_compute in H500. discriminate H500.
  - destruct (C2_http_transaction_all_or_nothing sample_env
                (sample_request (Some "100.00")) (sample_resource (Some "100.00"))
                "u1" sample_store)
      as [_ Hqueue].
    + repeat split.
    + destruct (Hqueue sample_user) as [_ Hthrown].
      * reflexivity.
      * vm_compute; reflexivity.
      * repeat split; by eexists.
      * apply Hthrown. vm_compute; reflexivity.
Defined.

(** No answer of the HTTPS handler other than 200 comes with a changed store. *)
Lemma http_failure_leaves_store (e : env) (req : Http.Request) (s : store) :
  Http.status_code (Http.response (Http.paypalWebhookHandler e req s)) <> 200 ->
  Http.final (Http.paypalWebhookHandler e req s) = s.
Proof.
  unfold Http.paypalWebhookHandler.
  repeat match goal with
         | |- context [if ?b then _ else _] => destruct b
         | |- context [match ?o with Some _ => _ | None => _ end] => destruct o
         end; cbn; try reflexivity; intros H; by destruct H.
Qed.

(** C2, counterexample: in the Pub/Sub handler of [src/index.js] the user
    update is written before the transaction starts; when the transaction
    throws (the salesperson cannot be read) the handler rethrows, and the
    user record keeps the update. *)
Lemma C2_pubsub_counterexample :
  let e := sample_env_without (salespersonRef "sp1") in
  let out := PubSub.paypalWebhookHandler e sample_message sample_store in
  accrue_of e "sp1" (mkAmount (Some "100.00") (Some "USD"))
    (PubSub.final out) (Tx.State [] []) = Tx.Thrown (Tx.State [] [])
  /\ PubSub.thrown out = true
  /\ stored_field sample_store (userRef "u1") "paymentStatus" = Some (VStr "unpaid")
  /\ stored_field (PubSub.final out) (userRef "u1") "paymentStatus" = Some (VStr "paid")
  /\ PubSub.final out <> sample_store.
Proof.
  cbv zeta. repeat split; try (vm_compute; reflexivity).
  intros H.
  assert (stored_field
            (PubSub.final (PubSub.paypalWebhookHandler
                             (sample_env_without (salespersonRef "sp1"))
                             sample_message sample_store))
            (userRef "u1") "paymentStatus" = Some (VStr "paid")) as Hpaid
    by (vm_compute; reflexivity).
  rewrite H in Hpaid. vm_compute in Hpaid. discriminate Hpaid.
Qed.

(** ** The Pub/Sub handler of [src/index.js] on an approved payment *)

(** A sum is never undefined. *)
Lemma plus_defined (v : value) (n : number) :
  Firestore.valid_field (Firestore.Plain (Js.plus v n)) = true.
Proof. by destruct v. Qed.

(** Both writes of the commission transaction pass the check of the SDK. *)
Ltac accrue_valid :=
  unfold Firestore.valid_write;
  cbn [Firestore.fields_of fmap list_fmap snd forallb];
  rewrite ?plus_defined; cbn [Firestore.valid_field andb].

(** The user update of the handler is accepted exactly when order id,
    amount text and currency are there. *)
Lemma subscription_valid (e : env) (uid tier : string) (o v c : option string) :
  Firestore.valid_write
    (Firestore.Update (userRef uid) (PubSub.subscription e o v c tier)) = true
  <-> is_Some o /\ is_Some v /\ is_Some c.
Proof.
  unfold Firestore.valid_write, PubSub.subscription.
  cbn [Firestore.fields_of fmap list_fmap snd forallb Firestore.valid_field].
  destruct o, v, c; cbn [Js.of_string andb];
    (split; [intros H|intros (H1 & H2 & H3)]);
    try discriminate H; try (by destruct H1); try (by destruct H2);
    try (by destruct H3); try reflexivity.
  repeat split; by eexists.
Qed.

(** What the handler leaves in the store and whether it rethrows: the user
    update comes first and is kept, the commission transaction follows. *)
Lemma pubsub_approved (e : env) (m : PubSub.Message) (r : Resource)
    (unit : PurchaseUnit) (a : Amount) (p : Payer) (cid tier uid sp : string)
    (s : store) :
  approved_payment m r unit a p cid tier uid sp ->
  let out := PubSub.paypalWebhookHandler e m s in
  match subscribe e uid tier r a s with
  | None => PubSub.thrown out = true /\ PubSub.final out = s
  | Some s1 =>
      if PubSub.has_price tier then
        let c := Tx.runTransaction e (accrue_of e sp a) s1 in
        if Tx.ok c
        then PubSub.thrown out = false /\ PubSub.final out = Tx.after c
        else PubSub.thrown out = true /\ PubSub.final out = s1
      else PubSub.thrown out = false /\ PubSub.final out = s1
  end.
Proof.
  intros ((n & -> & Hev & Hr) & Hunit & Ha & Hp & Hcid & Htier & Htc & Htt
           & H0 & H1 & Htu & Hts).
  cbv zeta. unfold PubSub.paypalWebhookHandler.
  rewrite Hev, Hr. unfold first_amount. rewrite Hunit, Ha, Hp, Hcid, Htier.
  rewrite Htc, Htt, H0, H1, Htu, Hts. cbn [andb].
  fold (subscribe e uid tier r a s).
  destruct (subscribe e uid tier r a s) as [s1|]; [|split; reflexivity].
  destruct (PubSub.has_price tier); cbn [negb]; [|split; reflexivity].
  unfold accrue_of.
  destruct (Tx.ok (Tx.runTransaction e _ s1)); split; reflexivity.
Qed.

(** The commission transaction writes the salesperson document only. *)
Lemma accrue_frame (e : env) (sp : string) (a : Amount) (s : store) (q : path) :
  q <> salespersonRef sp ->
  Tx.after (Tx.runTransaction e (accrue_of e sp a) s) !! q = s !! q.
Proof.
  intros Hq. unfold Tx.runTransaction, accrue_of, PubSub.accrue.
  unfold mbind, tx_bind, Tx.bind, Tx.get, Tx.queue, Tx.log.
  cbn [Tx.writes].
  destruct (store_ok e (salespersonRef sp)); [|reflexivity].
  destruct (s !! salespersonRef sp) as [d|] eqn:Hd;
    accrue_valid; cbn [Tx.writes Tx.logged app];
    (destruct (commit_ok e); [|reflexivity]);
    cbn [Firestore.commit]; unfold Firestore.apply_write; accrue_valid;
    rewrite ?Hd; cbn [Tx.after];
    by rewrite lookup_insert_ne.
Qed.

Lemma subscribe_present (e : env) (uid tier amountText : string) (r : Resource)
    (a : Amount) (s : store) (userData : gmap string value) :
  store_ok e (userRef uid) = true ->
  priced r a amountText ->
  s !! userRef uid = Some userData ->
  subscribe e uid tier r a s =
    Some (<[userRef uid :=
              Firestore.apply_update e
                (PubSub.subscription e (resource_id r) (value_ a) (currency_code a) tier)
                userData]> s).
Proof.
  intros Hok (Ho & Hv & Hc) Hu. unfold subscribe, Firestore.apply_write.
  rewrite Hok, (proj2 (subscription_valid e uid tier _ _ _)), Hu; [done|].
  rewrite Hv. by split; [|split; [eexists|]].
Qed.


Lemma subscribe_inv (e : env) (uid tier : string) (r : Resource) (a : Amount)
    (s s1 : store) :
  subscribe e uid tier r a s = Some s1 ->
  exists userData,
    s !! userRef uid = Some userData
    /\ s1 = <[userRef uid :=
                Firestore.apply_update e
                  (PubSub.subscription e (resource_id r) (value_ a) (currency_code a) tier)
                  userData]> s.
Proof.
  unfold subscribe, Firestore.apply_write. destruct (store_ok e _); [|done].
  destruct (Firestore.valid_write _); [|done].
  destruct (s !! userRef uid) as [d|]; [|done]. intros [= <-]. eauto.
Qed.

Lemma subscription_expiry e o v c tier (d : gmap string value) :
  Firestore.apply_update e (PubSub.subscription e o v c tier) d !! "membershipExpiry"
  = Some (VTime (date_now e + 1209600000)).
Proof.
  unfold Firestore.apply_update, PubSub.subscription.
  cbn [fold_left fst snd Firestore.update_at Firestore.resolve].
  lookup_fields. reflexivity.
Qed.

(** ** Commits leave other documents alone *)

Lemma apply_write_frame (e : env) (w : Firestore.write) (s s' : store) (q : path) :
  Firestore.apply_write e w s = Some s' ->
  Firestore.target w <> q ->
  s' !! q = s !! q.
Proof.
  unfold Firestore.apply_write. destruct (Firestore.valid_write w); [|done].
  destruct w as [p f|p f|p f]; cbn; intros H Hq.
  - destruct (s !! p); [|done]. injection H as <-. by rewrite lookup_insert_ne.
  - injection H as <-. by rewrite lookup_insert_ne.
  - injection H as <-. by rewrite lookup_insert_ne.
Qed.

Lemma commit_frame (e : env) (ws : list Firestore.write) (s s' : store) (q : path) :
  Firestore.commit e ws s = Some s' ->
  Forall (fun w => Firestore.target w <> q) ws ->
  s' !! q = s !! q.
Proof.
  revert s. induction ws as [|w ws IH]; cbn; intros s H Hall.
  - by injection H as <-.
  - destruct (Firestore.apply_write e w s) as [s1|] eqn:Hw; [|done].
    inversion Hall as [|? ? Hq Hrest]; subst.
    rewrite (IH s1 H Hrest). by apply (apply_write_frame e w).
Qed.

(** The webhook transaction, for an existing user, queues the user update
    first; whatever follows is written elsewhere. *)
Lemma reconcile_queue (e : env) (uid : string) (r : Resource) (s : store)
    (userData : gmap string value) (st : Tx.state) :
  s !! userRef uid = Some userData ->
  reconcile_of e uid r s (Tx.State [] []) = Tx.Done tt st ->
  exists ws,
    Tx.writes st = userWrite e uid r :: ws
    /\ Forall (fun w => Firestore.target w <> userRef uid) ws.
Proof.
  intros Hu. run_body. cbn [Tx.writes].
  destruct (store_ok e (userRef uid)); [|done].
  rewrite Hu. cbv beta iota zeta. fold (salesperson_of userData).
  destruct (Firestore.valid_write _); [|done]. cbn [Tx.writes app].
  destruct (Js.truthy (salesperson_of userData)).
  - by destruct (salesperson_of userData).
  - cbn. intros [= <-]. eexists. split; [reflexivity|constructor].
Qed.

Lemma http_success_inv (e : env) (req : Http.Request) (r : Resource) (uid : string)
    (s : store) :
  completed_payment req r uid ->
  Http.status_code (Http.response (Http.paypalWebhookHandler e req s)) = 200 ->
  exists st,
    reconcile_of e uid r s (Tx.State [] []) = Tx.Done tt st
    /\ Firestore.commit e (Tx.writes st) s
       = Some (Http.final (Http.paypalWebhookHandler e req s)).
Proof.
  intros Hp H200.
  pose proof (payment_outcome e req r uid s Hp) as H.
  cbv zeta in H.
  destruct (reconcile_of e uid r s (Tx.State [] [])) as [[] st|st].
  - destruct H as [[_ H]|[H _]]; [eauto|]. rewrite H200 in H. discriminate H.
  - destruct H as [H _]. rewrite H200 in H. discriminate H.
Qed.

(** After a successful answer of the HTTPS handler the user record is the
    old one with the payment fields overwritten. *)
Lemma http_user_after (e : env) (req : Http.Request) (r : Resource) (uid : string)
    (s : store) (userData : gmap string value) :
  completed_payment req r uid ->
  s !! userRef uid = Some userData ->
  Http.status_code (Http.response (Http.paypalWebhookHandler e req s)) = 200 ->
  Http.final (Http.paypalWebhookHandler e req s) !! userRef uid
  = Some (Firestore.apply_update e
            (Http.userUpdate e (resource_id r) (payer_email r) (amount_currency r)
               (Http.grossAmount_of r)) userData).
Proof.
  intros Hp Hu H200.
  destruct (http_success_inv e req r uid s Hp H200) as (st & Hbody & Hcommit).
  destruct (reconcile_queue e uid r s userData st Hu Hbody) as (ws & Hws & Hframe).
  rewrite Hws in Hcommit. cbn [Firestore.commit] in Hcommit.
  unfold userWrite, Firestore.apply_write in Hcommit.
  destruct (Firestore.valid_write _); [|done]. rewrite Hu in Hcommit.
  rewrite (commit_frame e ws _ _ (userRef uid) Hcommit Hframe).
  apply lookup_insert_eq.
Qed.

(** After a run of the Pub/Sub handler that does not rethrow, the user
    record is the old one with the subscription fields overwritten. *)
Lemma pubsub_user_after (e : env) (m : PubSub.Message) (r : Resource)
    (unit : PurchaseUnit) (a : Amount) (p : Payer) (cid tier uid sp : string)
    (s : store) :
  approved_payment m r unit a p cid tier uid sp ->
  PubSub.thrown (PubSub.paypalWebhookHandler e m s) = false ->
  exists userData,
    s !! userRef uid = Some userData
    /\ PubSub.final (PubSub.paypalWebhookHandler e m s) !! userRef uid
       = Some (Firestore.apply_update e
                 (PubSub.subscription e (resource_id r) (value_ a) (currency_code a) tier)
                 userData).
Proof.
  intros Hp Hok.
  pose proof (pubsub_approved e m r unit a p cid tier uid sp s Hp) as H.
  cbv zeta in H.
  destruct (subscribe e uid tier r a s) as [s1|] eqn:Hs1.
  - destruct (subscribe_inv e uid tier r a s s1 Hs1) as (userData & Hu & ->).
    exists userData. split; [exact Hu|].
    destruct (PubSub.has_price tier).
    + destruct (Tx.ok _); destruct H as [Ht ->].
      * rewrite accrue_frame by apply userRef_salespersonRef. apply lookup_insert_eq.
      * rewrite Hok in Ht. discriminate Ht.
    + destruct H as [_ ->]. apply lookup_insert_eq.
  - destruct H as [Ht _]. rewrite Hok in Ht. discriminate Ht.
Qed.

(** C3: every successfully reconciled payment sets the user's membership
    expiry to the current time plus 14 days (1 209 600 000 ms), whatever the
    record held before; this holds for the HTTPS handler of [src/index.ts]
    (the user record exists and the answer is 200) and for the Pub/Sub
    handler of [src/index.js] (nothing is rethrown). *)
Theorem C3_expiry_is_now_plus_14_days :
  (forall (e : env) (s : store) (uid : string) (userData : gmap string value)
          (req : Http.Request) (r : Resource),
     s !! userRef uid = Some userData ->
     completed_payment req r uid ->
     Http.status_code (Http.response (Http.paypalWebhookHandler e req s)) = 200 ->
     stored_field (Http.final (Http.paypalWebhookHandler e req s)) (userRef uid)
       "membershipExpiry"
     = Some (VTime (date_now e + 14 * 24 * 60 * 60 * 1000)))
  /\ (forall (e : env) (s : store) (uid : string)
             (m : PubSub.Message) (r : Resource) (unit : PurchaseUnit) (a : Amount)
             (p : Payer) (cid tier sp : string),
        approved_payment m r unit a p cid tier uid sp ->
        PubSub.thrown (PubSub.paypalWebhookHandler e m s) = false ->
        stored_field (PubSub.final (PubSub.paypalWebhookHandler e m s)) (userRef uid)
          "membershipExpiry"
        = Some (VTime (date_now e + 14 * 24 * 60 * 60 * 1000))).
Proof.
  split.
  - intros e s uid userData req r Hu Hp Hok. unfold stored_field.
    rewrite (http_user_after e req r uid s userData Hp Hu Hok).
    apply userUpdate_fields.
  - intros e s uid m r unit a p cid tier sp Hm Hok. unfold stored_field.
    destruct (pubsub_user_after e m r unit a p cid tier uid sp s Hm Hok)
      as (d & _ & ->).
    apply subscription_expiry.
Qed.

Lemma C3_expiry_is_now_plus_14_days_witness :
  stored_field sample_store_direct (userRef "u2") "membershipExpiry"
  = Some (VTime 1800000000000)
  /\ stored_field
       (Http.final (Http.paypalWebhookHandler sample_env
                      (sample_request_direct (Some "50.00")) sample_store_direct))
       (userRef "u2") "membershipExpiry"
     = Some (VTime (1717200000000 + 1209600000))
  /\ stored_field
       (PubSub.final (PubSub.paypalWebhookHandler sample_env sample_message
                        sample_store))
       (userRef "u1") "membershipExpiry"
     = Some (VTime (1717200000000 + 1209600000)).
Proof.
  split; [vm_compute; reflexivity|].
  destruct C3_expiry_is_now_plus_14_days as [Hhttp Hpubsub]. split.
  - apply (Hhttp sample_env sample_store_direct "u2" sample_member
             (sample_request_direct (Some "50.00"))
             (sample_resource_direct (Some "50.00"))).
    + vm_compute; reflexivity.
    + repeat split.
    + vm_compute; reflexivity.
  - apply (Hpubsub sample_env sample_store "u1" sample_message
             (sample_resource (Some "100.00"))
             (mkPurchaseUnit (Some "u1") (Some "u1_sp1")
                (Some (mkAmount (Some "100.00") (Some "USD"))) (Some "sadc"))
             (mkAmount (Some "100.00") (Some "USD"))
             (mkPayer (Some "member@example.com"))
             "u1_sp1" "sadc" "sp1").
    + split; [eexists; repeat split|repeat split].
    + vm_compute; reflexivity.
Defined.




Lemma salesperson_of_userUpdate e o p c g (d : gmap string value) :
  salesperson_of (Firestore.apply_update e (Http.userUpdate e o p c g) d)
  = salesperson_of d.
Proof.
  unfold salesperson_of, Js.field at 2 4.
  by destruct (userUpdate_fields e o p c g d) as (_ & _ & _ & _ & ->).
Qed.

(** C5 (the code, against the claim): two deliveries of the same
    completed-payment notification for a user whose record names a
    salesperson are both answered 500 by the HTTPS handler and leave the
    store as it was: the salesperson's earnings stay [C], no sale record
    exists, so no commission is applied even once.  The claim expects the
    commission twice.  (What the handler does apply, it applies again:
    for a user without salesperson the second delivery is answered 200
    like the first and sets the expiry anew; nothing compares order
    ids.) *)
Theorem C5_redelivery_credits_nothing :
  (forall (e1 e2 : env) (req : Http.Request) (r : Resource) (uid fullName : string)
          (s : store) (userData spData : gmap string value) (C : number),
     completed_payment req r uid ->
     s !! userRef uid = Some userData ->
     salesperson_of userData = VStr fullName ->
     Str.truthy fullName = true ->
     s !! salespersonRef fullName = Some spData ->
     spData !! "currentMonthEarnings" = Some (VNum C) ->
     let once := Http.paypalWebhookHandler e1 req s in
     let twice := Http.paypalWebhookHandler e2 req (Http.final once) in
     Http.status_code (Http.response once) = 500
     /\ Http.status_code (Http.response twice) = 500
     /\ Http.final twice = s
     /\ stored_field (Http.final twice) (salespersonRef fullName) "currentMonthEarnings"
        = Some (VNum C))
  /\ (forall (e1 e2 : env) (req : Http.Request) (r : Resource) (uid : string)
             (s : store) (userData : gmap string value),
        reliable e1 ->
        reliable e2 ->
        completed_payment req r uid ->
        described r ->
        s !! userRef uid = Some userData ->
        Js.truthy (salesperson_of userData) = false ->
        let once := Http.paypalWebhookHandler e1 req s in
        let twice := Http.paypalWebhookHandler e2 req (Http.final once) in
        Http.status_code (Http.response once) = 200
        /\ Http.status_code (Http.response twice) = 200
        /\ stored_field (Http.final twice) (userRef uid) "membershipExpiry"
           = Some (VTime (date_now e2 + two_weeks_ms))).
Proof.
  split.
  - intros e1 e2 req r uid fullName s userData spData C Hp Hu Hname Ht Hsp HC.
    cbv zeta.
    assert (Js.truthy (salesperson_of userData) = true) as Hlinked
      by (rewrite Hname; exact Ht).
    destruct (payment_refused e1 req r uid s userData Hp Hu Hlinked) as [H1 ->].
    destruct (payment_refused e2 req r uid s userData Hp Hu Hlinked) as [H2 ->].
    unfold stored_field. rewrite Hsp. auto.
  - intros e1 e2 req r uid s userData Hrel1 Hrel2 Hp Hd Hu Hnone. cbv zeta.
    destruct (payment_direct e1 req r uid s userData Hrel1 Hp Hd Hu Hnone)
      as [H1 ->].
    set (d1 := Firestore.apply_update e1
                 (Http.userUpdate e1 (resource_id r) (payer_email r)
                    (amount_currency r) (Http.grossAmount_of r)) userData).
    destruct (payment_direct e2 req r uid (<[userRef uid := d1]> s) d1 Hrel2 Hp Hd)
      as [H2 ->].
    { apply lookup_insert_eq. }
    { unfold d1. by rewrite salesperson_of_userUpdate. }
    split; [exact H1|]. split; [exact H2|].
    unfold stored_field. rewrite lookup_insert_eq. apply userUpdate_fields.
Qed.

Lemma C5_redelivery_credits_nothing_witness :
  let once := Http.paypalWebhookHandler sample_env (sample_request (Some "100.00"))
                sample_store in
  let twice := Http.paypalWebhookHandler sample_env_again
                 (sample_request (Some "100.00")) (Http.final once) in
  Http.status_code (Http.response once) = 500
  /\ Http.status_code (Http.response twice) = 500
  /\ Http.final twice = sample_store
  /\ stored_field (Http.final twice) (salespersonRef "Thabo Kgosi")
       "currentMonthEarnings" = Some (VNum (Num.of_Z 50)).
Proof.
  apply (proj1 C5_redelivery_credits_nothing sample_env sample_env_again
           (sample_request (Some "100.00")) (sample_resource (Some "100.00"))
           "u1" "Thabo Kgosi" sample_store sample_user sample_salesperson
           (Num.of_Z 50)).
  - repeat split.
  - vm_compute; reflexivity.
  - vm_compute; reflexivity.
  - reflexivity.
  - vm_compute; reflexivity.
  - vm_compute; reflexivity.
Defined.

(** ** Collections *)

Lemma strip_spec (c p rest : list string) :
  Firestore.strip c p = Some rest <-> p = c ++ rest.
Proof.
  revert p. induction c as [|x c IH]; intros p; cbn.
  - split; [by intros [= ->]|by intros ->].
  - destruct p as [|y p]; [by split|].
    destruct (Str.eqb x y) eqn:Hxy.
    + apply Str_eqb_eq in Hxy as ->. rewrite IH. split; [by intros ->|by intros [= ->]].
    + split; [done|]. intros [= -> _]. by rewrite Str_eqb_refl in Hxy.
Qed.

Lemma member_of_spec (c p : list string) (d d' : gmap string value) (i : string) :
  Firestore.member_of c (p, d) = Some (i, d') <-> p = c ++ [i] /\ d' = d.
Proof.
  unfold Firestore.member_of. cbn.
  destruct (Firestore.strip c p) as [rest|] eqn:Hs.
  - apply strip_spec in Hs as ->.
    destruct rest as [|j [|k rest]]; split; try done.
    + intros [H _]. apply app_inv_head in H. discriminate H.
    + by intros [= -> ->].
    + intros [H ->]. apply app_inv_head in H. by injection H as ->.
    + intros [H _]. apply app_inv_head in H. discriminate H.
  - split; [done|]. intros [-> _].
    assert (Firestore.strip c (c ++ [i]) = Some [i]) as H by by apply strip_spec.
    rewrite H in Hs. discriminate Hs.
Qed.

Lemma elem_of_collection (c : list string) (s : store) (i : string)
    (d : gmap string value) :
  (i, d) ∈ Firestore.collection c s <-> s !! (c ++ [i]) = Some d.
Proof.
  unfold Firestore.collection. rewrite list_elem_of_omap. split.
  - intros ([p d'] & Hin & Hm). apply member_of_spec in Hm as [-> ->].
    by apply elem_of_map_to_list in Hin.
  - intros H. exists (c ++ [i], d). split.
    + by apply elem_of_map_to_list.
    + by apply member_of_spec.
Qed.

Lemma NoDup_omap_member (c : list string) (l : list (list string * gmap string value)) :
  NoDup l.*1 -> NoDup (omap (Firestore.member_of c) l).*1.
Proof.
  induction l as [|[p d] l IH]; cbn; intros Hnd; [constructor|].
  apply NoDup_cons in Hnd as [Hp Hnd].
  destruct (Firestore.member_of c (p, d)) as [[i d']|] eqn:Hm; [|by apply IH].
  cbn. apply NoDup_cons. split; [|by apply IH].
  apply member_of_spec in Hm as [-> ->].
  intros Hin. apply Hp.
  apply list_elem_of_fmap in Hin as ([j d''] & Hj & Hin). cbn in Hj. subst j.
  apply list_elem_of_omap in Hin as ([p' d3] & Hin & Hm).
  apply member_of_spec in Hm as [-> ->].
  apply list_elem_of_fmap. by exists (c ++ [i], d3).
Qed.

Lemma NoDup_collection (c : list string) (s : store) :
  NoDup (Firestore.collection c s).*1.
Proof. apply NoDup_omap_member, NoDup_fst_map_to_list. Qed.

Lemma commit_app (e : env) (ws1 ws2 : list Firestore.write) (s : store) :
  Firestore.commit e (ws1 ++ ws2) s
  = match Firestore.commit e ws1 s with
    | Some s1 => Firestore.commit e ws2 s1
    | None => None
    end.
Proof.
  revert s. induction ws1 as [|w ws1 IH]; cbn; intros s; [done|].
  destruct (Firestore.apply_write e w s); [apply IH|done].
Qed.

(** ** The monthly job *)

Lemma historicalRef_inj (a b m : string) :
  Http.historicalRef a m = Http.historicalRef b m -> a = b.
Proof. unfold Http.historicalRef, salespersonRef. cbn. by intros [= ->]. Qed.

(** [x || 0] is never undefined, so both writes of the job are accepted. *)
Lemma counter_defined (d : gmap string value) (f : string) :
  Firestore.valid_field (Firestore.Plain (Http.counter d f)) = true.
Proof.
  unfold Http.counter, Js.or_else.
  destruct (Js.truthy (Js.field (VMap d) f)) eqn:H; [|reflexivity].
  destruct (Js.field (VMap d) f); try reflexivity. discriminate H.
Qed.

Lemma archive_valid (p : path) (m : string) (d : gmap string value) :
  Firestore.valid_write (Firestore.SetMerge p (Http.archive m d)) = true.
Proof.
  unfold Firestore.valid_write, Http.archive.
  cbn [Firestore.fields_of fmap list_fmap snd forallb].
  by rewrite !counter_defined.
Qed.

Lemma reset_valid (p : path) :
  Firestore.valid_write (Firestore.Update p Http.reset) = true.
Proof. reflexivity. Qed.

(** One salesperson's share of the batch, applied to the store. *)
Lemma rollover_one (e : env) (m i : string) (d : gmap string value) (s : store) :
  s !! salespersonRef i = Some d ->
  exists s1,
    Firestore.commit e (Http.rollover m (i, d)) s = Some s1
    /\ s1 !! salespersonRef i = Some (Firestore.apply_update e Http.reset d)
    /\ s1 !! Http.historicalRef i m = archived e m d (s !! Http.historicalRef i m)
    /\ (forall q, q <> salespersonRef i -> q <> Http.historicalRef i m ->
                  s1 !! q = s !! q).
Proof.
  intros Hd. unfold Http.rollover, archived. cbn [fst snd].
  destruct (Http.has_activity d); cbn [app Firestore.commit];
    unfold Firestore.apply_write; rewrite ?archive_valid, ?reset_valid.
  - rewrite lookup_insert_ne by (apply not_eq_sym, salespersonRef_historicalRef).
    rewrite Hd. eexists. split; [reflexivity|]. split; [apply lookup_insert_eq|].
    split.
    + rewrite lookup_insert_ne by apply salespersonRef_historicalRef.
      apply lookup_insert_eq.
    + intros q Hq1 Hq2. by rewrite !lookup_insert_ne.
  - rewrite Hd. eexists. split; [reflexivity|]. split; [apply lookup_insert_eq|].
    split.
    + by rewrite lookup_insert_ne by apply salespersonRef_historicalRef.
    + intros q Hq1 Hq2. by rewrite lookup_insert_ne.
Qed.

(** The whole batch, by induction on the snapshot: every salesperson of the
    snapshot is reset and archived on its own documents, the rest of the
    store is untouched, and the commit goes through. *)
Lemma rollover_all (e : env) (m : string) (L : list (string * gmap string value)) :
  forall s : store,
    NoDup L.*1 ->
    (forall i d, (i, d) ∈ L -> s !! salespersonRef i = Some d) ->
    exists s',
      Firestore.commit e (flat_map (Http.rollover m) L) s = Some s'
      /\ (forall i d, (i, d) ∈ L ->
            s' !! salespersonRef i = Some (Firestore.apply_update e Http.reset d)
            /\ s' !! Http.historicalRef i m
               = archived e m d (s !! Http.historicalRef i m))
      /\ (forall q, (forall i, i ∈ L.*1 ->
                       q <> salespersonRef i /\ q <> Http.historicalRef i m) ->
                    s' !! q = s !! q).
Proof.
  induction L as [|[i0 d0] L IH]; intros s Hnd Hs.
  - exists s. cbn. split; [done|]. split; [|done]. intros i d Hin. by inversion Hin.
  - cbn in Hnd. apply NoDup_cons in Hnd as [Hi0 Hnd].
    destruct (rollover_one e m i0 d0 s) as (s1 & Hc1 & Hsp1 & Hh1 & Hf1).
    { apply Hs. left. }
    assert (forall i, i ∈ L.*1 -> i <> i0) as Hne by (intros i Hin ->; done).
    destruct (IH s1 Hnd) as (s' & Hc & Hin' & Hf').
    { intros i d Hin. rewrite Hf1.
      - apply Hs. by right.
      - intros H%salespersonRef_inj. apply (Hne i); [|done].
        apply list_elem_of_fmap. by exists (i, d).
      - apply salespersonRef_historicalRef. }
    exists s'. cbn [flat_map]. rewrite commit_app, Hc1. split; [exact Hc|]. split.
    + intros i d Hin. apply elem_of_cons in Hin as [[= -> ->]|Hin].
      * rewrite !Hf'; [by split| |].
        -- intros i Hi. split; [apply not_eq_sym, salespersonRef_historicalRef|].
           intros H%historicalRef_inj. by apply (Hne i).
        -- intros i Hi. split; [|apply salespersonRef_historicalRef].
           intros H%salespersonRef_inj. by apply (Hne i).
      * destruct (Hin' i d Hin) as [-> ->]. split; [done|].
        assert (i <> i0) as Hii.
        { apply Hne, list_elem_of_fmap. by exists (i, d). }
        rewrite Hf1; [done| |].
        -- apply not_eq_sym, salespersonRef_historicalRef.
        -- intros H%historicalRef_inj. done.
    + intros q Hq. rewrite Hf'.
      * apply Hf1; apply (Hq i0); left.
      * intros i Hi. apply Hq. by right.
Qed.

Lemma counter_positive (d : gmap string value) (f : string) (x : number) :
  d !! f = Some (VNum x) ->
  Num.gtb x Num.zero = true ->
  Http.counter d f = VNum x /\ Js.gt_zero (Http.counter d f) = true.
Proof.
  intros Hf Hx. unfold Http.counter, Js.field, Js.or_else. rewrite Hf. cbn.
  destruct x as [sx|sx| |sx mx ex]; try discriminate Hx; cbn; auto.
Qed.

Lemma counter_not_positive (d : gmap string value) (f : string) (x : number) :
  d !! f = Some (VNum x) ->
  Num.gtb x Num.zero = false ->
  Js.gt_zero (Http.counter d f) = false.
Proof.
  intros Hf Hx. unfold Http.counter, Js.field, Js.or_else. rewrite Hf. cbn.
  destruct (Num.truthy x); cbn; [exact Hx|reflexivity].
Qed.

Lemma counter_zero (d : gmap string value) (f : string) (x : number) :
  d !! f = Some (VNum x) ->
  Num.is_zero x = true ->
  Http.counter d f = VNum Num.zero.
Proof.
  intros Hf Hx. unfold Http.counter, Js.field, Js.or_else. rewrite Hf. cbn.
  unfold Num.truthy. by rewrite Hx.
Qed.

Lemma reset_fields e (d : gmap string value) :
  Firestore.apply_update e Http.reset d !! "currentMonthEarnings" = Some (VNum Num.zero)
  /\ Firestore.apply_update e Http.reset d !! "totalSales" = Some (VNum Num.zero).
Proof. unfold_fields. lookup_fields. auto. Qed.

Lemma archive_fields e m (d base : gmap string value) :
  let h := Firestore.apply_fields e (Http.archive m d) base in
  h !! "month" = Some (VStr m)
  /\ h !! "earnings" = Some (Http.counter d "currentMonthEarnings")
  /\ h !! "totalCustomers" = Some (Http.counter d "totalSales").
Proof. cbv zeta. unfold_fields. lookup_fields. auto. Qed.

(** The monthly job on a store that answers: it completes, and every
    salesperson record is reset and archived as [archived] says. *)
Lemma rollover_effect (e : env) (s : store) (sp : string)
    (spData : gmap string value) :
  store_ok e ["salespersons"] = true ->
  commit_ok e = true ->
  s !! salespersonRef sp = Some spData ->
  let out := Http.resetMonthlyEarnings e s in
  Http.completed out = true
  /\ Http.stored out !! salespersonRef sp
     = Some (Firestore.apply_update e Http.reset spData)
  /\ Http.stored out !! Http.historicalRef sp (iso_month e)
     = archived e (iso_month e) spData (s !! Http.historicalRef sp (iso_month e)).
Proof.
  intros Hread Hcommit Hsp. cbv zeta. unfold Http.resetMonthlyEarnings.
  rewrite Hread, Hcommit.
  destruct (rollover_all e (iso_month e) (Firestore.collection ["salespersons"] s) s)
    as (s' & -> & Hin & _).
  - apply NoDup_collection.
  - intros i d Hin. by apply elem_of_collection in Hin.
  - cbn. split; [done|]. apply Hin. by apply elem_of_collection.
Qed.

Lemma counter_number (d : gmap string value) (f : string) (x : number) :
  d !! f = Some (VNum x) ->
  Http.counter d f = VNum (settled x).
Proof.
  intros Hf. unfold Http.counter, Js.field, Js.or_else, settled. rewrite Hf. cbn.
  by destruct (Num.truthy x).
Qed.

(** C6 (as amended): for a salesperson with current-period earnings [E]
    and sale count [N], the monthly job resets both counters to 0.  When
    [E > 0] or [N > 0] it writes the historical record of the current
    period, with earnings [E] and [N] customers, a counter that is 0 or
    NaN being written as 0: so for [E > 0] the record has earnings [E],
    and for [E] = 0 and [N > 0] it is written all the same, with earnings
    0 and [N] customers.  Only when neither counter is positive is the
    historical record left as it was. *)
Theorem C6_monthly_rollover (e : env) (s : store) (sp : string)
    (spData : gmap string value) (E N : number) :
  store_ok e ["salespersons"] = true ->
  commit_ok e = true ->
  s !! salespersonRef sp = Some spData ->
  spData !! "currentMonthEarnings" = Some (VNum E) ->
  spData !! "totalSales" = Some (VNum N) ->
  let out := Http.resetMonthlyEarnings e s in
  let history := Http.historicalRef sp (iso_month e) in
  Http.completed out = true
  /\ stored_field (Http.stored out) (salespersonRef sp) "currentMonthEarnings"
     = Some (VNum Num.zero)
  /\ stored_field (Http.stored out) (salespersonRef sp) "totalSales"
     = Some (VNum Num.zero)
  /\ (Num.gtb E Num.zero = true \/ Num.gtb N Num.zero = true ->
      stored_field (Http.stored out) history "month" = Some (VStr (iso_month e))
      /\ stored_field (Http.stored out) history "earnings" = Some (VNum (settled E))
      /\ stored_field (Http.stored out) history "totalCustomers"
         = Some (VNum (settled N)))
  /\ (Num.gtb E Num.zero = true ->
      stored_field (Http.stored out) history "month" = Some (VStr (iso_month e))
      /\ stored_field (Http.stored out) history "earnings" = Some (VNum E))
  /\ (Num.is_zero E = true -> Num.gtb N Num.zero = true ->
      stored_field (Http.stored out) history "earnings" = Some (VNum Num.zero)
      /\ stored_field (Http.stored out) history "totalCustomers" = Some (VNum N))
  /\ (Num.gtb E Num.zero = false -> Num.gtb N Num.zero = false ->
      Http.stored out !! history = s !! history).
Proof.
  intros Hread Hcommit Hsp HE HN. cbv zeta.
  destruct (rollover_effect e s sp spData Hread Hcommit Hsp) as (Hdone & Hreset & Hhist).
  split; [exact Hdone|]. unfold stored_field. rewrite Hreset, Hhist.
  split; [apply reset_fields|]. split; [apply reset_fields|].
  unfold archived, Http.has_activity. split; [|split; [|split]].
  - intros Hpos.
    assert (Js.gt_zero (Http.counter spData "currentMonthEarnings")
            || Js.gt_zero (Http.counter spData "totalSales") = true) as ->.
    { destruct Hpos as [Hpos|Hpos].
      - by destruct (counter_positive spData "currentMonthEarnings" E HE Hpos) as [_ ->].
      - destruct (counter_positive spData "totalSales" N HN Hpos) as [_ ->].
        apply orb_true_r. }
    rewrite <- (counter_number spData "currentMonthEarnings" E HE).
    rewrite <- (counter_number spData "totalSales" N HN).
    apply archive_fields.
  - intros Hpos.
    destruct (counter_positive spData "currentMonthEarnings" E HE Hpos) as [Hc ->].
    cbn [orb]. split; [apply archive_fields|].
    rewrite <- Hc. apply archive_fields.
  - intros Hzero Hpos.
    destruct (counter_positive spData "totalSales" N HN Hpos) as [Hc ->].
    rewrite orb_true_r. split.
    + rewrite <- (counter_zero spData "currentMonthEarnings" E HE Hzero).
      apply archive_fields.
    + rewrite <- Hc. apply archive_fields.
  - intros HnE HnN.
    rewrite (counter_not_positive spData "currentMonthEarnings" E HE HnE).
    by rewrite (counter_not_positive spData "totalSales" N HN HnN).
Qed.

Lemma C6_monthly_rollover_witness :
  let out := Http.resetMonthlyEarnings sample_env sample_store in
  stored_field (Http.stored out) (salespersonRef "Thabo Kgosi") "currentMonthEarnings"
  = Some (VNum Num.zero)
  /\ stored_field (Http.stored out) (Http.historicalRef "Thabo Kgosi" "2024-06")
       "earnings"
     = Some (VNum (Num.of_Z 50)).
Proof.
  cbv zeta.
  destruct (C6_monthly_rollover sample_env sample_store "Thabo Kgosi"
              sample_salesperson (Num.of_Z 50) (Num.of_Z 3))
    as (_ & Hreset & _ & _ & Hpos & _ & _).
  - reflexivity.
  - reflexivity.
  - vm_compute; reflexivity.
  - vm_compute; reflexivity.
  - vm_compute; reflexivity.
  - split; [exact Hreset|]. apply Hpos. vm_compute; reflexivity.
Defined.

(** C6, counterexample: a salesperson with current-period earnings 0 but
    one sale is archived all the same: a historical record that was not
    there before is written, with earnings 0, and the reset changes the
    sale count. *)
Lemma C6_zero_earnings_counterexample :
  let out := Http.resetMonthlyEarnings sample_env sample_store_zero_sale in
  let history := Http.historicalRef "Thabo Kgosi" "2024-06" in
  stored_field sample_store_zero_sale (salespersonRef "Thabo Kgosi")
    "currentMonthEarnings" = Some (VNum Num.zero)
  /\ sample_store_zero_sale !! history = None
  /\ stored_field (Http.stored out) history "earnings" = Some (VNum Num.zero)
  /\ stored_field (Http.stored out) history "totalCustomers" = Some (VNum Num.one)
  /\ stored_field sample_store_zero_sale (salespersonRef "Thabo Kgosi") "totalSales"
     <> stored_field (Http.stored out) (salespersonRef "Thabo Kgosi") "totalSales".
Proof.
  cbv zeta. repeat split; try (vm_compute; reflexivity).
  vm_compute. discriminate.
Qed.

(** ** Order intake *)

Lemma own_tier_cases (tierId : string) (t : Http.Tier) :
  Js.own Http.paymentTiers tierId = Some t ->
  Str.truthy tierId = true /\ Js.lookup Http.paymentTiers tierId = Js.Own t.
Proof.
  intros H. split.
  - destruct tierId; [discriminate H|reflexivity].
  - unfold Js.lookup. by rewrite H.
Qed.

(** A tier id that is neither in the table nor a name every object
    inherits is rejected before any request is built. *)
Lemma unknown_tier_rejected (client : OrderRequest -> option Order)
    (request : Http.CallableRequest) (tierId : string) :
  Http.authenticated request = true ->
  Http.selectedTierId (Http.data request) = Some tierId ->
  Js.lookup Http.paymentTiers tierId = Js.Missing ->
  calls (Http.createPayPalOrder client request) = []
  /\ exists text,
       returned (Http.createPayPalOrder client request)
       = HttpsError invalid_argument text.
Proof.
  intros Hauth Htier Hlookup. unfold Http.createPayPalOrder.
  rewrite Hauth, Htier. cbn [negb].
  destruct (Str.truthy tierId); [|cbn; eauto].
  rewrite Hlookup. cbn. eauto.
Qed.

(** The simplified intake of [src/index.js] never calls the processor. *)
Lemma pubsub_intake_calls_nothing (e : env) (data : PubSub.OrderData)
    (context : PubSub.Context) (s : store) :
  calls (PubSub.createPayPalOrder e data context s) = [].
Proof.
  unfold PubSub.createPayPalOrder.
  destruct (PubSub.auth context); [|reflexivity].
  destruct (_ || _); [reflexivity|].
  destruct (negb _); reflexivity.
Qed.

(** C7 (as amended, for [src/index.ts] and its v2 copies): an
    authenticated call naming a tier of the price table sends the
    processor exactly one request, whose amount value and currency are
    those of the tier's entry; the entry of "sadc" is 100.00 USD. *)
Theorem C7_request_matches_price_table (client : OrderRequest -> option Order)
    (request : Http.CallableRequest) (tierId : string) (t : Http.Tier) :
  Http.authenticated request = true ->
  Http.selectedTierId (Http.data request) = Some tierId ->
  Js.own Http.paymentTiers tierId = Some t ->
  (exists payPalRequest,
     calls (Http.createPayPalOrder client request) = [payPalRequest]
     /\ unit_value payPalRequest = Some (Http.tier_value t)
     /\ unit_currency_code payPalRequest = Some (Http.tier_currency_code t))
  /\ Js.own Http.paymentTiers "sadc"
     = Some (Http.mkTier "USD" "100.00" "SADC Citizens Membership").
Proof.
  intros Hauth Htier Hown. split; [|reflexivity].
  destruct (own_tier_cases tierId t Hown) as [Htruthy Hlookup].
  unfold Http.createPayPalOrder. rewrite Hauth, Htier, Htruthy, Hlookup.
  cbn [negb Js.defined].
  exists (Http.orderRequest (Http.userId (Http.data request)) tierId (Js.Own t)).
  split; [|split; reflexivity].
  destruct (client _) as [order|]; [|reflexivity].
  destruct (Js.own (links order) "approve"); reflexivity.
Qed.

Lemma C7_request_matches_price_table_witness :
  let called := Http.createPayPalOrder sample_client
                  (Http.mkCall (Some (Http.mkAuth (Some "u1")))
                     (Http.mkData (Some "sadc") (Some "u1"))) in
  returned called
  = Redirect "https://www.sandbox.paypal.com/checkoutnow?token=ORDER-1" "ORDER-1"
  /\ exists payPalRequest,
       calls called = [payPalRequest]
       /\ unit_value payPalRequest = Some "100.00"
       /\ unit_currency_code payPalRequest = Some "USD".
Proof.
  cbv zeta. split; [reflexivity|].
  apply (C7_request_matches_price_table sample_client
           (Http.mkCall (Some (Http.mkAuth (Some "u1")))
              (Http.mkData (Some "sadc") (Some "u1")))
           "sadc" (Http.mkTier "USD" "100.00" "SADC Citizens Membership"));
    reflexivity.
Defined.

(** C7, counterexample: the price table of [src/index.js] lists "sadc" at
    100 in BWP, and its order intake sends the processor nothing. *)
Lemma C7_pubsub_counterexample :
  Js.own PubSub.paymentTiers "sadc"
  = Some (PubSub.mkTier (Num.of_Z 100) "BWP" "SADC Citizens Access")
  /\ calls (PubSub.createPayPalOrder sample_env
              (PubSub.mkOrderData (Some "u1") (Some "sadc"))
              (PubSub.mkContext (Some "u1")) sample_store) = []
  /\ returned (PubSub.createPayPalOrder sample_env
                 (PubSub.mkOrderData (Some "u1") (Some "sadc"))
                 (PubSub.mkContext (Some "u1")) sample_store)
     = Redirect "https://example.com/simulated-paypal-redirect" "SIMULATED_ORDER_ID".
Proof. repeat split. Qed.

(** C8, the code at the failing input: "constructor" is not a tier of the
    price table, yet the table lookup finds the property every object
    inherits, the guard lets it pass, and a request without amount and
    currency is sent to the processor; whatever the processor answers,
    the caller does not get invalid-argument. *)
Theorem C8_inherited_name_passes_the_guard (client : OrderRequest -> option Order) :
  let request := Http.mkCall (Some (Http.mkAuth (Some "u1")))
                   (Http.mkData (Some "constructor") (Some "u1")) in
  Js.own Http.paymentTiers "constructor" = None
  /\ (exists payPalRequest,
        calls (Http.createPayPalOrder client request) = [payPalRequest]
        /\ unit_value payPalRequest = None
        /\ unit_currency_code payPalRequest = None)
  /\ (forall text,
        returned (Http.createPayPalOrder client request)
        <> HttpsError invalid_argument text).
Proof.
  cbv zeta. split; [reflexivity|]. unfold Http.createPayPalOrder. cbn.
  destruct (client _) as [order|]; cbn.
  - destruct (Js.own (links order) "approve"); cbn;
      (split; [eexists; repeat split|intros text H; discriminate H]).
  - split; [eexists; repeat split|intros text H; discriminate H].
Qed.

(** The same name passes the guard of [src/index.js], which answers with
    its simulated success. *)
Lemma pubsub_inherited_name_passes_the_guard :
  returned (PubSub.createPayPalOrder sample_env
              (PubSub.mkOrderData (Some "u1") (Some "constructor"))
              (PubSub.mkContext (Some "u1")) sample_store)
  = Redirect "https://example.com/simulated-paypal-redirect" "SIMULATED_ORDER_ID".
Proof. reflexivity. Qed.

(** ** Reports *)

(** C9: an authenticated report call naming a salesperson without a
    stored record and a period gets the zero-valued, empty answer from
    both [getMonthlySalesReport] and [getYearlySalesReport], not an error. *)
Theorem C9_report_for_unknown_salesperson (e : env) (s : store)
    (sp k caller : string) :
  store_ok e (salespersonRef sp) = true ->
  Str.truthy sp = true ->
  Str.truthy k = true ->
  s !! salespersonRef sp = None ->
  let data := PubSub.mkReportData (Some sp) (Some k) in
  let context := PubSub.mkContext (Some caller) in
  PubSub.getMonthlySalesReport e data context s
  = PubSub.Reported
      (PubSub.mkReport (VNum Num.zero) [] (Some "Salesperson not found or no sales data."))
  /\ PubSub.getYearlySalesReport e data context s
     = PubSub.Reported
         (PubSub.mkReport (VNum Num.zero) [] (Some "Salesperson not found or no sales data.")).
Proof.
  intros Hok Hsp Hk Hnone. cbv zeta.
  unfold PubSub.getMonthlySalesReport, PubSub.getYearlySalesReport, PubSub.salesReport.
  cbn. by rewrite Hsp, Hk, Hok, Hnone.
Qed.

Lemma C9_report_for_unknown_salesperson_witness :
  PubSub.getMonthlySalesReport sample_env
    (PubSub.mkReportData (Some "nobody") (Some "2024-06"))
    (PubSub.mkContext (Some "u1")) sample_store
  = PubSub.Reported
      (PubSub.mkReport (VNum Num.zero) [] (Some "Salesperson not found or no sales data."))
  /\ PubSub.getYearlySalesReport sample_env
       (PubSub.mkReportData (Some "nobody") (Some "2024-06"))
       (PubSub.mkContext (Some "u1")) sample_store
     = PubSub.Reported
         (PubSub.mkReport (VNum Num.zero) [] (Some "Salesperson not found or no sales data.")).
Proof.
  apply (C9_report_for_unknown_salesperson sample_env sample_store
           "nobody" "2024-06" "u1").
  - reflexivity.
  - reflexivity.
  - reflexivity.
  - vm_compute; reflexivity.
Defined.

(** ** Payments without an amount *)

Lemma grossAmount_missing (r : Resource) :
  amount_value r = None -> Http.grossAmount_of r = Num.zero.
Proof. intros H. unfold Http.grossAmount_of. rewrite H. reflexivity. Qed.

(** A notification that lacks the order id, the payer address or the
    currency makes the user update throw: the answer is 500. *)
Lemma payment_undescribed (e : env) (req : Http.Request) (r : Resource)
    (uid : string) (s : store) (userData : gmap string value) :
  completed_payment req r uid ->
  s !! userRef uid = Some userData ->
  ~ described r ->
  Http.status_code (Http.response (Http.paypalWebhookHandler e req s)) = 500
  /\ Http.final (Http.paypalWebhookHandler e req s) = s.
Proof.
  intros Hp Hu Hd.
  pose proof (payment_outcome e req r uid s Hp) as H. cbv zeta in H.
  assert (exists st, reconcile_of e uid r s (Tx.State [] []) = Tx.Thrown st) as [st Hst].
  { run_body. cbn [Tx.writes].
    destruct (store_ok e (userRef uid)); [|by eexists]. rewrite Hu.
    cbv beta iota zeta. fold (userWrite e uid r).
    destruct (Firestore.valid_write (userWrite e uid r)) eqn:Hv; [|by eexists].
    destruct Hd. by apply (userWrite_valid e uid). }
  by rewrite Hst in H.
Qed.

(** C10 (the code, against the claim): a completed or approved payment
    whose amount value is missing is read as a payment of 0.  For a user
    without salesperson, when the notification carries order id, payer
    address and currency, the handler answers 200, marks the user paid
    with expiry now + 14 days and stores gross amount 0, as the claim
    says.  When the user record names a salesperson, the handler answers
    500 and writes nothing: the user is not marked paid, no sale record
    with amount 0 is written and the sale count is not raised.  The same
    happens for every user when the amount is absent as a whole, because
    the currency then is undefined. *)
Theorem C10_missing_amount :
  (forall (e : env) (req : Http.Request) (r : Resource) (uid : string) (s : store)
          (userData : gmap string value),
     reliable e ->
     completed_payment req r uid ->
     described r ->
     amount_value r = None ->
     s !! userRef uid = Some userData ->
     Js.truthy (salesperson_of userData) = false ->
     let out := Http.paypalWebhookHandler e req s in
     Http.grossAmount_of r = Num.zero
     /\ Http.status_code (Http.response out) = 200
     /\ stored_field (Http.final out) (userRef uid) "paymentStatus" = Some (VStr "paid")
     /\ stored_field (Http.final out) (userRef uid) "membershipExpiry"
        = Some (VTime (date_now e + 14 * 24 * 60 * 60 * 1000))
     /\ stored_field (Http.final out) (userRef uid) "paypalGrossAmount"
        = Some (VNum Num.zero))
  /\ (forall (e : env) (req : Http.Request) (r : Resource) (uid : string) (s : store)
             (userData : gmap string value),
        completed_payment req r uid ->
        amount_value r = None ->
        s !! userRef uid = Some userData ->
        Js.truthy (salesperson_of userData) = true ->
        let out := Http.paypalWebhookHandler e req s in
        Http.grossAmount_of r = Num.zero
        /\ Http.status_code (Http.response out) = 500
        /\ Http.final out = s)
  /\ (forall (e : env) (req : Http.Request) (r : Resource) (uid : string) (s : store)
             (userData : gmap string value),
        completed_payment req r uid ->
        first_amount r = None ->
        s !! userRef uid = Some userData ->
        let out := Http.paypalWebhookHandler e req s in
        Http.status_code (Http.response out) = 500 /\ Http.final out = s).
Proof.
  split; [|split].
  - intros e req r uid s userData Hrel Hp Hd Hmissing Hu Hnone. cbv zeta.
    pose proof (grossAmount_missing r Hmissing) as Hzero.
    split; [exact Hzero|].
    destruct (payment_direct e req r uid s userData Hrel Hp Hd Hu Hnone) as [H200 ->].
    split; [exact H200|]. unfold stored_field. rewrite lookup_insert_eq, Hzero.
    split; [apply userUpdate_fields|]. split; apply userUpdate_fields.
  - intros e req r uid s userData Hp Hmissing Hu Hlinked. cbv zeta.
    split; [by apply grossAmount_missing|].
    by apply (payment_refused e req r uid s userData).
  - intros e req r uid s userData Hp Hnone Hu. cbv zeta.
    apply (payment_undescribed e req r uid s userData Hp Hu).
    intros (_ & _ & [c Hc]). unfold amount_currency in Hc. rewrite Hnone in Hc.
    discriminate Hc.
Qed.

Lemma C10_missing_amount_witness :
  let paid := Http.paypalWebhookHandler sample_env (sample_request_direct None)
                sample_store_direct in
  let refused := Http.paypalWebhookHandler sample_env (sample_request None)
                   sample_store in
  (Http.status_code (Http.response paid) = 200
   /\ stored_field (Http.final paid) (userRef "u2") "paypalGrossAmount"
      = Some (VNum Num.zero))
  /\ (Http.status_code (Http.response refused) = 500
      /\ Http.final refused = sample_store).
Proof.
  cbv zeta. destruct C10_missing_amount as (Hdirect & Hlinked & _). split.
  - destruct (Hdirect sample_env (sample_request_direct None)
                (sample_resource_direct None) "u2" sample_store_direct sample_member)
      as (_ & H200 & _ & _ & Hgross).
    + split; [intros q|]; reflexivity.
    + repeat split.
    + repeat split; by eexists.
    + reflexivity.
    + vm_compute; reflexivity.
    + vm_compute; reflexivity.
    + split; assumption.
  - destruct (Hlinked sample_env (sample_request None) (sample_resource None)
                "u1" sample_store sample_user)
      as (_ & H500 & Hsame).
    + repeat split.
    + reflexivity.
    + vm_compute; reflexivity.
    + vm_compute; reflexivity.
    + split; assumption.
Defined.

(** * Further properties of the code *)

(** ** Order intake of [src/index.ts] *)

(** X1: [createPayPalOrder] sends the processor at most one request, and it
    sends one exactly when the caller is authenticated and the tier id is
    a non-empty string that passes the table lookup. *)
Theorem X1_processor_called_iff_guards_pass
    (client : OrderRequest -> option Order) (request : Http.CallableRequest) :
  (length (calls (Http.createPayPalOrder client request)) <= 1)%nat
  /\ (calls (Http.createPayPalOrder client request) <> []
      <-> Http.authenticated request = true
          /\ exists tierId,
               Http.selectedTierId (Http.data request) = Some tierId
               /\ Str.truthy tierId = true
               /\ Js.defined (Js.lookup Http.paymentTiers tierId) = true).
Proof.
  unfold Http.createPayPalOrder.
  destruct (Http.authenticated request); cbn [negb].
  2:{ cbn. split; [lia|]. split; [done|]. by intros [? _]. }
  destruct (Http.selectedTierId (Http.data request)) as [tierId|].
  2:{ cbn. split; [lia|]. split; [done|]. by intros (_ & ? & ? & _). }
  destruct (Str.truthy tierId) eqn:Ht.
  2:{ cbn. split; [lia|]. split; [done|]. intros (_ & ? & [= <-] & ? & _). congruence. }
  destruct (Js.defined (Js.lookup Http.paymentTiers tierId)) eqn:Hd; cbn [negb].
  2:{ cbn. split; [lia|]. split; [done|]. intros (_ & ? & [= <-] & _ & ?). congruence. }
  assert (calls
            match client (Http.orderRequest (Http.userId (Http.data request)) tierId
                            (Js.lookup Http.paymentTiers tierId)) with
            | Some order =>
                match Js.own (links order) "approve" with
                | Some href => _
                | None => _
                end
            | None => _
            end
          = [Http.orderRequest (Http.userId (Http.data request)) tierId
               (Js.lookup Http.paymentTiers tierId)]) as ->.
  { destruct (client _) as [order|]; [|reflexivity].
    destruct (Js.own (links order) "approve"); reflexivity. }
  cbn. split; [lia|]. split; [|done]. intros _. split; [done|]. by exists tierId.
Qed.

Ltac settle :=
  repeat match goal with
         | H : exists _, _ |- _ => destruct H
         | H : _ /\ _ |- _ => destruct H
         | |- forall _, _ => intro
         end;
  try done; try congruence; eauto.

Lemma own_first_link (l : list (string * string)) (k v : string) :
  Js.own l k = Some v -> (k, v) ∈ l.
Proof.
  induction l as [|[k' v'] l IH]; cbn; [done|].
  destruct (Str.eqb k k') eqn:Hk.
  - apply Str_eqb_eq in Hk as ->. intros [= ->]. left.
  - intros H. right. by apply IH.
Qed.

(** X2: what the caller of [createPayPalOrder] gets tells what happened:
    [unauthenticated] exactly when the caller has no identity;
    [invalid-argument] exactly when an authenticated caller's tier id is
    missing, empty or fails the lookup; [internal], with the one fixed
    message, only after a request was sent; and a redirect only with the
    processor's own order id and one of its links of relation "approve". *)
Theorem X2_reply_tells_the_cause
    (client : OrderRequest -> option Order) (request : Http.CallableRequest) :
  let called := Http.createPayPalOrder client request in
  ((exists text, returned called = HttpsError unauthenticated text)
   <-> Http.authenticated request = false)
  /\ ((exists text, returned called = HttpsError invalid_argument text)
      <-> Http.authenticated request = true /\ calls called = [])
  /\ (forall text, returned called = HttpsError internal text ->
        text = "Failed to create PayPal order." /\ calls called <> [])
  /\ (forall url orderId, returned called = Redirect url orderId ->
        exists payPalRequest order,
          calls called = [payPalRequest]
          /\ client payPalRequest = Some order
          /\ order_id order = orderId
          /\ ("approve", url) ∈ links order).
Proof.
  cbv zeta. unfold Http.createPayPalOrder.
  destruct (Http.authenticated request); cbn [negb].
  2:{ cbn. repeat split; settle. }
  destruct (Http.selectedTierId (Http.data request)) as [tierId|].
  2:{ cbn. repeat split; settle. }
  destruct (Str.truthy tierId).
  2:{ cbn. repeat split; settle. }
  destruct (Js.defined (Js.lookup Http.paymentTiers tierId)); cbn [negb].
  2:{ cbn. repeat split; settle. }
  destruct (client _) as [order|] eqn:Hclient.
  - destruct (Js.own (links order) "approve") as [href|] eqn:Hlink; cbn.
    + repeat split; settle.
      match goal with H : Redirect _ _ = Redirect _ _ |- _ => injection H as <- <- end.
      eexists _, order. repeat split; [exact Hclient|]. by apply own_first_link.
    + repeat split; settle.
  - cbn. repeat split; settle.
Qed.

(** X3: [createPayPalOrder] of [src/index.ts] never looks at [userId]: an
    authenticated call for a tier of the table that carries no user id
    still sends its request, with no reference id and with the text
    "undefined" in both redirect addresses. *)
Theorem X3_user_id_is_not_checked
    (client : OrderRequest -> option Order) (request : Http.CallableRequest)
    (tierId : string) (t : Http.Tier) :
  Http.authenticated request = true ->
  Http.selectedTierId (Http.data request) = Some tierId ->
  Js.own Http.paymentTiers tierId = Some t ->
  Http.userId (Http.data request) = None ->
  exists payPalRequest,
    calls (Http.createPayPalOrder client request) = [payPalRequest]
    /\ unit_reference_id payPalRequest = None
    /\ return_url payPalRequest
       = ("https://guided-botswana.web.app/payment-success?userId=undefined&tier="
          ++ tierId)%string
    /\ cancel_url payPalRequest
       = "https://guided-botswana.web.app/payment-cancel?userId=undefined".
Proof.
  intros Hauth Htier Hown Hnone.
  destruct (own_tier_cases tierId t Hown) as [Htruthy Hlookup].
  unfold Http.createPayPalOrder. rewrite Hauth, Htier, Htruthy, Hlookup, Hnone.
  cbn [negb Js.defined].
  exists (Http.orderRequest None tierId (Js.Own t)). split; [|repeat split].
  destruct (client _) as [order|]; [|reflexivity].
  destruct (Js.own (links order) "approve"); reflexivity.
Qed.

Lemma X3_user_id_is_not_checked_witness :
  exists payPalRequest,
    calls (Http.createPayPalOrder sample_client
             (Http.mkCall (Some (Http.mkAuth (Some "u1")))
                (Http.mkData (Some "local") None)))
    = [payPalRequest]
    /\ unit_reference_id payPalRequest = None
    /\ return_url payPalRequest
       = "https://guided-botswana.web.app/payment-success?userId=undefined&tier=local"
    /\ cancel_url payPalRequest
       = "https://guided-botswana.web.app/payment-cancel?userId=undefined".
Proof.
  apply (X3_user_id_is_not_checked sample_client
           (Http.mkCall (Some (Http.mkAuth (Some "u1")))
              (Http.mkData (Some "local") None))
           "local" (Http.mkTier "USD" "50.00" "Local (Botswana Citizens) Membership"));
    reflexivity.
Defined.

(** ** The v2 copy of the order intake *)

(** The copy carries the same price table. *)
Lemma v2_table : V2.paymentTiers = Http.paymentTiers.
Proof. reflexivity. Qed.

(** X4: the v2 copy of [createPayPalOrder] sends the processor the same
    requests and writes the same log lines as the function of
    [src/index.ts], for every processor and every call; it returns the same
    redirect, and where [src/index.ts] throws an error with a code the copy
    throws a plain error with the same message. *)
Theorem X4_v2_intake_agrees
    (client : OrderRequest -> option Order) (request : Http.CallableRequest) :
  V2.requests (V2.createPayPalOrder client request)
  = calls (Http.createPayPalOrder client request)
  /\ V2.console (V2.createPayPalOrder client request)
     = call_logs (Http.createPayPalOrder client request)
  /\ match returned (Http.createPayPalOrder client request) with
     | Redirect url orderId =>
         V2.result (V2.createPayPalOrder client request) = V2.Returned url orderId
     | HttpsError _ text =>
         V2.result (V2.createPayPalOrder client request) = V2.Thrown text
     end.
Proof.
  unfold V2.createPayPalOrder, Http.createPayPalOrder. rewrite v2_table.
  destruct (Http.authenticated request); cbn [negb]; [|by cbn].
  destruct (Http.selectedTierId (Http.data request)) as [tierId|]; [|by cbn].
  destruct (Str.truthy tierId); [|by cbn].
  destruct (Js.defined (Js.lookup Http.paymentTiers tierId)); cbn [negb]; [|by cbn].
  destruct (client _) as [order|]; [|by cbn].
  destruct (Js.own (links order) "approve"); by cbn.
Qed.

(** ** The HTTPS webhook handler of [src/index.ts], on every request *)

Ltac split_handler :=
  repeat match goal with
         | |- context [if ?b then _ else _] => destruct b eqn:?
         | |- context [match ?o with Some _ => _ | None => _ end] => destruct o eqn:?
         end.

(** A change of the store is the work of a completed payment. *)
Lemma http_change_inv (e : env) (req : Http.Request) (s : store) :
  Http.final (Http.paypalWebhookHandler e req s) <> s ->
  Http.status_code (Http.response (Http.paypalWebhookHandler e req s)) = 200
  /\ exists r uid, completed_payment req r uid.
Proof.
  intros Hchanged. split.
  { destruct (decide (Http.status_code
                        (Http.response (Http.paypalWebhookHandler e req s)) = 200))
      as [H|H]; [exact H|].
    destruct Hchanged. by apply http_failure_leaves_store. }
  revert Hchanged. unfold Http.paypalWebhookHandler, completed_payment.
  destruct (Str.eqb (Http.method req) "POST") eqn:Hm; cbn [negb]; [|by cbn].
  apply Str_eqb_eq in Hm.
  destruct (Http.is_payment_event (event_type (Http.body req))) eqn:Hev.
  - destruct (resource (Http.body req)) as [r|] eqn:Hr; [|by cbn].
    destruct (Http.userId_of r) as [uid|] eqn:Hu; [|by cbn].
    destruct (Str.truthy uid && Http.is_paid_status (status r)) eqn:Hc; [|by cbn].
    apply andb_true_iff in Hc as [Ht Hst]. intros _. by exists r, uid.
  - split_handler; by cbn.
Qed.

(** X5: the answers of [paypalWebhookHandler]: it is 405 exactly for a
    method other than POST, and otherwise 200 or 500; and the store is
    changed only with the answer 200, for a POST of a completed or approved
    payment that names a user and carries a paid status. *)
Theorem X5_answers_of_the_webhook (e : env) (req : Http.Request) (s : store) :
  let out := Http.paypalWebhookHandler e req s in
  (Http.status_code (Http.response out) = 405 <-> Http.method req <> "POST")
  /\ (Http.status_code (Http.response out) = 200
      \/ Http.status_code (Http.response out) = 405
      \/ Http.status_code (Http.response out) = 500)
  /\ (Http.final out <> s ->
      Http.status_code (Http.response out) = 200
      /\ exists r uid, completed_payment req r uid).
Proof.
  cbv zeta. split; [|split; [|apply http_change_inv]].
  - unfold Http.paypalWebhookHandler.
    destruct (Str.eqb (Http.method req) "POST") eqn:Hm; cbn [negb].
    + apply Str_eqb_eq in Hm. split; [|done]. split_handler; cbn; discriminate.
    + cbn. split; [|done]. intros _ H. rewrite H in Hm. by rewrite Str_eqb_refl in Hm.
  - unfold Http.paypalWebhookHandler. split_handler; cbn; auto.
Qed.

Lemma X5_answers_of_the_webhook_witness :
  Http.final (Http.paypalWebhookHandler sample_env (sample_request_direct (Some "50.00"))
                sample_store_direct) <> sample_store_direct
  /\ Http.status_code
       (Http.response (Http.paypalWebhookHandler sample_env
                         (sample_request_direct (Some "50.00")) sample_store_direct))
     = 200.
Proof.
  assert (Http.final (Http.paypalWebhookHandler sample_env
                        (sample_request_direct (Some "50.00")) sample_store_direct)
          <> sample_store_direct) as Hchanged.
  { intros H.
    assert (stored_field
              (Http.final (Http.paypalWebhookHandler sample_env
                             (sample_request_direct (Some "50.00"))
                             sample_store_direct))
              (userRef "u2") "paymentStatus" = Some (VStr "paid")) as Hpaid
      by (vm_compute; reflexivity).
    rewrite H in Hpaid. vm_compute in Hpaid. discriminate Hpaid. }
  split; [exact Hchanged|].
  exact (proj1 (proj2 (proj2 (X5_answers_of_the_webhook sample_env
                                (sample_request_direct (Some "50.00"))
                                sample_store_direct))
                  Hchanged)).
Defined.

(** X6: a POST without a resource is answered 500, and so leads to a new
    delivery, when its event type is one the handler knows (a payment, a
    denied capture, a subscription event); for any other event type it is
    answered 200.  The store is unchanged in both cases. *)
Theorem X6_missing_resource (e : env) (req : Http.Request) (s : store) :
  Http.method req = "POST" ->
  resource (Http.body req) = None ->
  let known := Http.is_payment_event (event_type (Http.body req))
               || Http.is_denied_event (event_type (Http.body req))
               || Http.is_subscription_event (event_type (Http.body req)) in
  let out := Http.paypalWebhookHandler e req s in
  Http.status_code (Http.response out) = (if known then 500 else 200)
  /\ Http.final out = s.
Proof.
  intros Hm Hr. cbv zeta. unfold Http.paypalWebhookHandler. rewrite Hm, Hr.
  cbn [negb Str.eqb String.eqb Ascii.eqb Bool.eqb].
  destruct (Http.is_payment_event _); [by cbn|].
  destruct (Http.is_denied_event _); [by cbn|].
  destruct (Http.is_subscription_event _); by cbn.
Qed.

Lemma X6_missing_resource_witness :
  Http.status_code
    (Http.response (Http.paypalWebhookHandler sample_env
                      (Http.mkRequest "POST"
                         (mkNotification (Some "PAYMENT.CAPTURE.DENIED") None None))
                      sample_store)) = 500
  /\ Http.status_code
       (Http.response (Http.paypalWebhookHandler sample_env
                         (Http.mkRequest "POST"
                            (mkNotification (Some "CUSTOMER.DISPUTE.CREATED") None None))
                         sample_store)) = 200.
Proof.
  split.
  - exact (proj1 (X6_missing_resource sample_env
                    (Http.mkRequest "POST"
                       (mkNotification (Some "PAYMENT.CAPTURE.DENIED") None None))
                    sample_store eq_refl eq_refl)).
  - exact (proj1 (X6_missing_resource sample_env
                    (Http.mkRequest "POST"
                       (mkNotification (Some "CUSTOMER.DISPUTE.CREATED") None None))
                    sample_store eq_refl eq_refl)).
Defined.

Lemma apply_write_keeps (e : env) (w : Firestore.write) (s s' : store) (q : path) :
  Firestore.apply_write e w s = Some s' -> is_Some (s !! q) -> is_Some (s' !! q).
Proof.
  intros Hw Hq. destruct (decide (Firestore.target w = q)) as [<-|Hne].
  - unfold Firestore.apply_write in Hw. destruct (Firestore.valid_write w); [|done].
    destruct w as [p f|p f|p f]; cbn in *.
    + destruct (s !! p); [|done]. injection Hw as <-. rewrite lookup_insert_eq. eauto.
    + injection Hw as <-. rewrite lookup_insert_eq. eauto.
    + injection Hw as <-. rewrite lookup_insert_eq. eauto.
  - by rewrite (apply_write_frame e w s s' q Hw Hne).
Qed.

(** No commit removes a document. *)
Lemma commit_keeps (e : env) (ws : list Firestore.write) (s s' : store) (q : path) :
  Firestore.commit e ws s = Some s' -> is_Some (s !! q) -> is_Some (s' !! q).
Proof.
  revert s. induction ws as [|w ws IH]; cbn; intros s H Hq.
  - by injection H as <-.
  - destruct (Firestore.apply_write e w s) as [s1|] eqn:Hw; [|done].
    apply (IH s1 H). by apply (apply_write_keeps e w s).
Qed.

Lemma reconcile_targets (e : env) (uid : string) (r : Resource) (s : store)
    (st : Tx.state) :
  reconcile_of e uid r s (Tx.State [] []) = Tx.Done tt st ->
  Forall (fun w => written_by_payment e uid s (Firestore.target w)) (Tx.writes st).
Proof.
  run_body. cbn [Tx.writes]. destruct (store_ok e (userRef uid)); [|done].
  destruct (s !! userRef uid) as [userData|] eqn:Hu.
  2:{ cbn. intros [= <-]. constructor. }
  cbv beta iota zeta. fold (salesperson_of userData).
  assert (written_by_payment e uid s (userRef uid)) as Huser.
  { exists userData. split; [done|]. by left. }
  destruct (Firestore.valid_write _); [|done]. cbn [Tx.writes app].
  destruct (Js.truthy (salesperson_of userData)).
  - by destruct (salesperson_of userData).
  - cbn. intros [= <-]. repeat constructor. assumption.
Qed.

(** Either nothing is written, or a completed payment was answered 200. *)
Lemma http_cases (e : env) (req : Http.Request) (s : store) :
  Http.final (Http.paypalWebhookHandler e req s) = s
  \/ (Http.status_code (Http.response (Http.paypalWebhookHandler e req s)) = 200
      /\ exists r uid, completed_payment req r uid).
Proof.
  destruct (decide (Http.status_code
                      (Http.response (Http.paypalWebhookHandler e req s)) = 200))
    as [H200|H]; [|left; by apply http_failure_leaves_store].
  revert H200. unfold Http.paypalWebhookHandler, completed_payment.
  destruct (Str.eqb (Http.method req) "POST") eqn:Hm; cbn [negb]; [|by left].
  apply Str_eqb_eq in Hm.
  destruct (Http.is_payment_event (event_type (Http.body req))) eqn:Hev.
  - destruct (resource (Http.body req)) as [r|] eqn:Hr; [|by left].
    destruct (Http.userId_of r) as [uid|] eqn:Hu; [|by left].
    destruct (Str.truthy uid && Http.is_paid_status (status r)) eqn:Hc; [|by left].
    apply andb_true_iff in Hc as [Ht Hst]. intros H200. right. split; [exact H200|].
    by exists r, uid.
  - intros _. left. split_handler; by cbn.
Qed.

(** X7: whatever the request, [paypalWebhookHandler] removes no document,
    and a document it changes or creates is the record of the user the
    payment names, the record of the salesperson that user record names,
    or the sale record under that salesperson. *)
Theorem X7_webhook_writes_three_documents (e : env) (req : Http.Request)
    (s : store) (q : path) :
  let out := Http.paypalWebhookHandler e req s in
  (is_Some (s !! q) -> is_Some (Http.final out !! q))
  /\ (Http.final out !! q <> s !! q ->
      exists r uid, completed_payment req r uid /\ written_by_payment e uid s q).
Proof.
  cbv zeta.
  destruct (http_cases e req s) as [->|(H200 & r & uid & Hp)];
    [split; [done|by intros []]|].
  destruct (http_success_inv e req r uid s Hp H200) as (st & Hbody & Hcommit).
  split.
  - by apply (commit_keeps e (Tx.writes st) s).
  - intros Hq. exists r, uid. split; [exact Hp|].
    pose proof (reconcile_targets e uid r s st Hbody) as Htargets.
    destruct (decide (Exists (fun w => Firestore.target w = q) (Tx.writes st)))
      as [Hex|Hnone].
    + apply Exists_exists in Hex as (w & Hin & <-).
      by apply (proj1 (Forall_forall _ _) Htargets w).
    + destruct Hq. apply (commit_frame e (Tx.writes st) s _ q Hcommit).
      apply Forall_forall. intros w Hin Heq. apply Hnone.
      apply Exists_exists. by exists w.
Qed.

Lemma X7_webhook_writes_three_documents_witness :
  is_Some (Http.final (Http.paypalWebhookHandler sample_env
                         (sample_request_direct (Some "50.00")) sample_store_direct)
             !! salespersonRef "sp1")
  /\ exists r uid,
       completed_payment (sample_request_direct (Some "50.00")) r uid
       /\ written_by_payment sample_env uid sample_store_direct (userRef "u2").
Proof.
  destruct (X7_webhook_writes_three_documents sample_env
              (sample_request_direct (Some "50.00")) sample_store_direct
              (salespersonRef "sp1"))
    as [Hkeeps _].
  destruct (X7_webhook_writes_three_documents sample_env
              (sample_request_direct (Some "50.00")) sample_store_direct
              (userRef "u2"))
    as [_ Hwrites].
  split.
  - apply Hkeeps. vm_compute. eauto.
  - apply Hwrites. vm_compute. discriminate.
Defined.

Lemma userUpdate_other e o p c g (d : gmap string value) (k : string) :
  k ∉ ["paymentStatus"; "membershipExpiry"; "lastPaymentDate"; "paypalOrderId";
       "paypalPayerEmail"; "paypalGrossAmount"; "paypalCurrencyCode"] ->
  Firestore.apply_update e (Http.userUpdate e o p c g) d !! k = d !! k.
Proof.
  intros Hk. unfold_fields.
  repeat (rewrite lookup_insert_ne; [|intros <-; apply Hk; set_solver]).
  reflexivity.
Qed.

Lemma userUpdate_payment e o p c g (d : gmap string value) :
  let d' := Firestore.apply_update e (Http.userUpdate e o p c g) d in
  d' !! "paypalPayerEmail" = Some (Js.of_string p)
  /\ d' !! "paypalCurrencyCode" = Some (Js.of_string c)
  /\ d' !! "lastPaymentDate" = Some (VTime (server_time e)).
Proof. cbv zeta. unfold_fields. lookup_fields. auto. Qed.

(** X8: a payment that is answered 200 has overwritten seven fields of
    the user record with what the notification carries, and has kept
    every other field of the record as it was. *)
Theorem X8_user_update_merges (e : env) (req : Http.Request) (r : Resource)
    (uid : string) (s : store) (userData : gmap string value) :
  completed_payment req r uid ->
  s !! userRef uid = Some userData ->
  Http.status_code (Http.response (Http.paypalWebhookHandler e req s)) = 200 ->
  let after := stored_field (Http.final (Http.paypalWebhookHandler e req s))
                 (userRef uid) in
  after "paypalOrderId" = Some (Js.of_string (resource_id r))
  /\ after "paypalPayerEmail" = Some (Js.of_string (payer_email r))
  /\ after "paypalCurrencyCode" = Some (Js.of_string (amount_currency r))
  /\ after "paypalGrossAmount" = Some (VNum (Http.grossAmount_of r))
  /\ after "lastPaymentDate" = Some (VTime (server_time e))
  /\ forall k,
       k ∉ ["paymentStatus"; "membershipExpiry"; "lastPaymentDate"; "paypalOrderId";
            "paypalPayerEmail"; "paypalGrossAmount"; "paypalCurrencyCode"] ->
       after k = userData !! k.
Proof.
  intros Hp Hu H200. cbv zeta. unfold stored_field.
  rewrite (http_user_after e req r uid s userData Hp Hu H200).
  split; [apply userUpdate_fields|]. split; [apply userUpdate_payment|].
  split; [apply userUpdate_payment|]. split; [apply userUpdate_fields|].
  split; [apply userUpdate_payment|]. intros k Hk. by apply userUpdate_other.
Qed.

Lemma X8_user_update_merges_witness :
  stored_field (Http.final (Http.paypalWebhookHandler sample_env
                              (sample_request_direct (Some "50.00"))
                              sample_store_direct))
    (userRef "u2") "paypalPayerEmail" = Some (VStr "neo@example.com")
  /\ stored_field (Http.final (Http.paypalWebhookHandler sample_env
                                 (sample_request_direct (Some "50.00"))
                                 sample_store_direct))
       (userRef "u2") "displayName" = Some (VStr "Neo").
Proof.
  destruct (X8_user_update_merges sample_env (sample_request_direct (Some "50.00"))
              (sample_resource_direct (Some "50.00")) "u2" sample_store_direct
              sample_member)
    as (_ & Hemail & _ & _ & _ & Hkept).
  - repeat split.
  - vm_compute; reflexivity.
  - vm_compute; reflexivity.
  - split; [exact Hemail|].
    rewrite (Hkept "displayName"); [vm_compute; reflexivity|].
    intros Hin. repeat (apply elem_of_cons in Hin as [Hin|Hin]; [discriminate Hin|]).
    by apply elem_of_nil in Hin.
Defined.

(** A transaction body that returns has found no user record and queued
    nothing, or has found the record of a user without salesperson and
    queued its update. *)
Lemma reconcile_done (e : env) (uid : string) (r : Resource) (s : store)
    (st : Tx.state) :
  reconcile_of e uid r s (Tx.State [] []) = Tx.Done tt st ->
  (s !! userRef uid = None /\ Tx.writes st = [])
  \/ exists userData,
       s !! userRef uid = Some userData
       /\ Js.truthy (salesperson_of userData) = false
       /\ described r
       /\ Tx.writes st = [userWrite e uid r].
Proof.
  run_body. cbn [Tx.writes]. destruct (store_ok e (userRef uid)); [|done].
  destruct (s !! userRef uid) as [userData|] eqn:Hu.
  2:{ cbn. intros [= <-]. by left. }
  cbv beta iota zeta. fold (salesperson_of userData). fold (userWrite e uid r).
  destruct (Firestore.valid_write (userWrite e uid r)) eqn:Hv; [|done].
  apply (userWrite_valid e uid) in Hv. cbn [Tx.writes app].
  destruct (Js.truthy (salesperson_of userData)) eqn:Hsp.
  - by destruct (salesperson_of userData).
  - cbn. intros [= <-]. right. by exists userData.
Qed.

(** X9: the HTTPS webhook handler changes user records only, and only
    those of users without a salesperson.  Whatever the request, a
    document that differs after the call is the record, existing before,
    of the user the payment names, that record names no salesperson, and
    the answer is 200; so no salesperson record and no sale record is
    ever written, and no document is created. *)
Theorem X9_only_direct_user_records_change (e : env) (req : Http.Request)
    (s : store) (q : path) :
  Http.final (Http.paypalWebhookHandler e req s) !! q <> s !! q ->
  exists r uid userData,
    completed_payment req r uid
    /\ described r
    /\ q = userRef uid
    /\ s !! q = Some userData
    /\ Js.truthy (salesperson_of userData) = false
    /\ Http.status_code (Http.response (Http.paypalWebhookHandler e req s)) = 200.
Proof.
  intros Hq.
  destruct (http_cases e req s) as [Hsame|(H200 & r & uid & Hp)];
    [by rewrite Hsame in Hq|].
  destruct (http_success_inv e req r uid s Hp H200) as (st & Hbody & Hcommit).
  destruct (reconcile_done e uid r s st Hbody)
    as [[_ Hws]|(userData & Hu & Hnone & Hd & Hws)]; rewrite Hws in Hcommit.
  - injection Hcommit as Hsame. by rewrite <- Hsame in Hq.
  - rewrite (commit_user e uid r s userData Hu Hd) in Hcommit.
    injection Hcommit as Hfinal. rewrite <- Hfinal in Hq.
    exists r, uid, userData.
    destruct (decide (q = userRef uid)) as [->|Hne]; [done|].
    by rewrite lookup_insert_ne in Hq.
Qed.

Lemma X9_only_direct_user_records_change_witness :
  exists r uid userData,
    completed_payment (sample_request_direct (Some "50.00")) r uid
    /\ described r
    /\ userRef "u2" = userRef uid
    /\ sample_store_direct !! userRef "u2" = Some userData
    /\ Js.truthy (salesperson_of userData) = false
    /\ Http.status_code
         (Http.response (Http.paypalWebhookHandler sample_env
                           (sample_request_direct (Some "50.00")) sample_store_direct))
       = 200.
Proof.
  apply (X9_only_direct_user_records_change sample_env
           (sample_request_direct (Some "50.00")) sample_store_direct (userRef "u2")).
  vm_compute. discriminate.
Defined.

(** X10: for a user whose record names no salesperson (no reference, or a
    falsy one such as the empty string) a completed payment that carries
    order id, payer address and currency updates the user record and
    nothing else: no document is created and every other document is as
    before. *)
Theorem X10_payment_without_salesperson (e : env) (req : Http.Request)
    (r : Resource) (uid : string) (s : store) (userData : gmap string value) :
  reliable e ->
  completed_payment req r uid ->
  described r ->
  s !! userRef uid = Some userData ->
  Js.truthy (salesperson_of userData) = false ->
  let out := Http.paypalWebhookHandler e req s in
  Http.status_code (Http.response out) = 200
  /\ stored_field (Http.final out) (userRef uid) "paymentStatus" = Some (VStr "paid")
  /\ dom (Http.final out) = dom s
  /\ forall q, q <> userRef uid -> Http.final out !! q = s !! q.
Proof.
  intros Hrel Hp Hd Hu Hnone. cbv zeta.
  destruct (payment_direct e req r uid s userData Hrel Hp Hd Hu Hnone) as [H200 ->].
  split; [exact H200|]. unfold stored_field. rewrite lookup_insert_eq.
  split; [apply userUpdate_fields|]. split.
  - apply dom_insert_lookup_L. eauto.
  - intros q Hq. by rewrite lookup_insert_ne.
Qed.

Lemma X10_payment_without_salesperson_witness :
  let s : store := {[ userRef "u2" := {[ "paymentStatus" := VStr "unpaid" ]} ]} in
  let req := Http.mkRequest "POST"
               (mkNotification (Some "PAYMENT.CAPTURE.COMPLETED") None
                  (Some (mkResource (Some "ORDER-2")
                           (Some [mkPurchaseUnit None (Some "u2")
                                    (Some (mkAmount (Some "50.00") (Some "USD"))) None])
                           (Some (mkPayer (Some "guest@example.com")))
                           (Some "APPROVED")))) in
  Http.status_code (Http.response (Http.paypalWebhookHandler sample_env req s)) = 200
  /\ stored_field (Http.final (Http.paypalWebhookHandler sample_env req s))
       (userRef "u2") "paymentStatus" = Some (VStr "paid")
  /\ dom (Http.final (Http.paypalWebhookHandler sample_env req s)) = dom s.
Proof.
  cbv zeta.
  destruct (X10_payment_without_salesperson sample_env
              (Http.mkRequest "POST"
                 (mkNotification (Some "PAYMENT.CAPTURE.COMPLETED") None
                    (Some (mkResource (Some "ORDER-2")
                             (Some [mkPurchaseUnit None (Some "u2")
                                      (Some (mkAmount (Some "50.00") (Some "USD"))) None])
                             (Some (mkPayer (Some "guest@example.com")))
                             (Some "APPROVED")))))
              (mkResource (Some "ORDER-2")
                 (Some [mkPurchaseUnit None (Some "u2")
                          (Some (mkAmount (Some "50.00") (Some "USD"))) None])
                 (Some (mkPayer (Some "guest@example.com")))
                 (Some "APPROVED"))
              "u2" {[ userRef "u2" := {[ "paymentStatus" := VStr "unpaid" ]} ]}
              {[ "paymentStatus" := VStr "unpaid" ]})
    as (H200 & Hpaid & Hdom & _).
  - split; [intros q|]; reflexivity.
  - repeat split.
  - repeat split; eexists; reflexivity.
  - vm_compute; reflexivity.
  - vm_compute; reflexivity.
  - repeat split; assumption.
Defined.

(** X11: the amount of a notification is not checked to be a number.  When
    its text does not start with one, [parseFloat] gives NaN, and a
    payment of a user without salesperson is answered 200 all the same:
    the user is marked paid and NaN is stored as the gross amount. *)
Theorem X11_amount_that_is_no_number (e : env) (req : Http.Request) (r : Resource)
    (uid : string) (s : store) (userData : gmap string value) :
  reliable e ->
  completed_payment req r uid ->
  described r ->
  Http.grossAmount_of r = Num.nan ->
  s !! userRef uid = Some userData ->
  Js.truthy (salesperson_of userData) = false ->
  let out := Http.paypalWebhookHandler e req s in
  Http.status_code (Http.response out) = 200
  /\ stored_field (Http.final out) (userRef uid) "paymentStatus" = Some (VStr "paid")
  /\ stored_field (Http.final out) (userRef uid) "paypalGrossAmount"
     = Some (VNum Num.nan).
Proof.
  intros Hrel Hp Hd Hnan Hu Hnone. cbv zeta.
  destruct (payment_direct e req r uid s userData Hrel Hp Hd Hu Hnone) as [H200 ->].
  split; [exact H200|]. unfold stored_field. rewrite lookup_insert_eq, Hnan.
  split; apply userUpdate_fields.
Qed.

Lemma X11_amount_that_is_no_number_witness :
  let out := Http.paypalWebhookHandler sample_env (sample_request_direct (Some "N/A"))
               sample_store_direct in
  Http.status_code (Http.response out) = 200
  /\ stored_field (Http.final out) (userRef "u2") "paypalGrossAmount"
     = Some (VNum Num.nan).
Proof.
  cbv zeta.
  destruct (X11_amount_that_is_no_number sample_env (sample_request_direct (Some "N/A"))
              (sample_resource_direct (Some "N/A")) "u2" sample_store_direct
              sample_member)
    as (H200 & _ & Hgross).
  - split; [intros q|]; reflexivity.
  - repeat split.
  - repeat split; by eexists.
  - reflexivity.
  - vm_compute; reflexivity.
  - vm_compute; reflexivity.
  - split; assumption.
Defined.

(** ** More on the monthly job of [src/index.ts] *)

Lemma reset_other e (d : gmap string value) (f : string) :
  f <> "currentMonthEarnings" -> f <> "totalSales" ->
  Firestore.apply_update e Http.reset d !! f = d !! f.
Proof. intros H1 H2. unfold_fields. by rewrite !lookup_insert_ne. Qed.

Lemma reset_again e1 e2 (d : gmap string value) :
  Firestore.apply_update e2 Http.reset (Firestore.apply_update e1 Http.reset d)
  = Firestore.apply_update e1 Http.reset d.
Proof.
  apply map_eq. intros f.
  destruct (decide (f = "currentMonthEarnings")) as [->|H1];
    [by rewrite !(proj1 (reset_fields _ _))|].
  destruct (decide (f = "totalSales")) as [->|H2];
    [by rewrite !(proj2 (reset_fields _ _))|].
  by rewrite (reset_other e2 _ f H1 H2).
Qed.

Lemma reset_no_activity e (d : gmap string value) :
  Http.has_activity (Firestore.apply_update e Http.reset d) = false.
Proof.
  unfold Http.has_activity, Http.counter, Js.field.
  rewrite (proj1 (reset_fields e d)), (proj2 (reset_fields e d)). reflexivity.
Qed.

(** What the batch did to the document at [q]. *)
Lemma rollover_cases (e : env) (m : string) (s s' : store) (q : path) :
  Firestore.commit e (flat_map (Http.rollover m) (Firestore.collection ["salespersons"] s)) s
  = Some s' ->
  s' !! q = s !! q
  \/ exists i d,
       s !! salespersonRef i = Some d
       /\ ((q = salespersonRef i
            /\ s' !! q = Some (Firestore.apply_update e Http.reset d))
           \/ (q = Http.historicalRef i m
               /\ s' !! q = archived e m d (s !! q))).
Proof.
  intros Hc.
  destruct (rollover_all e m (Firestore.collection ["salespersons"] s) s)
    as (s0 & Hc0 & Hin & Hframe).
  { apply NoDup_collection. }
  { intros i d Hid. by apply elem_of_collection in Hid. }
  rewrite Hc in Hc0. injection Hc0 as <-.
  destruct (decide (Exists (fun id : string * gmap string value =>
                              q = salespersonRef id.1 \/ q = Http.historicalRef id.1 m)
                      (Firestore.collection ["salespersons"] s))) as [Hex|Hno].
  - right. apply Exists_exists in Hex as ([i d] & Hid & Hq). cbn [fst] in Hq.
    exists i, d. destruct (Hin i d Hid) as [Hsp Hh].
    split; [by apply elem_of_collection in Hid|].
    destruct Hq as [->| ->]; [left|right]; by split.
  - left. apply Hframe. intros i Hi.
    apply list_elem_of_fmap in Hi as ([j d] & -> & Hid). cbn [fst].
    split; intros ->; apply Hno, Exists_exists; exists (j, d); cbn [fst]; auto.
Qed.

Lemma rollover_commits (e : env) (s : store) :
  exists s', Firestore.commit e
               (flat_map (Http.rollover (iso_month e))
                  (Firestore.collection ["salespersons"] s)) s = Some s'.
Proof.
  destruct (rollover_all e (iso_month e) (Firestore.collection ["salespersons"] s) s)
    as (s' & Hc & _).
  - apply NoDup_collection.
  - intros i d Hid. by apply elem_of_collection in Hid.
  - by exists s'.
Qed.

(** X12: the monthly job completes exactly when the store answers its read
    and its commit (the batch never fails by itself: every update in it is
    for a document of the snapshot), and leaves the store as it was when it
    does not.  It deletes nothing; a document it changes is the record of
    a stored salesperson or that salesperson's historical record of the
    current month; and in a salesperson record every field but the two
    counters stays as it was. *)
Theorem X12_rollover_touches_only_its_records (e : env) (s : store) :
  let out := Http.resetMonthlyEarnings e s in
  (Http.completed out = true
   <-> store_ok e ["salespersons"] = true /\ commit_ok e = true)
  /\ (Http.completed out = false -> Http.stored out = s)
  /\ (forall q, is_Some (s !! q) -> is_Some (Http.stored out !! q))
  /\ (forall q, Http.stored out !! q <> s !! q ->
        exists sp, is_Some (s !! salespersonRef sp)
                   /\ (q = salespersonRef sp
                       \/ q = Http.historicalRef sp (iso_month e)))
  /\ (forall sp d f,
        s !! salespersonRef sp = Some d ->
        f <> "currentMonthEarnings" -> f <> "totalSales" ->
        stored_field (Http.stored out) (salespersonRef sp) f = d !! f).
Proof.
  cbv zeta. unfold Http.resetMonthlyEarnings.
  assert (forall sp d f, s !! salespersonRef sp = Some d ->
            stored_field s (salespersonRef sp) f = d !! f) as Hsame.
  { intros sp d f Hd. unfold stored_field. by rewrite Hd. }
  destruct (store_ok e ["salespersons"]); cbn [Http.completed Http.stored];
    [|split; [split; [done|by intros [? _]]|]; split; [done|]; split; [done|];
      split; [done|]; intros; by apply Hsame].
  destruct (commit_ok e); cbn [Http.completed Http.stored];
    [|split; [split; [done|by intros [_ ?]]|]; split; [done|]; split; [done|];
      split; [done|]; intros; by apply Hsame].
  destruct (rollover_commits e s) as (s' & Hc). rewrite Hc.
  cbn [Http.completed Http.stored].
  split; [done|]. split; [done|].
  pose proof (fun q => rollover_cases e (iso_month e) s s' q Hc) as Hq.
  split; [|split].
  - intros q Hsome.
    destruct (Hq q) as [->|(i & d & _ & [[_ ->]|[_ ->]])]; [done|by eexists|].
    unfold archived. destruct (Http.has_activity d); [by eexists|done].
  - intros q Hne.
    destruct (Hq q) as [Heq|(i & d & Hd & Hcase)]; [done|].
    exists i. split; [by eexists|]. destruct Hcase as [[-> _]|[-> _]]; auto.
  - intros sp d f Hd H1 H2. unfold stored_field.
    destruct (Hq (salespersonRef sp)) as [->|(i & d' & Hd' & [[Hi ->]|[Hi _]])].
    + by rewrite Hd.
    + apply salespersonRef_inj in Hi as <-. rewrite Hd in Hd'. injection Hd' as <-.
      by apply reset_other.
    + by apply salespersonRef_historicalRef in Hi.
Qed.

(** A batch over records that are already reset and show no activity
    changes nothing. *)
Lemma rollover_nothing_to_do (e : env) (m : string)
    (L : list (string * gmap string value)) (s : store) :
  (forall i d, (i, d) ∈ L ->
     s !! salespersonRef i = Some d
     /\ Http.has_activity d = false
     /\ Firestore.apply_update e Http.reset d = d) ->
  Firestore.commit e (flat_map (Http.rollover m) L) s = Some s.
Proof.
  induction L as [|[i d] L IH]; intros HL; [done|].
  destruct (HL i d) as (Hd & Hna & Hfix); [left|].
  cbn [flat_map]. rewrite commit_app. unfold Http.rollover at 1. cbn [fst snd].
  rewrite Hna. cbn [app Firestore.commit]. unfold Firestore.apply_write.
  rewrite reset_valid, Hd, Hfix, insert_id by done.
  apply IH. intros j d' Hj. apply HL. by right.
Qed.

(** X13: running the monthly job again, with no sale in between, changes
    nothing, whatever the clock says then: the counters are already 0, so
    nothing is archived and no historical record is overwritten with
    zeros. *)
Theorem X13_rollover_again_changes_nothing (e1 e2 : env) (s : store) :
  Http.completed (Http.resetMonthlyEarnings e1 s) = true ->
  store_ok e2 ["salespersons"] = true ->
  commit_ok e2 = true ->
  let once := Http.stored (Http.resetMonthlyEarnings e1 s) in
  Http.completed (Http.resetMonthlyEarnings e2 once) = true
  /\ Http.stored (Http.resetMonthlyEarnings e2 once) = once.
Proof.
  intros Hdone Hread Hcommit. cbv zeta.
  unfold Http.resetMonthlyEarnings in Hdone |- *.
  destruct (store_ok e1 ["salespersons"]); [|discriminate Hdone].
  destruct (commit_ok e1); [|discriminate Hdone].
  destruct (rollover_commits e1 s) as (s1 & Hc). rewrite Hc in Hdone |- *.
  cbn [Http.stored]. rewrite Hread, Hcommit.
  rewrite (rollover_nothing_to_do e2 (iso_month e2)
             (Firestore.collection ["salespersons"] s1) s1); [done|].
  intros i d Hid. apply elem_of_collection in Hid. change (s1 !! salespersonRef i = Some d) in Hid.
  split; [exact Hid|].
  assert (exists d0, d = Firestore.apply_update e1 Http.reset d0) as [d0 ->].
  { destruct (rollover_cases e1 (iso_month e1) s s1 (salespersonRef i) Hc)
      as [Heq|(j & d' & Hd' & [[Hj Hs1]|[Hj _]])].
    - rewrite Hid in Heq. symmetry in Heq.
      destruct (rollover_all e1 (iso_month e1)
                  (Firestore.collection ["salespersons"] s) s)
        as (s0 & Hc0 & Hin & _).
      { apply NoDup_collection. }
      { intros k dk Hk. by apply elem_of_collection in Hk. }
      rewrite Hc in Hc0. injection Hc0 as <-.
      destruct (Hin i d) as [Hr _]; [by apply elem_of_collection|].
      rewrite Hid in Hr. injection Hr as Hr. by exists d.
    - rewrite Hid in Hs1. injection Hs1 as ->. by exists d'.
    - by apply salespersonRef_historicalRef in Hj. }
  split; [apply reset_no_activity|apply reset_again].
Qed.

Lemma X13_rollover_again_changes_nothing_witness :
  Http.stored (Http.resetMonthlyEarnings sample_env_again
                 (Http.stored (Http.resetMonthlyEarnings sample_env sample_store)))
  = Http.stored (Http.resetMonthlyEarnings sample_env sample_store).
Proof.
  apply (X13_rollover_again_changes_nothing sample_env sample_env_again sample_store);
    vm_compute; reflexivity.
Defined.

(** ** More on the Pub/Sub handler of [src/index.js] *)

(** Either the handler left the store alone, or the message was an
    approved order with everything the handler reads from it. *)
Lemma pubsub_cases (e : env) (m : PubSub.Message) (s : store) :
  PubSub.final (PubSub.paypalWebhookHandler e m s) = s
  \/ exists r unit a p cid tier uid sp,
       approved_payment m r unit a p cid tier uid sp.
Proof.
  unfold PubSub.paypalWebhookHandler.
  destruct m as [|n]; [by left|].
  destruct (PubSub.is_event (event_type n) "CHECKOUT.ORDER.APPROVED") eqn:Hev;
    [|destruct (PubSub.is_event (event_type n) "PAYMENT.CAPTURE.COMPLETED"); by left].
  destruct (resource n) as [r|] eqn:Hr; [|by left].
  unfold first_amount.
  destruct (first_unit r) as [unit|] eqn:Hunit; [|by left].
  destruct (amount unit) as [a|] eqn:Ha; [|by left].
  destruct (payer r) as [p|] eqn:Hp; [|by left].
  destruct (custom_id unit) as [cid|] eqn:Hcid; [|by left].
  destruct (description unit) as [tier|] eqn:Htier; [|by left].
  destruct (Str.truthy cid) eqn:Htc; [|by left].
  destruct (Str.truthy tier) eqn:Htt; [|by left]. cbn [andb].
  destruct (Str.split "_" cid !! 0%nat) as [uid|] eqn:H0; [|by left].
  destruct (Str.split "_" cid !! 1%nat) as [sp|] eqn:H1; [|by left].
  destruct (Str.truthy uid) eqn:Htu; [|by left].
  destruct (Str.truthy sp) eqn:Hts; [|by left].
  right. exists r, unit, a, p, cid, tier, uid, sp.
  unfold approved_payment. split; [by exists n|]. auto 12.
Qed.

Lemma accrue_outcome (e : env) (sp : string) (a : Amount) (s : store) :
  let c := Tx.runTransaction e (accrue_of e sp a) s in
  (Tx.ok c = false -> Tx.after c = s)
  /\ (forall q, is_Some (s !! q) -> is_Some (Tx.after c !! q)).
Proof.
  cbv zeta. unfold Tx.runTransaction, accrue_of, PubSub.accrue.
  unfold mbind, tx_bind, Tx.bind, Tx.get, Tx.queue, Tx.log.
  cbn [Tx.writes].
  destruct (store_ok e (salespersonRef sp)); [|by split].
  destruct (s !! salespersonRef sp) as [d|] eqn:Hd;
    accrue_valid; cbn [Tx.writes Tx.logged app];
    (destruct (commit_ok e); [|by split]);
    cbn [Firestore.commit]; unfold Firestore.apply_write; accrue_valid;
    rewrite ?Hd; cbn [Tx.after Tx.ok];
    (split; [done|]); intros q Hq;
    (destruct (decide (q = salespersonRef sp)) as [->|Hne];
       [rewrite lookup_insert_eq; by eexists|by rewrite lookup_insert_ne]).
Qed.

(** X14: what the Pub/Sub handler does to the store.  A parsed message of
    any event type but CHECKOUT.ORDER.APPROVED is acknowledged without a
    change.  The handler deletes nothing; a document it changes is the
    record of the user named in the custom id of an approved order, which
    existed before, or, for a priced tier, the record of the salesperson
    named there.  A delivery that ends in a rethrown error has changed no
    salesperson record, although it can have changed the user record. *)
Theorem X14_pubsub_handler_changes (e : env) (m : PubSub.Message) (s : store) :
  let out := PubSub.paypalWebhookHandler e m s in
  (forall n, m = PubSub.Parsed n ->
     PubSub.is_event (event_type n) "CHECKOUT.ORDER.APPROVED" = false ->
     PubSub.thrown out = false /\ PubSub.final out = s)
  /\ (forall q, is_Some (s !! q) -> is_Some (PubSub.final out !! q))
  /\ (forall q, PubSub.final out !! q <> s !! q ->
        exists r unit a p cid tier uid sp,
          approved_payment m r unit a p cid tier uid sp
          /\ is_Some (s !! userRef uid)
          /\ (q = userRef uid
              \/ (q = salespersonRef sp /\ PubSub.has_price tier = true)))
  /\ (PubSub.thrown out = true ->
      forall sp, PubSub.final out !! salespersonRef sp = s !! salespersonRef sp).
Proof.
  cbv zeta. split.
  { intros n -> Hev. unfold PubSub.paypalWebhookHandler. rewrite Hev.
    destruct (PubSub.is_event (event_type n) "PAYMENT.CAPTURE.COMPLETED"); by split. }
  destruct (pubsub_cases e m s)
    as [Hsame|(r & unit & a & p & cid & tier & uid & sp & Happ)].
  { rewrite Hsame. split; [done|]. split; [done|]. done. }
  pose proof (pubsub_approved e m r unit a p cid tier uid sp s Happ) as H.
  cbv zeta in H.
  destruct (subscribe e uid tier r a s) as [s1|] eqn:Hsub.
  2:{ destruct H as [_ ->]. split; [done|]. split; [done|]. done. }
  apply subscribe_inv in Hsub as (userData & Hu & ->).
  set (s1 := <[userRef uid := _]> s) in *.
  assert (forall q, is_Some (s !! q) -> is_Some (s1 !! q)) as Hkeep.
  { intros q Hq. unfold s1. destruct (decide (q = userRef uid)) as [->|Hne];
      [rewrite lookup_insert_eq; by eexists|by rewrite lookup_insert_ne]. }
  assert (forall q, s1 !! q <> s !! q -> q = userRef uid) as Huser.
  { intros q Hq. destruct (decide (q = userRef uid)) as [->|Hne]; [done|].
    exfalso. apply Hq. unfold s1. by rewrite lookup_insert_ne. }
  assert (forall i, s1 !! salespersonRef i = s !! salespersonRef i) as Hsps.
  { intros i. unfold s1. rewrite lookup_insert_ne; [done|].
    apply userRef_salespersonRef. }
  destruct (PubSub.has_price tier) eqn:Hprice.
  - destruct (accrue_outcome e sp a s1) as [Hfail Hafter].
    destruct (Tx.ok (Tx.runTransaction e (accrue_of e sp a) s1)) eqn:Hok;
      destruct H as [Hthrown ->].
    + split; [intros q Hq; by apply Hafter, Hkeep|]. split.
      * intros q Hq. exists r, unit, a, p, cid, tier, uid, sp.
        split; [done|]. split; [by eexists|].
        destruct (decide (q = salespersonRef sp)) as [->|Hne]; [by right|].
        left. apply Huser. by rewrite <- (accrue_frame e sp a s1 q Hne).
      * by rewrite Hthrown.
    + split; [done|]. split; [|done].
      intros q Hq. exists r, unit, a, p, cid, tier, uid, sp.
      split; [done|]. split; [by eexists|]. left. by apply Huser.
  - destruct H as [Hthrown ->]. split; [done|]. split.
    + intros q Hq. exists r, unit, a, p, cid, tier, uid, sp.
      split; [done|]. split; [by eexists|]. left. by apply Huser.
    + by rewrite Hthrown.
Qed.

(** The commission transaction on an existing salesperson record. *)
Lemma accrue_existing (e : env) (sp : string) (a : Amount) (s : store)
    (data : gmap string value) :
  store_ok e (salespersonRef sp) = true ->
  commit_ok e = true ->
  plain_clock e ->
  s !! salespersonRef sp = Some data ->
  let c := Tx.runTransaction e (accrue_of e sp a) s in
  let x := Num.mul (PubSub.paid (value_ a)) PubSub.commissionRate in
  let sub f := match data !! f with Some (VMap B) => B | _ => ∅ end in
  Tx.ok c = true
  /\ exists data',
       Tx.after c !! salespersonRef sp = Some data'
       /\ data' !! "totalCommission"
          = Some (Js.plus (Js.or_else (Js.field (VMap data) "totalCommission")
                             (VNum Num.zero)) x)
       /\ data' !! "monthlyCommission"
          = Some (VMap (<[year_month e :=
                            Js.plus (PubSub.bucket data "monthlyCommission" (year_month e)) x]>
                          (sub "monthlyCommission")))
       /\ data' !! "yearlyCommission"
          = Some (VMap (<[local_year e :=
                            Js.plus (PubSub.bucket data "yearlyCommission" (local_year e)) x]>
                          (sub "yearlyCommission")))
       /\ forall f, f ∉ ["totalCommission"; "monthlyCommission"; "yearlyCommission";
                         "lastSaleDate"] ->
                    data' !! f = data !! f.
Proof.
  intros Hread Hcommit (Hy & Hym & _ & _) Hd. cbv zeta.
  unfold Tx.runTransaction, accrue_of, PubSub.accrue.
  unfold mbind, tx_bind, Tx.bind, Tx.get, Tx.queue, Tx.log.
  cbn [Tx.writes]. rewrite Hread, Hd. accrue_valid.
  cbn [Tx.writes Tx.logged app]. rewrite Hcommit.
  cbn [Firestore.commit]. unfold Firestore.apply_write. accrue_valid.
  rewrite Hd. cbn [Tx.ok Tx.after].
  split; [reflexivity|]. eexists. split; [apply lookup_insert_eq|].
  fold (year_month e). rewrite Hy, Hym.
  unfold Firestore.apply_update.
  cbn [fold_left fst snd Firestore.update_at Firestore.resolve].
  split; [by lookup_fields|]. split; [by lookup_fields|]. split; [by lookup_fields|].
  intros f Hf.
  repeat (rewrite lookup_insert_ne; [|intros <-; apply Hf; set_solver]).
  reflexivity.
Qed.

Lemma bucket_number (data B : gmap string value) (f k : string) (x : number) :
  data !! f = Some (VMap B) ->
  B !! k = Some (VNum x) ->
  PubSub.bucket data f k = VNum (settled x).
Proof.
  intros Hf Hk. unfold PubSub.bucket, Js.field. rewrite Hf. cbn.
  unfold Js.index. rewrite Hk. unfold Js.or_else, settled. cbn.
  by destruct (Num.truthy x).
Qed.

Lemma bucket_empty (data B : gmap string value) (f k : string) :
  data !! f = Some (VMap B) ->
  B !! k = None ->
  Js.inherited k = false ->
  PubSub.bucket data f k = VNum Num.zero.
Proof.
  intros Hf Hk Hi. unfold PubSub.bucket, Js.field. rewrite Hf. cbn.
  unfold Js.index. by rewrite Hk, Hi.
Qed.

(** What an approved order of a priced tier leaves behind when the store
    answers and both records exist. *)
Lemma pubsub_accrued (e : env) (m : PubSub.Message) (r : Resource)
    (unit : PurchaseUnit) (a : Amount) (p : Payer) (cid tier uid sp amountText : string)
    (s : store) (userData : gmap string value) :
  reliable e ->
  approved_payment m r unit a p cid tier uid sp ->
  priced r a amountText ->
  PubSub.has_price tier = true ->
  s !! userRef uid = Some userData ->
  let s1 := <[userRef uid :=
                Firestore.apply_update e
                  (PubSub.subscription e (resource_id r) (value_ a) (currency_code a) tier)
                  userData]> s in
  let out := PubSub.paypalWebhookHandler e m s in
  Tx.ok (Tx.runTransaction e (accrue_of e sp a) s1) = true ->
  PubSub.thrown out = false
  /\ PubSub.final out = Tx.after (Tx.runTransaction e (accrue_of e sp a) s1).
Proof.
  intros [Hreads Hcommit] Happ Hpr Hprice Hu. cbv zeta. intros Hok.
  pose proof (pubsub_approved e m r unit a p cid tier uid sp s Happ) as H.
  cbv zeta in H.
  rewrite (subscribe_present e uid tier amountText r a s userData (Hreads _) Hpr Hu)
    in H.
  by rewrite Hprice, Hok in H.
Qed.

(** X15: an approved order of a priced tier, for a stored user and a
    stored salesperson, adds the commission [x = parseFloat(amount) * 0.10]
    to the salesperson's total and to the buckets of the current month and
    year.  A bucket that does not exist yet starts at [0 + x], a total or
    bucket that is 0 or NaN counts as 0, the buckets of other months and
    years and the other fields of the record are kept. *)
Theorem X15_pubsub_commission_buckets (e : env) (m : PubSub.Message) (r : Resource)
    (unit : PurchaseUnit) (a : Amount) (p : Payer) (cid tier uid sp amountText : string)
    (s : store) (userData data M Y : gmap string value) (T : number) :
  reliable e ->
  plain_clock e ->
  approved_payment m r unit a p cid tier uid sp ->
  priced r a amountText ->
  PubSub.has_price tier = true ->
  s !! userRef uid = Some userData ->
  s !! salespersonRef sp = Some data ->
  data !! "totalCommission" = Some (VNum T) ->
  data !! "monthlyCommission" = Some (VMap M) ->
  data !! "yearlyCommission" = Some (VMap Y) ->
  let out := PubSub.paypalWebhookHandler e m s in
  let x := commission_of amountText in
  let after := PubSub.final out in
  let monthly := stored_bucket after (salespersonRef sp) "monthlyCommission" in
  let yearly := stored_bucket after (salespersonRef sp) "yearlyCommission" in
  PubSub.thrown out = false
  /\ stored_field after (salespersonRef sp) "totalCommission"
     = Some (VNum (Num.add (settled T) x))
  /\ (forall b, M !! year_month e = Some (VNum b) ->
        monthly (year_month e) = Some (VNum (Num.add (settled b) x)))
  /\ (M !! year_month e = None ->
        monthly (year_month e) = Some (VNum (Num.add Num.zero x)))
  /\ (forall k, k <> year_month e -> monthly k = M !! k)
  /\ (forall b, Y !! local_year e = Some (VNum b) ->
        yearly (local_year e) = Some (VNum (Num.add (settled b) x)))
  /\ (Y !! local_year e = None ->
        yearly (local_year e) = Some (VNum (Num.add Num.zero x)))
  /\ (forall k, k <> local_year e -> yearly k = Y !! k)
  /\ (forall f, f ∉ ["totalCommission"; "monthlyCommission"; "yearlyCommission";
                     "lastSaleDate"] ->
        stored_field after (salespersonRef sp) f = data !! f).
Proof.
  intros Hrel Hclock Happ Hpr Hprice Hu Hd HT HM HY. cbv zeta.
  pose proof Hpr as (_ & Hval & _). pose proof Hrel as [Hreads Hcommit].
  destruct (accrue_existing e sp a
              (<[userRef uid :=
                   Firestore.apply_update e
                     (PubSub.subscription e (resource_id r) (value_ a)
                        (currency_code a) tier) userData]> s) data
              (Hreads _) Hcommit Hclock)
    as (Hok & data' & Hafter & Htotal & Hmonthly & Hyearly & Hother).
  { rewrite lookup_insert_ne by apply userRef_salespersonRef. exact Hd. }
  destruct (pubsub_accrued e m r unit a p cid tier uid sp amountText s userData
              Hrel Happ Hpr Hprice Hu Hok) as [Hthrown ->].
  split; [exact Hthrown|].
  unfold stored_bucket, stored_field. rewrite Hafter, Hmonthly, Hyearly, Htotal.
  rewrite HM, HY. unfold commission_of. rewrite Hval. cbn [PubSub.paid].
  destruct Hclock as (_ & _ & Hiy & Him).
  split.
  { unfold Js.field. rewrite HT. cbn [default]. unfold Js.or_else, settled. cbn.
    by destruct (Num.truthy T). }
  split.
  { intros b Hb. rewrite lookup_insert_eq.
    by rewrite (bucket_number data M "monthlyCommission" _ b HM Hb). }
  split.
  { intros Hb. rewrite lookup_insert_eq.
    by rewrite (bucket_empty data M "monthlyCommission" _ HM Hb Him). }
  split; [intros k Hk; by rewrite lookup_insert_ne|].
  split.
  { intros b Hb. rewrite lookup_insert_eq.
    by rewrite (bucket_number data Y "yearlyCommission" _ b HY Hb). }
  split.
  { intros Hb. rewrite lookup_insert_eq.
    by rewrite (bucket_empty data Y "yearlyCommission" _ HY Hb Hiy). }
  split; [intros k Hk; by rewrite lookup_insert_ne|].
  exact Hother.
Qed.

Lemma sample_message_approved :
  approved_payment sample_message (sample_resource (Some "100.00")) sample_unit
    sample_amount sample_payer "u1_sp1" "sadc" "u1" "sp1".
Proof.
  split; [eexists; split; [reflexivity|split; reflexivity]|].
  repeat split; vm_compute; reflexivity.
Qed.

Lemma X15_pubsub_commission_buckets_witness :
  let after := PubSub.final (PubSub.paypalWebhookHandler sample_env sample_message
                               sample_store_buckets) in
  stored_field after (salespersonRef "sp1") "totalCommission"
  = Some (VNum (Num.of_Z 60))
  /\ stored_bucket after (salespersonRef "sp1") "monthlyCommission" "2024-06"
     = Some (VNum (Num.of_Z 10))
  /\ stored_bucket after (salespersonRef "sp1") "monthlyCommission" "2024-05"
     = Some (VNum (Num.of_Z 50))
  /\ stored_bucket after (salespersonRef "sp1") "yearlyCommission" "2024"
     = Some (VNum (Num.of_Z 60)).
Proof.
  cbv zeta.
  destruct (X15_pubsub_commission_buckets sample_env sample_message
              (sample_resource (Some "100.00")) sample_unit sample_amount sample_payer
              "u1_sp1" "sadc" "u1" "sp1" "100.00" sample_store_buckets sample_user
              sample_salesperson_buckets
              {[ "2024-05" := VNum (Num.of_Z 50) ]} {[ "2024" := VNum (Num.of_Z 50) ]}
              (Num.of_Z 50))
    as (_ & Htotal & _ & Hnew & Hold & Hyear & _).
  - split; [intros q|]; reflexivity.
  - repeat split; vm_compute; reflexivity.
  - exact sample_message_approved.
  - split; [by eexists|]. split; [reflexivity|by eexists].
  - vm_compute; reflexivity.
  - vm_compute; reflexivity.
  - vm_compute; reflexivity.
  - vm_compute; reflexivity.
  - vm_compute; reflexivity.
  - vm_compute; reflexivity.
  - split; [rewrite Htotal; vm_compute; reflexivity|].
    split; [refine (eq_trans (Hnew _) _); vm_compute; reflexivity|].
    split; [rewrite Hold; [vm_compute; reflexivity|discriminate]|].
    refine (eq_trans (Hyear (Num.of_Z 50) _) _); vm_compute; reflexivity.
Defined.

(** The commission transaction when the salesperson has no record. *)
Lemma accrue_new (e : env) (sp : string) (a : Amount) (s : store) :
  store_ok e (salespersonRef sp) = true ->
  commit_ok e = true ->
  s !! salespersonRef sp = None ->
  let c := Tx.runTransaction e (accrue_of e sp a) s in
  let x := Num.mul (PubSub.paid (value_ a)) PubSub.commissionRate in
  Tx.ok c = true
  /\ exists data',
       Tx.after c = <[salespersonRef sp := data']> s
       /\ data' !! "name" = Some (VStr sp)
       /\ data' !! "totalCommission" = Some (VNum x)
       /\ data' !! "monthlyCommission" = Some (VMap {[ year_month e := VNum x ]})
       /\ data' !! "yearlyCommission" = Some (VMap {[ local_year e := VNum x ]})
       /\ data' !! "lastSaleDate" = Some (VTime (server_time e)).
Proof.
  intros Hread Hcommit Hd. cbv zeta.
  unfold Tx.runTransaction, accrue_of, PubSub.accrue.
  unfold mbind, tx_bind, Tx.bind, Tx.get, Tx.queue, Tx.log.
  cbn [Tx.writes]. rewrite Hread, Hd. accrue_valid.
  cbn [Tx.writes Tx.logged app]. rewrite Hcommit.
  cbn [Firestore.commit]. unfold Firestore.apply_write. accrue_valid.
  cbn [Tx.ok Tx.after].
  split; [reflexivity|]. eexists. split; [reflexivity|].
  fold (year_month e). unfold Firestore.apply_fields.
  cbn [fold_left fst snd Firestore.resolve].
  repeat split; by lookup_fields.
Qed.

(** X16: the first approved order for a salesperson without a record
    creates the record, named after the identifier in the custom id, with
    the commission [x] of this order as total and as the only entry of the
    monthly and of the yearly buckets; it is the one new document. *)
Theorem X16_pubsub_first_sale (e : env) (m : PubSub.Message) (r : Resource)
    (unit : PurchaseUnit) (a : Amount) (p : Payer) (cid tier uid sp amountText : string)
    (s : store) (userData : gmap string value) :
  reliable e ->
  approved_payment m r unit a p cid tier uid sp ->
  priced r a amountText ->
  PubSub.has_price tier = true ->
  s !! userRef uid = Some userData ->
  s !! salespersonRef sp = None ->
  let out := PubSub.paypalWebhookHandler e m s in
  let x := commission_of amountText in
  let created := stored_field (PubSub.final out) (salespersonRef sp) in
  PubSub.thrown out = false
  /\ created "name" = Some (VStr sp)
  /\ created "totalCommission" = Some (VNum x)
  /\ created "monthlyCommission" = Some (VMap {[ year_month e := VNum x ]})
  /\ created "yearlyCommission" = Some (VMap {[ local_year e := VNum x ]})
  /\ dom (PubSub.final out) = {[ salespersonRef sp ]} ∪ dom s.
Proof.
  intros Hrel Happ Hpr Hprice Hu Hd. cbv zeta.
  pose proof Hpr as (_ & Hval & _). pose proof Hrel as [Hreads Hcommit].
  destruct (accrue_new e sp a
              (<[userRef uid :=
                   Firestore.apply_update e
                     (PubSub.subscription e (resource_id r) (value_ a)
                        (currency_code a) tier) userData]> s)
              (Hreads _) Hcommit)
    as (Hok & data' & Hafter & Hname & Htotal & Hmonthly & Hyearly & _).
  { rewrite lookup_insert_ne by apply userRef_salespersonRef. exact Hd. }
  destruct (pubsub_accrued e m r unit a p cid tier uid sp amountText s userData
              Hrel Happ Hpr Hprice Hu Hok) as [Hthrown ->].
  split; [exact Hthrown|]. rewrite Hafter.
  unfold stored_field, commission_of. rewrite lookup_insert_eq.
  rewrite Hval in Htotal, Hmonthly, Hyearly. cbn [PubSub.paid] in *.
  split; [exact Hname|]. split; [exact Htotal|]. split; [exact Hmonthly|].
  split; [exact Hyearly|].
  rewrite dom_insert_L. f_equal. apply dom_insert_lookup_L. eauto.
Qed.

Lemma X16_pubsub_first_sale_witness :
  let s : store := {[ userRef "u1" := sample_user ]} in
  let after := PubSub.final (PubSub.paypalWebhookHandler sample_env sample_message s) in
  stored_field after (salespersonRef "sp1") "totalCommission"
  = Some (VNum (Num.of_Z 10))
  /\ stored_field after (salespersonRef "sp1") "monthlyCommission"
     = Some (VMap {[ "2024-06" := VNum (Num.of_Z 10) ]}).
Proof.
  cbv zeta.
  destruct (X16_pubsub_first_sale sample_env sample_message
              (sample_resource (Some "100.00")) sample_unit sample_amount sample_payer
              "u1_sp1" "sadc" "u1" "sp1" "100.00" {[ userRef "u1" := sample_user ]}
              sample_user)
    as (_ & _ & Htotal & Hmonthly & _).
  - split; [intros q|]; reflexivity.
  - exact sample_message_approved.
  - split; [by eexists|]. split; [reflexivity|by eexists].
  - vm_compute; reflexivity.
  - vm_compute; reflexivity.
  - vm_compute; reflexivity.
  - split.
    + refine (eq_trans Htotal _). vm_compute; reflexivity.
    + refine (eq_trans Hmonthly _). vm_compute; reflexivity.
Defined.

Lemma subscription_fields e o v c tier (d : gmap string value) :
  let d' := Firestore.apply_update e (PubSub.subscription e o v c tier) d in
  d' !! "paymentStatus" = Some (VStr "paid")
  /\ d' !! "selectedTier" = Some (VStr tier)
  /\ d' !! "lastPaymentAmount" = Some (Js.of_string v)
  /\ d' !! "lastPaymentCurrency" = Some (Js.of_string c)
  /\ d' !! "paypalOrderId" = Some (Js.of_string o).
Proof.
  cbv zeta. unfold Firestore.apply_update, PubSub.subscription.
  cbn [fold_left fst snd Firestore.update_at Firestore.resolve].
  lookup_fields. auto.
Qed.

(** X17: when the description of an approved order is not the identifier
    of a priced tier, the user still becomes a paid member for 14 days,
    with that description stored as the selected tier, and no commission
    is recorded anywhere: every other document stays as it was and the
    message is acknowledged. *)
Theorem X17_pubsub_unpriced_tier (e : env) (m : PubSub.Message) (r : Resource)
    (unit : PurchaseUnit) (a : Amount) (p : Payer) (cid tier uid sp amountText : string)
    (s : store) (userData : gmap string value) :
  store_ok e (userRef uid) = true ->
  approved_payment m r unit a p cid tier uid sp ->
  priced r a amountText ->
  PubSub.has_price tier = false ->
  s !! userRef uid = Some userData ->
  let out := PubSub.paypalWebhookHandler e m s in
  let member := stored_field (PubSub.final out) (userRef uid) in
  PubSub.thrown out = false
  /\ member "paymentStatus" = Some (VStr "paid")
  /\ member "membershipExpiry" = Some (VTime (date_now e + 1209600000))
  /\ member "selectedTier" = Some (VStr tier)
  /\ member "lastPaymentAmount" = Some (VStr amountText)
  /\ forall q, q <> userRef uid -> PubSub.final out !! q = s !! q.
Proof.
  intros Hread Happ Hpr Hprice Hu. cbv zeta. pose proof Hpr as (_ & Hval & _).
  pose proof (pubsub_approved e m r unit a p cid tier uid sp s Happ) as H.
  cbv zeta in H.
  rewrite (subscribe_present e uid tier amountText r a s userData Hread Hpr Hu),
    Hprice in H.
  destruct H as [-> ->]. split; [reflexivity|].
  unfold stored_field. rewrite lookup_insert_eq.
  split; [apply subscription_fields|]. split; [apply subscription_expiry|].
  split; [apply subscription_fields|].
  split; [rewrite Hval; apply subscription_fields|].
  intros q Hq. by rewrite lookup_insert_ne.
Qed.

Lemma X17_pubsub_unpriced_tier_witness :
  let m := PubSub.Parsed
             (mkNotification (Some "CHECKOUT.ORDER.APPROVED") None
                (Some (mkResource (Some "ORDER-3")
                         (Some [mkPurchaseUnit (Some "u1") (Some "u1_sp1")
                                  (Some sample_amount)
                                  (Some "SADC Citizens Membership")])
                         (Some sample_payer) (Some "APPROVED")))) in
  let out := PubSub.paypalWebhookHandler sample_env m sample_store in
  stored_field (PubSub.final out) (userRef "u1") "paymentStatus" = Some (VStr "paid")
  /\ PubSub.final out !! salespersonRef "sp1" = sample_store !! salespersonRef "sp1".
Proof.
  cbv zeta.
  destruct (X17_pubsub_unpriced_tier sample_env
              (PubSub.Parsed
                 (mkNotification (Some "CHECKOUT.ORDER.APPROVED") None
                    (Some (mkResource (Some "ORDER-3")
                             (Some [mkPurchaseUnit (Some "u1") (Some "u1_sp1")
                                      (Some sample_amount)
                                      (Some "SADC Citizens Membership")])
                             (Some sample_payer) (Some "APPROVED")))))
              (mkResource (Some "ORDER-3")
                 (Some [mkPurchaseUnit (Some "u1") (Some "u1_sp1")
                          (Some sample_amount) (Some "SADC Citizens Membership")])
                 (Some sample_payer) (Some "APPROVED"))
              (mkPurchaseUnit (Some "u1") (Some "u1_sp1") (Some sample_amount)
                 (Some "SADC Citizens Membership"))
              sample_amount sample_payer "u1_sp1" "SADC Citizens Membership"
              "u1" "sp1" "100.00" sample_store sample_user)
    as (_ & Hpaid & _ & _ & _ & Hframe).
  - reflexivity.
  - split; [eexists; split; [reflexivity|split; reflexivity]|].
    repeat split; vm_compute; reflexivity.
  - split; [by eexists|]. split; [reflexivity|by eexists].
  - vm_compute; reflexivity.
  - vm_compute; reflexivity.
  - split; [exact Hpaid|]. apply Hframe. discriminate.
Defined.

(** ** The simplified order intake of [src/index.js] *)

(** X18: the simplified intake answers from the request alone.  The
    lookup of the user record only feeds the log: whether the store
    answers, and what it holds, does not change the reply.  The reply is
    the simulated redirect exactly when the caller is authenticated, user
    id and tier id are given and the tier id names a property of the price
    table; otherwise it is [unauthenticated] (no caller) or
    [invalid-argument], never [internal]. *)
Theorem X18_simulated_intake (e e' : env) (data : PubSub.OrderData)
    (context : PubSub.Context) (s s' : store) :
  let reply := returned (PubSub.createPayPalOrder e data context s) in
  reply = returned (PubSub.createPayPalOrder e' data context s')
  /\ (reply = Redirect "https://example.com/simulated-paypal-redirect"
                "SIMULATED_ORDER_ID"
      <-> is_Some (PubSub.auth context)
          /\ Js.truthy_string (PubSub.userId data) = true
          /\ Js.truthy_string (PubSub.selectedTierId data) = true
          /\ Js.defined (Js.lookup PubSub.paymentTiers
                           (Js.show (PubSub.selectedTierId data))) = true)
  /\ (forall text, reply = HttpsError unauthenticated text
                   -> PubSub.auth context = None)
  /\ (forall text, reply <> HttpsError internal text).
Proof.
  cbv zeta. unfold PubSub.createPayPalOrder.
  destruct (PubSub.auth context) as [caller|]; cbn [returned].
  2:{ split; [done|]. split; [|by split]. split; [done|]. by intros [[? [=]] _]. }
  destruct (Js.truthy_string (PubSub.userId data)); cbn [negb orb returned].
  2:{ split; [done|]. split; [|by split]. split; [done|]. by intros (_ & [=] & _). }
  destruct (Js.truthy_string (PubSub.selectedTierId data)); cbn [negb returned].
  2:{ split; [done|]. split; [|by split]. split; [done|]. by intros (_ & _ & [=] & _). }
  destruct (Js.defined (Js.lookup PubSub.paymentTiers
                          (Js.show (PubSub.selectedTierId data)))); cbn [negb returned].
  2:{ split; [done|]. split; [|by split]. split; [done|]. by intros (_ & _ & _ & [=]). }
  split; [done|]. split; [|by split]. split; [|done]. intros _. by split; [eexists|].
Qed.

(** ** [getSalespersonData] of [src/index.ts] *)

Section ListingProperties.

Variable first : string * gmap string value -> list (string * gmap string value)
                 -> string * gmap string value.




Lemma no_payout (s : store) (sp : string) :
  no_payout_documents s -> Listing.currentMonthPayout first sp s = VNull.
Proof.
  intros Hno. unfold Listing.currentMonthPayout.
  assert (Firestore.collection (Listing.monthlyPayoutsRef sp) s = []) as ->; [|done].
  apply elem_of_nil_inv. intros [i d] Hin. apply elem_of_collection in Hin.
  by rewrite Hno in Hin.
Qed.

End ListingProperties.

(** A document the webhook handler changed is one a payment writes. *)
Lemma http_unwritten (e : env) (req : Http.Request) (s : store) (q : path) :
  (forall uid, ~ written_by_payment e uid s q) ->
  Http.final (Http.paypalWebhookHandler e req s) !! q = s !! q.
Proof.
  intros Hq.
  destruct (http_cases e req s) as [->|(H200 & r & uid & Hp)]; [done|].
  destruct (http_success_inv e req r uid s Hp H200) as (st & Hbody & Hcommit).
  apply (commit_frame e (Tx.writes st) s _ q Hcommit).
  pose proof (reconcile_targets e uid r s st Hbody) as Htargets.
  apply Forall_forall. intros w Hin Heq.
  apply (Hq uid). rewrite <- Heq. by apply (proj1 (Forall_forall _ _) Htargets w).
Qed.

(** X20: no function of [src/index.ts] writes what [getSalespersonData]
    reads as the monthly payout.  The webhook handler writes sale records
    two levels below the [monthlyPayouts] collection and the monthly job
    writes to [historicalPayouts]; so a store without documents in
    [monthlyPayouts] has none after any webhook call and any monthly run,
    and on such a store every listed salesperson has [currentMonthPayout]
    null. *)
Theorem X20_monthly_payout_is_never_written (e : env) (s : store) :
  no_payout_documents s ->
  (forall req, no_payout_documents (Http.final (Http.paypalWebhookHandler e req s)))
  /\ no_payout_documents (Http.stored (Http.resetMonthlyEarnings e s))
  /\ forall first e' request l x,
       Listing.getSalespersonData first e' request s = Listing.Listed l ->
       x ∈ l -> x !! "currentMonthPayout" = Some VNull.
Proof.
  intros Hno. split; [|split].
  - intros req sp month. rewrite http_unwritten; [apply Hno|].
    intros uid (userData & _ & [Hq|(fullName & _ & [Hq|Hq])]); discriminate Hq.
  - intros sp month. unfold Http.resetMonthlyEarnings.
    destruct (store_ok e ["salespersons"]); [|apply Hno].
    destruct (commit_ok e); [|apply Hno].
    destruct (rollover_commits e s) as (s' & Hc). rewrite Hc. cbn [Http.stored].
    destruct (rollover_cases e (iso_month e) s s'
                (Listing.monthlyPayoutsRef sp ++ [month]) Hc)
      as [->|(i & d & _ & [[Hq _]|[Hq _]])]; [apply Hno|discriminate Hq..].
  - intros first e' request l x. unfold Listing.getSalespersonData.
    destruct (Http.auth request); [|done].
    destruct (store_ok e' ["salespersons"]); [|done].
    destruct (forallb _ _); [|done]. intros [= <-] Hx.
    apply list_elem_of_fmap in Hx as ([sp d] & -> & _).
    unfold Listing.entry. cbn [fst snd]. rewrite lookup_insert_eq.
    by rewrite no_payout.
Qed.

Lemma X20_monthly_payout_is_never_written_witness :
  no_payout_documents
    (Http.final (Http.paypalWebhookHandler sample_env (sample_request (Some "100.00"))
                   sample_store))
  /\ no_payout_documents (Http.stored (Http.resetMonthlyEarnings sample_env sample_store)).
Proof.
  destruct (X20_monthly_payout_is_never_written sample_env sample_store)
    as (Hweb & Hjob & _).
  - intros sp month. unfold sample_store.
    rewrite !lookup_insert_ne by discriminate. by apply lookup_singleton_ne.
  - split; [apply Hweb|exact Hjob].
Defined.

(** ** The sales reports of [src/index.js] *)

Lemma elem_of_sales_where (f k sp : string) (s : store) (d : gmap string value) :
  d ∈ PubSub.sales_where f k sp s
  <-> exists i, s !! (PubSub.salesRef sp ++ [i]) = Some d /\ d !! f = Some (VStr k).
Proof.
  unfold PubSub.sales_where. rewrite list_elem_of_fmap. split.
  - intros ([i d'] & -> & Hin). apply list_elem_of_In, filter_In in Hin as [Hin Hf].
    apply list_elem_of_In, elem_of_collection in Hin. cbn [snd] in *.
    exists i. split; [done|].
    destruct (d' !! f) as [[| | | |x| | | |]|]; try discriminate Hf.
    by apply Str_eqb_eq in Hf as ->.
  - intros (i & Hd & Hf). exists (i, d). split; [done|].
    apply list_elem_of_In, filter_In. split.
    + by apply list_elem_of_In, elem_of_collection.
    + cbn [snd]. rewrite Hf. apply Str_eqb_refl.
Qed.

(** What a report answers for a stored salesperson when the store answers. *)
Lemma report_answer (totals saleField required failure : string) (e : env)
    (data : PubSub.ReportData) (context : PubSub.Context) (s : store)
    (sp k : string) (salespersonData : gmap string value) :
  is_Some (PubSub.auth context) ->
  PubSub.salespersonId data = Some sp ->
  PubSub.period data = Some k ->
  Str.truthy sp = true ->
  Str.truthy k = true ->
  store_ok e (salespersonRef sp) = true ->
  store_ok e (PubSub.salesRef sp) = true ->
  s !! salespersonRef sp = Some salespersonData ->
  PubSub.salesReport totals saleField required failure e data context s
  = PubSub.Reported
      (PubSub.mkReport
         (Js.or_else (Js.index_value (Js.field (VMap salespersonData) totals) k)
            (VNum Num.zero))
         (PubSub.sales_where saleField k sp s) None).
Proof.
  intros [caller Hauth] Hsp Hk Htsp Htk Hr1 Hr2 Hd. unfold PubSub.salesReport.
  by rewrite Hauth, Hsp, Hk, Htsp, Htk, Hr1, Hd, Hr2.
Qed.

Lemma total_of_bucket (salespersonData B : gmap string value) (totals k : string)
    (x : number) :
  salespersonData !! totals = Some (VMap B) ->
  B !! k = Some (VNum x) ->
  Js.or_else (Js.index_value (Js.field (VMap salespersonData) totals) k) (VNum Num.zero)
  = VNum (settled x).
Proof.
  intros HB Hk. unfold Js.field. rewrite HB. cbn. unfold Js.index. rewrite Hk.
  unfold Js.or_else, settled. cbn. by destruct (Num.truthy x).
Qed.

(** X21: for a stored salesperson the monthly report gives the bucket of
    the month asked for as total (0 when that bucket is 0 or NaN) and
    lists exactly the documents of the salesperson's [sales] collection
    whose [saleMonth] is that month; the yearly report does the same with
    the bucket of the year and [saleYear].  No message is attached. *)
Theorem X21_report_of_a_stored_salesperson (e : env) (context : PubSub.Context)
    (s : store) (sp month year : string) (salespersonData M Y : gmap string value)
    (bm byear : number) :
  reliable e ->
  is_Some (PubSub.auth context) ->
  Str.truthy sp = true ->
  Str.truthy month = true ->
  Str.truthy year = true ->
  s !! salespersonRef sp = Some salespersonData ->
  salespersonData !! "monthlyCommission" = Some (VMap M) ->
  salespersonData !! "yearlyCommission" = Some (VMap Y) ->
  M !! month = Some (VNum bm) ->
  Y !! year = Some (VNum byear) ->
  (exists sales,
     PubSub.getMonthlySalesReport e (PubSub.mkReportData (Some sp) (Some month))
       context s
     = PubSub.Reported (PubSub.mkReport (VNum (settled bm)) sales None)
     /\ forall d, d ∈ sales <->
          exists i, s !! (PubSub.salesRef sp ++ [i]) = Some d
                    /\ d !! "saleMonth" = Some (VStr month))
  /\ (exists sales,
        PubSub.getYearlySalesReport e (PubSub.mkReportData (Some sp) (Some year))
          context s
        = PubSub.Reported (PubSub.mkReport (VNum (settled byear)) sales None)
        /\ forall d, d ∈ sales <->
             exists i, s !! (PubSub.salesRef sp ++ [i]) = Some d
                       /\ d !! "saleYear" = Some (VStr year)).
Proof.
  intros [Hreads _] Hauth Htsp Htm Hty Hd HM HY Hbm Hby.
  unfold PubSub.getMonthlySalesReport, PubSub.getYearlySalesReport.
  split; eexists;
    (split; [erewrite report_answer by (try reflexivity; eauto)|
             intros d; apply elem_of_sales_where]).
  - by rewrite (total_of_bucket salespersonData M "monthlyCommission" month bm HM Hbm).
  - by rewrite (total_of_bucket salespersonData Y "yearlyCommission" year byear HY Hby).
Qed.

Lemma X21_report_of_a_stored_salesperson_witness :
  exists sales,
    PubSub.getMonthlySalesReport sample_env
      (PubSub.mkReportData (Some "sp1") (Some "2024-05"))
      (PubSub.mkContext (Some "admin")) sample_store_buckets
    = PubSub.Reported (PubSub.mkReport (VNum (Num.of_Z 50)) sales None)
    /\ forall d, d ∉ sales.
Proof.
  destruct (X21_report_of_a_stored_salesperson sample_env
              (PubSub.mkContext (Some "admin")) sample_store_buckets
              "sp1" "2024-05" "2024" sample_salesperson_buckets
              {[ "2024-05" := VNum (Num.of_Z 50) ]} {[ "2024" := VNum (Num.of_Z 50) ]}
              (Num.of_Z 50) (Num.of_Z 50))
    as [(sales & Hreport & Hsales) _].
  - split; [intros q|]; reflexivity.
  - by eexists.
  - reflexivity.
  - reflexivity.
  - reflexivity.
  - vm_compute; reflexivity.
  - vm_compute; reflexivity.
  - vm_compute; reflexivity.
  - vm_compute; reflexivity.
  - vm_compute; reflexivity.
  - exists sales. split; [exact Hreport|].
    intros d Hd. apply Hsales in Hd as (i & Hd & _). revert Hd. unfold sample_store_buckets.
    rewrite lookup_insert_ne by discriminate. by rewrite lookup_singleton_ne.
Defined.

Lemma year_month_truthy (e : env) : Str.truthy (year_month e) = true.
Proof. unfold year_month. by destruct (local_year e). Qed.

(** X22: a payment and the report after it.  Once the Pub/Sub handler has
    processed an approved order of a priced tier for a stored salesperson,
    the monthly report for the current month shows the bucket of the
    month raised by the commission [x] as its total.  Its list of sales is
    what it was before the payment: the handler stores no sale document,
    so a payment never appears among the sales of a report. *)
Theorem X22_payment_then_monthly_report (e e' : env) (m : PubSub.Message)
    (r : Resource) (unit : PurchaseUnit) (a : Amount) (p : Payer)
    (cid tier uid sp amountText : string) (s : store)
    (userData data M : gmap string value) (b : number) (context : PubSub.Context) :
  reliable e ->
  reliable e' ->
  plain_clock e ->
  approved_payment m r unit a p cid tier uid sp ->
  priced r a amountText ->
  PubSub.has_price tier = true ->
  s !! userRef uid = Some userData ->
  s !! salespersonRef sp = Some data ->
  data !! "monthlyCommission" = Some (VMap M) ->
  M !! year_month e = Some (VNum b) ->
  is_Some (PubSub.auth context) ->
  let after := PubSub.final (PubSub.paypalWebhookHandler e m s) in
  let ask := PubSub.mkReportData (Some sp) (Some (year_month e)) in
  exists sales,
    PubSub.getMonthlySalesReport e' ask context after
    = PubSub.Reported
        (PubSub.mkReport
           (VNum (settled (Num.add (settled b) (commission_of amountText))))
           sales None)
    /\ forall d, d ∈ sales <-> d ∈ PubSub.sales_where "saleMonth" (year_month e) sp s.
Proof.
  intros Hrel Hrel' Hclock Happ Hpr Hprice Hu Hd HM Hb Hauth. cbv zeta.
  pose proof Hpr as (_ & Hval & _).
  pose proof Hrel as [Hreads Hcommit]. pose proof Hrel' as [Hreads' _].
  destruct (accrue_existing e sp a
              (<[userRef uid :=
                   Firestore.apply_update e
                     (PubSub.subscription e (resource_id r) (value_ a)
                        (currency_code a) tier) userData]> s) data
              (Hreads _) Hcommit Hclock)
    as (Hok & data' & Hafter & _ & Hmonthly & _).
  { rewrite lookup_insert_ne by apply userRef_salespersonRef. exact Hd. }
  cbv beta zeta in Hmonthly. rewrite HM in Hmonthly.
  destruct (pubsub_accrued e m r unit a p cid tier uid sp amountText s userData
              Hrel Happ Hpr Hprice Hu Hok) as [_ Hfinal].
  assert (Str.truthy sp = true) as Htsp by apply Happ.
  eexists. split.
  - unfold PubSub.getMonthlySalesReport.
    erewrite report_answer;
      [|exact Hauth|reflexivity|reflexivity|exact Htsp|apply year_month_truthy
       |apply Hreads'|apply Hreads'|rewrite Hfinal; exact Hafter].
    rewrite (total_of_bucket data' _ "monthlyCommission" (year_month e)
               (Num.add (settled b) (commission_of amountText)) Hmonthly);
      [reflexivity|].
    rewrite lookup_insert_eq.
    rewrite (bucket_number data M "monthlyCommission" _ b HM Hb).
    unfold commission_of. by rewrite Hval.
  - intros d. rewrite !elem_of_sales_where. rewrite Hfinal.
    assert (forall i, Tx.after (Tx.runTransaction e (accrue_of e sp a)
                                  (<[userRef uid :=
                                       Firestore.apply_update e
                                         (PubSub.subscription e (resource_id r)
                                            (value_ a) (currency_code a) tier)
                                         userData]> s))
                      !! (PubSub.salesRef sp ++ [i])
                      = s !! (PubSub.salesRef sp ++ [i])) as Hsame.
    { intros i. rewrite accrue_frame by discriminate.
      by rewrite lookup_insert_ne by discriminate. }
    split; intros (i & Hi & Hf); exists i; (split; [|exact Hf]).
    + by rewrite <- Hsame.
    + by rewrite Hsame.
Qed.

Lemma X22_payment_then_monthly_report_witness :
  let s : store :=
    {[ userRef "u1" := sample_user;
       salespersonRef "sp1" :=
         {[ "monthlyCommission" := VMap {[ "2024-06" := VNum (Num.of_Z 50) ]} ]} ]} in
  let after := PubSub.final (PubSub.paypalWebhookHandler sample_env sample_message s) in
  exists sales,
    PubSub.getMonthlySalesReport sample_env_again
      (PubSub.mkReportData (Some "sp1") (Some "2024-06"))
      (PubSub.mkContext (Some "admin")) after
    = PubSub.Reported (PubSub.mkReport (VNum (Num.of_Z 60)) sales None).
Proof.
  cbv zeta.
  destruct (X22_payment_then_monthly_report sample_env sample_env_again sample_message
              (sample_resource (Some "100.00")) sample_unit sample_amount sample_payer
              "u1_sp1" "sadc" "u1" "sp1" "100.00"
              {[ userRef "u1" := sample_user;
                 salespersonRef "sp1" :=
                   {[ "monthlyCommission" :=
                        VMap {[ "2024-06" := VNum (Num.of_Z 50) ]} ]} ]}
              sample_user
              {[ "monthlyCommission" := VMap {[ "2024-06" := VNum (Num.of_Z 50) ]} ]}
              {[ "2024-06" := VNum (Num.of_Z 50) ]} (Num.of_Z 50)
              (PubSub.mkContext (Some "admin")))
    as (sales & Hreport & _).
  - split; [intros q|]; reflexivity.
  - split; [intros q|]; reflexivity.
  - repeat split; vm_compute; reflexivity.
  - exact sample_message_approved.
  - split; [by eexists|]. split; [reflexivity|by eexists].
  - vm_compute; reflexivity.
  - vm_compute; reflexivity.
  - vm_compute; reflexivity.
  - vm_compute; reflexivity.
  - vm_compute; reflexivity.
  - by eexists.
  - exists sales. exact Hreport.
Defined.

(** ** Redelivery to the Pub/Sub handler *)

(** One processed order: both records are there afterwards, and the total
    of the salesperson has grown by the commission. *)
Lemma pubsub_total_after (e : env) (m : PubSub.Message) (r : Resource)
    (unit : PurchaseUnit) (a : Amount) (p : Payer) (cid tier uid sp amountText : string)
    (s : store) (userData data : gmap string value) (T : number) :
  reliable e ->
  plain_clock e ->
  approved_payment m r unit a p cid tier uid sp ->
  priced r a amountText ->
  PubSub.has_price tier = true ->
  s !! userRef uid = Some userData ->
  s !! salespersonRef sp = Some data ->
  data !! "totalCommission" = Some (VNum T) ->
  let out := PubSub.paypalWebhookHandler e m s in
  PubSub.thrown out = false
  /\ exists userData' data',
       PubSub.final out !! userRef uid = Some userData'
       /\ PubSub.final out !! salespersonRef sp = Some data'
       /\ data' !! "totalCommission"
          = Some (VNum (Num.add (settled T) (commission_of amountText))).
Proof.
  intros Hrel Hclock Happ Hpr Hprice Hu Hd HT. cbv zeta.
  pose proof Hpr as (_ & Hval & _). pose proof Hrel as [Hreads Hcommit].
  destruct (accrue_existing e sp a
              (<[userRef uid :=
                   Firestore.apply_update e
                     (PubSub.subscription e (resource_id r) (value_ a)
                        (currency_code a) tier) userData]> s) data
              (Hreads _) Hcommit Hclock)
    as (Hok & data' & Hafter & Htotal & _).
  { rewrite lookup_insert_ne by apply userRef_salespersonRef. exact Hd. }
  destruct (pubsub_accrued e m r unit a p cid tier uid sp amountText s userData
              Hrel Happ Hpr Hprice Hu Hok) as [Hthrown ->].
  split; [exact Hthrown|]. eexists _, data'. split; [|split; [exact Hafter|]].
  - rewrite accrue_frame by apply userRef_salespersonRef. apply lookup_insert_eq.
  - rewrite Htotal. unfold Js.field. rewrite HT. cbn [default].
    unfold commission_of. rewrite Hval. cbn [PubSub.paid].
    unfold Js.or_else, settled. cbn. by destruct (Num.truthy T).
Qed.

(** X23: the Pub/Sub handler applies a redelivered message again.  Two
    deliveries of the same approved order of a priced tier, for a stored
    user and a stored salesperson with total [T], are both acknowledged
    and leave the total at [((T + x) + x)], with [x = parseFloat(amount) *
    0.10] (a total that is 0 or NaN counting as 0 each time it is read):
    nothing compares order ids. *)
Theorem X23_pubsub_redelivery_accrues_twice (e1 e2 : env) (m : PubSub.Message)
    (r : Resource) (unit : PurchaseUnit) (a : Amount) (p : Payer)
    (cid tier uid sp amountText : string) (s : store)
    (userData data : gmap string value) (T : number) :
  reliable e1 ->
  reliable e2 ->
  plain_clock e1 ->
  plain_clock e2 ->
  approved_payment m r unit a p cid tier uid sp ->
  priced r a amountText ->
  PubSub.has_price tier = true ->
  s !! userRef uid = Some userData ->
  s !! salespersonRef sp = Some data ->
  data !! "totalCommission" = Some (VNum T) ->
  let once := PubSub.paypalWebhookHandler e1 m s in
  let twice := PubSub.paypalWebhookHandler e2 m (PubSub.final once) in
  let x := commission_of amountText in
  PubSub.thrown once = false
  /\ PubSub.thrown twice = false
  /\ stored_field (PubSub.final once) (salespersonRef sp) "totalCommission"
     = Some (VNum (Num.add (settled T) x))
  /\ stored_field (PubSub.final twice) (salespersonRef sp) "totalCommission"
     = Some (VNum (Num.add (settled (Num.add (settled T) x)) x)).
Proof.
  intros Hrel1 Hrel2 Hclock1 Hclock2 Happ Hpr Hprice Hu Hd HT. cbv zeta.
  destruct (pubsub_total_after e1 m r unit a p cid tier uid sp amountText s
              userData data T Hrel1 Hclock1 Happ Hpr Hprice Hu Hd HT)
    as (Hthrown1 & userData1 & data1 & Hu1 & Hd1 & HT1).
  destruct (pubsub_total_after e2 m r unit a p cid tier uid sp amountText
              (PubSub.final (PubSub.paypalWebhookHandler e1 m s))
              userData1 data1 _ Hrel2 Hclock2 Happ Hpr Hprice Hu1 Hd1 HT1)
    as (Hthrown2 & userData2 & data2 & _ & Hd2 & HT2).
  split; [exact Hthrown1|]. split; [exact Hthrown2|].
  unfold stored_field. rewrite Hd1, Hd2. by split.
Qed.

Lemma X23_pubsub_redelivery_accrues_twice_witness :
  let once := PubSub.paypalWebhookHandler sample_env sample_message sample_store_buckets in
  let twice := PubSub.paypalWebhookHandler sample_env_again sample_message
                 (PubSub.final once) in
  stored_field (PubSub.final once) (salespersonRef "sp1") "totalCommission"
  = Some (VNum (Num.of_Z 60))
  /\ stored_field (PubSub.final twice) (salespersonRef "sp1") "totalCommission"
     = Some (VNum (Num.of_Z 70)).
Proof.
  cbv zeta.
  destruct (X23_pubsub_redelivery_accrues_twice sample_env sample_env_again
              sample_message (sample_resource (Some "100.00")) sample_unit
              sample_amount sample_payer "u1_sp1" "sadc" "u1" "sp1" "100.00"
              sample_store_buckets sample_user sample_salesperson_buckets
              (Num.of_Z 50))
    as (_ & _ & Honce & Htwice).
  - split; [intros q|]; reflexivity.
  - split; [intros q|]; reflexivity.
  - repeat split; vm_compute; reflexivity.
  - repeat split; vm_compute; reflexivity.
  - exact sample_message_approved.
  - split; [by eexists|]. split; [reflexivity|by eexists].
  - vm_compute; reflexivity.
  - vm_compute; reflexivity.
  - vm_compute; reflexivity.
  - vm_compute; reflexivity.
  - split.
    + refine (eq_trans Honce _). vm_compute; reflexivity.
    + refine (eq_trans Htwice _). vm_compute; reflexivity.
Defined.
